(** * Outcome-timeline pipeline of [data_preparation.py]

    A shallow embedding of the three core stages of the data preparation
    script: [create_medication_periods], [create_observation_timeline] and
    [create_patient_medication_outcomes], together with the part of [main]
    that chains them.

    DataFrames are Python objects that the stages update in place, so the
    stages are written in a state-and-exception monad over a heap of frames.
    The row-level computations (the loops that build the record lists) are
    ordinary functions over lists of rows.

    What is taken from pandas / numpy / Python rather than from this
    repository is kept apart in the first part of the file: the text parsers
    behind [pd.to_datetime], [pd.to_numeric] and [float] are parameters
    (class [Parsers]), and numpy's [argsort], whose order among equal keys is
    not fixed for the default [kind="quicksort"], is a parameter constrained
    to return a sorting permutation (class [Argsort]). *)

From Stdlib Require Import ZArith Floats Uint63 Ascii Lia.
From stdpp Require Import gmap strings list sorting.

(** ** Python exceptions and the result monad *)

Inductive exn :=
  | ValueError | TypeError | KeyError | IndexError
  | AttributeError | ZeroDivisionError.

Inductive result (A : Type) :=
  | Ok (a : A)
  | Raise (e : exn).
Arguments Ok {A} a.
Arguments Raise {A} e.

#[global] Instance result_ret : MRet result := λ A a, Ok a.
#[global] Instance result_bind : MBind result := λ A B f r,
  match r with Ok a => f a | Raise e => Raise e end.
#[global] Instance result_fmap : FMap result := λ A B f r,
  match r with Ok a => Ok (f a) | Raise e => Raise e end.

(** A [for] loop whose body appends records to a list, or raises: the
    records in the order they are appended. *)
Fixpoint for_each {A B} (xs : list A) (body : A → result (list B))
    : result (list B) :=
  match xs with
  | [] => Ok []
  | x :: xs =>
      records ← body x;
      rest ← for_each xs body;
      mret (records ++ rest)
  end.

(** [try: body except (ValueError, TypeError): handler] *)
Definition try_except {A} (body : result A) (handler : result A) : result A :=
  match body with
  | Ok a => Ok a
  | Raise ValueError | Raise TypeError => handler
  | Raise e => Raise e
  end.

(** ** Cells *)

(** A cell of a date column. As [pd.read_csv] leaves it, it is text or,
    where the file has no entry, the float NaN; in a column that
    [pd.to_datetime] has converted it is a [pd.Timestamp] (nanoseconds since
    the epoch) or the missing timestamp NaT. The timestamps of the two
    tables are taken in one time zone convention (all naive or all UTC), so
    that any two of them can be subtracted. *)
Inductive date_cell :=
  | DStr (s : string)
  | DNaN
  | DTime (ns : Z)
  | DNaT.

(** A cell of a value column: text, or a float (NaN included). A column
    that [pd.to_numeric] leaves with integer dtype is represented by the
    floats that [float] makes of its entries. *)
Inductive value_cell :=
  | VStr (s : string)
  | VNum (f : float).

#[global] Instance date_cell_eq_dec : EqDecision date_cell.
Proof. solve_decision. Defined.

(** A cell of a code column. [pd.read_csv] gives a column of codes an
    integer dtype when every entry is a numeral (the SNOMED codes of the
    conditions, the RxNorm codes of the medications) and leaves the entries
    as text otherwise. The LOINC codes of the observations carry a hyphen
    and are text. *)
Inductive code_cell :=
  | CodeInt (n : Z)
  | CodeStr (s : string).

#[global] Instance code_cell_eq_dec : EqDecision code_cell.
Proof. solve_decision. Defined.

(** [pd.Timestamp.max]: the largest int64 count of nanoseconds. *)
Definition Timestamp_max : Z := 2 ^ 63 - 1.

Definition ns_per_day : Z := 86400 * 1000000000.

(** The text parsers of the libraries. [parse_datetime] answers [None]
    where [pd.to_datetime] raises (unparseable or out-of-bounds text),
    [Some None] for text it reads as missing (NaT) and [Some (Some ns)] for
    a timestamp; [parse_numeric] answers [None] where [pd.to_numeric] would
    raise without [errors="coerce"]; [parse_float] is Python's [float] on a
    [str]. [parse_datetime] is the parser for the format that
    [pd.to_datetime] settles on for the column, applied cell by cell. *)
Class Parsers := {
  parse_datetime : string → option (option Z);
  parse_numeric : string → option float;
  parse_float : string → option float;
}.

(** ** pandas operations on columns *)

Section pandas.
Context `{Parsers}.

Definition to_datetime_cell (c : date_cell) : result date_cell :=
  match c with
  | DStr s =>
      match parse_datetime s with
      | Some (Some ns) => Ok (DTime ns)
      | Some None => Ok DNaT
      | None => Raise ValueError
      end
  | DNaN => Ok DNaT
  | DTime ns => Ok (DTime ns)
  | DNaT => Ok DNaT
  end.

(** [pd.to_datetime(series)] *)
Definition to_datetime (col : list date_cell) : result (list date_cell) :=
  mapM to_datetime_cell col.

Definition to_numeric_cell (c : value_cell) : value_cell :=
  match c with
  | VStr s =>
      match parse_numeric s with
      | Some f => VNum f
      | None => VNum nan
      end
  | VNum f => VNum f
  end.

(** [pd.to_numeric(series, errors="coerce")] *)
Definition to_numeric (col : list value_cell) : list value_cell :=
  to_numeric_cell <$> col.

(** [series.fillna(v)] with a timestamp [v]: every missing cell is
    filled. *)
Definition fillna_cell (v : Z) (c : date_cell) : date_cell :=
  match c with DNaT | DNaN => DTime v | _ => c end.
Definition fillna (v : Z) (col : list date_cell) : list date_cell :=
  fillna_cell v <$> col.

(** Python's [float(x)] on a cell *)
Definition py_float (v : value_cell) : result float :=
  match v with
  | VNum f => Ok f
  | VStr s =>
      match parse_float s with
      | Some f => Ok f
      | None => Raise ValueError
      end
  end.
End pandas.

(** Python's [x / y] on floats *)
Definition py_truediv (x y : float) : result float :=
  if PrimFloat.eqb y 0%float then Raise ZeroDivisionError
  else Ok (PrimFloat.div x y).

(** [(a - b).days] for two cells. The difference of two timestamps is a
    [Timedelta], an int64 count of nanoseconds, and [.days] is its floor in
    days; a difference that is no [Timedelta] raises [OutOfBoundsDatetime],
    a [ValueError]. With NaT for one of two timestamps the difference is
    NaT, whose [.days] is NaN ([None] here). A cell that has not been
    converted cannot be subtracted: [-] is not defined between a timestamp
    (or NaT) and a [str] or a [float]; the difference of two float NaN is a
    float, which has no [.days]. *)
Definition timedelta_days (a b : date_cell) : result (option Z) :=
  match a, b with
  | DTime x, DTime y =>
      let d := (x - y)%Z in
      if bool_decide (- 2 ^ 63 < d < 2 ^ 63)%Z
      then Ok (Some (d `div` ns_per_day)%Z)
      else Raise ValueError
  | DTime _, DNaT | DNaT, DTime _ | DNaT, DNaT => Ok None
  | DNaN, DNaN => Raise AttributeError
  | _, _ => Raise TypeError
  end.

(** [series.unique()]: the distinct values in order of first appearance. *)
Fixpoint unique_from {K} `{EqDecision K} (seen : list K) (l : list K) : list K :=
  match l with
  | [] => []
  | x :: l =>
      if decide (x ∈ seen) then unique_from seen l
      else x :: unique_from (x :: seen) l
  end.
Definition unique {K} `{EqDecision K} (l : list K) : list K := unique_from [] l.

(** [df.groupby(by)] as it is iterated: the distinct keys in sorted order
    (the default [sort=True]), each with the rows of that key in their
    original order. A missing key, whose rows [groupby] drops, has no
    representation in the rows below. *)
Definition groupby {A K} `{EqDecision K} (R : relation K)
    `{∀ x y, Decision (R x y)} (by_ : A → K) (df : list A) : list (K * list A) :=
  (λ k, (k, filter (λ r, by_ r = k) df)) <$> merge_sort R (unique (by_ <$> df)).

(** The order of the sorted keys. The patient ids, the descriptions and
    the metric codes are text, ordered as Python orders [str]; the
    medication codes of an integer column are ordered by value, and where a
    column holds integers and text, the integers come first. Several keys
    are ordered one after the other: patient, then medication code, then
    medication description. *)
Definition str_le (a b : string) : Prop := String.leb a b = true.
#[global] Instance str_le_dec a b : Decision (str_le a b).
Proof. unfold str_le. apply _. Defined.

Definition code_le (a b : code_cell) : Prop :=
  match a, b with
  | CodeInt x, CodeInt y => (x ≤ y)%Z
  | CodeInt _, CodeStr _ => True
  | CodeStr _, CodeInt _ => False
  | CodeStr s, CodeStr t => str_le s t
  end.
#[global] Instance code_le_dec a b : Decision (code_le a b).
Proof. destruct a, b; simpl; apply _. Defined.

Definition tuple3_le (a b : string * code_cell * string) : Prop :=
  let '(a1, a2, a3) := a in
  let '(b1, b2, b3) := b in
  if decide (a1 = b1) then
    if decide (a2 = b2) then str_le a3 b3 else code_le a2 b2
  else str_le a1 b1.
#[global] Instance tuple3_le_dec a b : Decision (tuple3_le a b).
Proof. destruct a as [[??]?], b as [[??]?]; simpl; repeat case_decide; apply _. Defined.

(** Comparison of a cell of an integer column with a number: [cell <= n]
    and [cell > n]. A NaN cell compares false both ways. *)
Definition cell_le (c : option Z) (n : Z) : Prop :=
  match c with Some d => (d ≤ n)%Z | None => False end.
Definition cell_gt (c : option Z) (n : Z) : Prop :=
  match c with Some d => (n < d)%Z | None => False end.
#[global] Instance cell_le_dec c n : Decision (cell_le c n).
Proof. destruct c; simpl; apply _. Defined.
#[global] Instance cell_gt_dec c n : Decision (cell_gt c n).
Proof. destruct c; simpl; apply _. Defined.

(** ** Indexed frames

    A Series or DataFrame carries an index of row labels. The frames of the
    pipeline are built by [pd.DataFrame(records)] and carry a RangeIndex:
    the label of a row is its position. Filtering, grouping and sorting keep
    each row's label. *)

Definition with_index {A} (rows : list A) : list (nat * A) :=
  imap (λ i r, (i, r)) rows.

(** [series.iloc[0]] and [series.iloc[-1]] *)
Definition iloc_first {A} (s : list A) : result A :=
  match s with
  | [] => Raise IndexError
  | x :: _ => Ok x
  end.
Definition iloc_last {A} (s : list A) : result A :=
  match last s with
  | None => Raise IndexError
  | Some x => Ok x
  end.

(** [df.loc[label]] where labels are unique: the row carrying the label. *)
Definition loc_ {A} (df : list (nat * A)) (label : nat) : result A :=
  match list_find (λ p, p.1 = label) df with
  | Some (_, (_, r)) => Ok r
  | None => Raise KeyError
  end.

(** [series.idxmin()]: the label of the first occurrence of the minimum,
    NaN skipped; an all-NaN or empty series raises. *)
Fixpoint idxmin_from (best : nat * Z) (s : list (nat * Z)) : nat :=
  match s with
  | [] => best.1
  | (i, v) :: s =>
      if (v <? best.2)%Z then idxmin_from (i, v) s else idxmin_from best s
  end.
Definition idxmin (s : list (nat * option Z)) : result nat :=
  match omap (λ p, pair p.1 <$> p.2) s with
  | [] => Raise ValueError
  | b :: s => Ok (idxmin_from b s)
  end.

(** numpy's [argsort] on an array of integers: some permutation of the
    positions that puts the keys in ascending order. *)
Class Argsort := {
  argsort : list Z → list nat;
  argsort_perm ks : argsort ks ≡ₚ seq 0 (length ks);
  argsort_sorted ks : StronglySorted Z.le (omap (λ i, ks !! i) (argsort ks));
}.

(** [df.sort_values(by)]: the rows with a key, reordered by [argsort] of
    their keys, followed by the rows whose key is NaN
    ([na_position="last"]). *)
Definition sort_values `{Argsort} {A} (by_ : A → option Z) (df : list A) : list A :=
  let non_nan := filter (λ r, is_Some (by_ r)) df in
  let nan := filter (λ r, by_ r = None) df in
  omap (λ i, non_nan !! i) (argsort (omap by_ non_nan)) ++ nan.

(** A stable sort of the positions by key, for running the model. *)
Definition key_le (a b : Z * nat) : Prop := (a.1 ≤ b.1)%Z.
#[global] Instance key_le_dec a b : Decision (key_le a b).
Proof. unfold key_le. apply _. Defined.
Definition stable_argsort (ks : list Z) : list nat :=
  snd <$> merge_sort key_le (zip ks (seq 0 (length ks))).

(** ** Rows *)

Module medication.
Record t := mk {
  patient : string;
  code : code_cell;
  description : string;
  start : date_cell;
  stop : date_cell;
  reasondescription : option string;
}.
Definition with_start (r : t) (v : date_cell) : t :=
  mk (patient r) (code r) (description r) v (stop r) (reasondescription r).
Definition with_stop (r : t) (v : date_cell) : t :=
  mk (patient r) (code r) (description r) (start r) v (reasondescription r).
End medication.

Module observation.
Record t := mk {
  patient : string;
  code : string;
  description : string;
  date : date_cell;
  value : value_cell;
  units : string;
}.
Definition with_date (r : t) (v : date_cell) : t :=
  mk (patient r) (code r) (description r) v (value r) (units r).
Definition with_value (r : t) (v : value_cell) : t :=
  mk (patient r) (code r) (description r) (date r) v (units r).
End observation.

Module timeline.
Record t := mk {
  patient : string;
  med_code : code_cell;
  med_description : string;
  med_start_date : date_cell;
  obs_code : string;
  obs_description : string;
  obs_date : date_cell;
  days_relative : option Z;
  value : value_cell;
  units : string;
}.
Definition with_value (r : t) (v : value_cell) : t :=
  mk (patient r) (med_code r) (med_description r) (med_start_date r)
     (obs_code r) (obs_description r) (obs_date r) (days_relative r) v (units r).
End timeline.

Module outcome.
Record t := mk {
  patient : string;
  med_code : code_cell;
  med_description : string;
  obs_code : string;
  obs_description : string;
  pre_value : value_cell;
  post_value : value_cell;
  change : float;
  percent_change : float;
  pre_date : date_cell;
  post_date : date_cell;
  days_between : option Z;
  units : string;
}.
End outcome.

(** ** The heap of DataFrames *)

Inductive frame :=
  | Medications (rows : list medication.t)
  | Observations (rows : list observation.t)
  | Timeline (rows : list timeline.t)
  | Outcomes (rows : list outcome.t).

Abbreviation loc := positive.
Abbreviation heap := (gmap loc frame).

(** Computations that read and update the heap and may raise. *)
Definition M (A : Type) : Type := heap → heap * result A.

#[global] Instance M_ret : MRet M := λ A a h, (h, Ok a).
#[global] Instance M_bind : MBind M := λ A B f m h,
  match m h with
  | (h', Ok a) => f a h'
  | (h', Raise e) => (h', Raise e)
  end.

Definition lift {A} (r : result A) : M A := λ h, (h, r).

(** Reading a frame through a reference; a frame without the columns that
    are asked for gives [KeyError]. *)
Definition read_medications (df : loc) : M (list medication.t) := λ h,
  match h !! df with
  | Some (Medications rows) => (h, Ok rows)
  | _ => (h, Raise KeyError)
  end.
Definition read_observations (df : loc) : M (list observation.t) := λ h,
  match h !! df with
  | Some (Observations rows) => (h, Ok rows)
  | _ => (h, Raise KeyError)
  end.
Definition read_timeline (df : loc) : M (list timeline.t) := λ h,
  match h !! df with
  | Some (Timeline rows) => (h, Ok rows)
  | _ => (h, Raise KeyError)
  end.

(** In-place update of the frame behind a reference. *)
Definition store (df : loc) (f : frame) : M () := λ h, (<[df := f]> h, Ok ()).

(** [pd.DataFrame(records)]: a new object. *)
Definition new_frame (f : frame) : M loc := λ h,
  let l := fresh (dom h) in (<[l := f]> h, Ok l).

(** [df[col] = series]: the column is replaced in the frame itself. *)
Definition assign_medications (df : loc)
    (set : medication.t → date_cell → medication.t) (col : list date_cell) : M () :=
  rows ← read_medications df;
  store df (Medications (zip_with set rows col)).
Definition assign_observations {C} (df : loc)
    (set : observation.t → C → observation.t) (col : list C) : M () :=
  rows ← read_observations df;
  store df (Observations (zip_with set rows col)).
Definition assign_timeline (df : loc)
    (set : timeline.t → value_cell → timeline.t) (col : list value_cell) : M () :=
  rows ← read_timeline df;
  store df (Timeline (zip_with set rows col)).

(** ** The stages *)

Section stages.
Context `{Parsers} `{Argsort}.

(** *** [create_medication_periods] *)

Definition create_medication_periods (medications_df : loc) : M loc :=
  (* medications_df["start"] = pd.to_datetime(medications_df["start"]) *)
  rows ← read_medications medications_df;
  col ← lift (to_datetime (medication.start <$> rows));
  assign_medications medications_df medication.with_start col;;
  (* medications_df["stop"] = pd.to_datetime(medications_df["stop"]) *)
  rows ← read_medications medications_df;
  col ← lift (to_datetime (medication.stop <$> rows));
  assign_medications medications_df medication.with_stop col;;
  (* medications_df["stop"] = medications_df["stop"].fillna(pd.Timestamp.max) *)
  rows ← read_medications medications_df;
  assign_medications medications_df medication.with_stop
    (fillna Timestamp_max (medication.stop <$> rows));;
  mret medications_df.

(** *** [create_observation_timeline] *)

(** The record appended for one medication row and one observation row. *)
Definition timeline_record (patient : string)
    (med_row : medication.t) (obs_row : observation.t) : result timeline.t :=
  let med_start := medication.start med_row in
  let med_code := medication.code med_row in
  let med_desc := medication.description med_row in
  let obs_date := observation.date obs_row in
  days_relative ← timedelta_days obs_date med_start;
  mret (timeline.mk patient med_code med_desc med_start
          (observation.code obs_row) (observation.description obs_row)
          obs_date days_relative
          (observation.value obs_row) (observation.units obs_row)).

(** The loop over patients, medications and observations; the list it
    returns is [timeline_records] in the order of the [append]s. *)
Definition timeline_records (observations : list observation.t)
    (medication_periods : list medication.t) : result (list timeline.t) :=
  for_each (unique (observation.patient <$> observations)) (λ patient,
    let patient_obs :=
      filter (λ o, observation.patient o = patient) observations in
    let patient_meds :=
      filter (λ m, medication.patient m = patient) medication_periods in
    if decide (length patient_meds = 0) then mret []
    else
      for_each patient_meds (λ med_row,
        for_each patient_obs (λ obs_row,
          record ← timeline_record patient med_row obs_row;
          mret [record]))).

Definition create_observation_timeline
    (observations_df medication_periods_df : loc) : M loc :=
  observations ← read_observations observations_df;
  medication_periods ← read_medications medication_periods_df;
  if decide (observations = [] ∨ medication_periods = []) then
    new_frame (Timeline [])
  else
    (* observations_df["date"] = pd.to_datetime(observations_df["date"]) *)
    col ← lift (to_datetime (observation.date <$> observations));
    assign_observations observations_df observation.with_date col;;
    (* observations_df["value"] = pd.to_numeric(..., errors="coerce") *)
    observations ← read_observations observations_df;
    assign_observations observations_df observation.with_value
      (to_numeric (observation.value <$> observations));;
    observations ← read_observations observations_df;
    medication_periods ← read_medications medication_periods_df;
    timeline_records ← lift (timeline_records observations medication_periods);
    new_frame (Timeline timeline_records).

(** *** [create_patient_medication_outcomes] *)

(** The [try] block that computes [change] and [percent_change], with its
    [except (ValueError, TypeError)] handler. *)
Definition calculate_change (pre_value post_value : value_cell)
    : result (float * float) :=
  try_except
    (post ← py_float post_value;
     pre ← py_float pre_value;
     let change := PrimFloat.sub post pre in
     pre' ← py_float pre_value;
     percent_change ←
       (if negb (PrimFloat.eqb pre' 0%float) then
          pre'' ← py_float pre_value;
          q ← py_truediv change pre'';
          mret (PrimFloat.mul q 100%float)
        else mret nan);
     mret (change, percent_change))
    (mret (nan, nan)).

Definition target_days : Z := 180.

(** The body of the inner loop: what one [obs_group] of one
    [(patient, med_code, med_desc)] group appends to [outcome_records]
    (nothing where the source says [continue]). The [.iloc[-1]] and
    [.loc[closest_idx, _]] lookups that the source repeats per column are
    done once per row. *)
Definition group_outcome (patient : string) (med_code : code_cell)
    (med_desc obs_code : string)
    (obs_group : list (nat * timeline.t)) : result (list outcome.t) :=
  if decide (length obs_group < 2) then mret []
  else
    obs_desc ← iloc_first (timeline.obs_description ∘ snd <$> obs_group);
    units ← iloc_first (timeline.units ∘ snd <$> obs_group);
    let obs_group := sort_values (timeline.days_relative ∘ snd) obs_group in
    let pre_med :=
      filter (λ r, cell_le (timeline.days_relative r.2) 0) obs_group in
    if decide (0 < length pre_med) then
      pre_row ← iloc_last pre_med;
      let pre_value := timeline.value pre_row.2 in
      let pre_date := timeline.obs_date pre_row.2 in
      let post_med :=
        filter (λ r, cell_gt (timeline.days_relative r.2) 0) obs_group in
      if decide (0 < length post_med) then
        let days_diff :=
          (λ r, (r.1, (λ d, Z.abs (d - target_days)) <$>
                        timeline.days_relative r.2)) <$> post_med in
        closest_idx ← idxmin days_diff;
        post_row ← loc_ post_med closest_idx;
        let post_value := timeline.value post_row in
        let post_date := timeline.obs_date post_row in
        let actual_days := timeline.days_relative post_row in
        '(change, percent_change) ← calculate_change pre_value post_value;
        mret [outcome.mk patient med_code med_desc obs_code obs_desc
                pre_value post_value change percent_change
                pre_date post_date actual_days units]
      else mret []
    else mret [].

Definition med_key (r : nat * timeline.t) : string * code_cell * string :=
  (timeline.patient r.2, timeline.med_code r.2, timeline.med_description r.2).
Definition obs_key (r : nat * timeline.t) : string :=
  timeline.obs_code r.2.

(** The two nested [groupby] loops. *)
Definition outcome_records (timeline_df : list timeline.t)
    : result (list outcome.t) :=
  for_each (groupby tuple3_le med_key (with_index timeline_df))
    (λ '((patient, med_code, med_desc), group),
      for_each (groupby str_le obs_key group)
        (λ '(obs_code, obs_group),
          group_outcome patient med_code med_desc obs_code obs_group)).

Definition create_patient_medication_outcomes (timeline_df : loc) : M loc :=
  rows ← read_timeline timeline_df;
  if decide (rows = []) then new_frame (Outcomes [])
  else
    (* timeline_df["value"] = pd.to_numeric(..., errors="coerce") *)
    assign_timeline timeline_df timeline.with_value
      (to_numeric (timeline.value <$> rows));;
    rows ← read_timeline timeline_df;
    outcome_records ← lift (outcome_records rows);
    new_frame (Outcomes outcome_records).

(** *** The core of [main] *)

Definition main (medications observations : loc) : M (loc * loc) :=
  medication_periods ← create_medication_periods medications;
  timeline_df ← create_observation_timeline observations medication_periods;
  outcomes_df ← create_patient_medication_outcomes timeline_df;
  mret (timeline_df, outcomes_df).
End stages.

(** ** Parsers for running the model

    Small stand-ins for the libraries' parsers, enough to run the stages on
    sample tables: ISO calendar dates [YYYY-MM-DD] (midnight UTC, proleptic
    Gregorian calendar) and plain decimal numerals. *)

Module sample.
Definition digit (a : Ascii.ascii) : option Z :=
  let n := (Z.of_nat (Ascii.nat_of_ascii a) - 48)%Z in
  if bool_decide (0 ≤ n ≤ 9)%Z then Some n else None.

Fixpoint decimal_from (acc : Z) (s : string) : option Z :=
  match s with
  | EmptyString => Some acc
  | String a s => d ← digit a; decimal_from (10 * acc + d)%Z s
  end.

Definition decimal (s : string) : option Z :=
  if decide (s = EmptyString) then None else decimal_from 0 s.

Definition is_leap (y : Z) : bool :=
  bool_decide (y `mod` 4 = 0 ∧ (y `mod` 100 ≠ 0 ∨ y `mod` 400 = 0))%Z.

Definition days_in_month (y m : Z) : Z :=
  if bool_decide (m = 2)%Z then (if is_leap y then 29 else 28)%Z
  else if bool_decide (m ∈ [4; 6; 9; 11]%Z) then 30%Z else 31%Z.

(** Days since 1970-01-01 of a calendar date. *)
Definition days_from_civil (y m d : Z) : Z :=
  let y := (if bool_decide (m ≤ 2) then y - 1 else y)%Z in
  let era := (y `div` 400)%Z in
  let yoe := (y - era * 400)%Z in
  let mp := (if bool_decide (2 < m) then m - 3 else m + 9)%Z in
  let doy := ((153 * mp + 2) `div` 5 + d - 1)%Z in
  let doe := (yoe * 365 + yoe `div` 4 - yoe `div` 100 + doy)%Z in
  (era * 146097 + doe - 719468)%Z.

Definition iso_date (s : string) : option Z :=
  if decide (String.length s = 10
             ∧ String.get 4 s = Some "-"%char
             ∧ String.get 7 s = Some "-"%char) then
    y ← decimal (String.substring 0 4 s);
    m ← decimal (String.substring 5 2 s);
    d ← decimal (String.substring 8 2 s);
    if bool_decide (1 ≤ m ≤ 12 ∧ 1 ≤ d ≤ days_in_month y m)%Z
    then Some (days_from_civil y m d * ns_per_day)%Z
    else None
  else None.

Definition float_of_Z (z : Z) : float := PrimFloat.of_uint63 (Uint63.of_Z z).

Fixpoint split_dot (s : string) : string * option string :=
  match s with
  | EmptyString => (EmptyString, None)
  | String a s =>
      if Ascii.eqb a "."%char then (EmptyString, Some s)
      else let '(i, f) := split_dot s in (String a i, f)
  end.

(** A decimal numeral with at most 53 bits of digits: the quotient of two
    exactly represented integers, rounded once. *)
Definition numeral (s : string) : option float :=
  let '(neg, s) :=
    match s with
    | String "-"%char s => (true, s)
    | _ => (false, s)
    end in
  let '(i, f) := split_dot s in
  let f := default "0" f in
  n ← decimal (i +:+ f);
  let k := Z.of_nat (String.length f) in
  if bool_decide (n < 2 ^ 53 ∧ k ≤ 22)%Z then
    let x := PrimFloat.div (float_of_Z n) (float_of_Z (10 ^ k)) in
    Some (if neg : bool then PrimFloat.opp x else x)
  else None.

#[global] Instance parsers : Parsers :=
  {| parse_datetime := λ s, Some <$> iso_date s;
     parse_numeric := numeral;
     parse_float := numeral |}.
End sample.

(** ** Notions used in the statements *)

Section notions.
Context `{Parsers} `{Argsort}.

(** The part of [group_outcome] that picks rows: the first row of the
    group, the "pre" row and the "post" row with its label, or [None] where
    the group is skipped. [group_outcome] is this followed by [outcome_of]
    (lemma [group_outcome_selection]). *)
Definition selection (obs_group : list (nat * timeline.t))
    : result (option ((nat * timeline.t) * (nat * timeline.t) * (nat * timeline.t))) :=
  if decide (length obs_group < 2) then mret None
  else
    first ← iloc_first obs_group;
    let obs_group := sort_values (timeline.days_relative ∘ snd) obs_group in
    let pre_med :=
      filter (λ r, cell_le (timeline.days_relative r.2) 0) obs_group in
    if decide (0 < length pre_med) then
      pre_row ← iloc_last pre_med;
      let post_med :=
        filter (λ r, cell_gt (timeline.days_relative r.2) 0) obs_group in
      if decide (0 < length post_med) then
        let days_diff :=
          (λ r, (r.1, (λ d, Z.abs (d - target_days)) <$>
                        timeline.days_relative r.2)) <$> post_med in
        closest_idx ← idxmin days_diff;
        post_row ← loc_ post_med closest_idx;
        mret (Some (first, pre_row, (closest_idx, post_row)))
      else mret None
    else mret None.

Definition outcome_of (patient : string) (med_code : code_cell)
    (med_desc obs_code : string)
    (first pre post : timeline.t) : result outcome.t :=
  '(change, percent_change) ←
    calculate_change (timeline.value pre) (timeline.value post);
  mret (outcome.mk patient med_code med_desc obs_code
          (timeline.obs_description first)
          (timeline.value pre) (timeline.value post) change percent_change
          (timeline.obs_date pre) (timeline.obs_date post)
          (timeline.days_relative post) (timeline.units first)).

(** Groups of the resolver: the timeline rows of one (patient, medication
    code, medication description, metric code), in their original order. *)
Definition group_key (r : timeline.t) : string * code_cell * string * string :=
  (timeline.patient r, timeline.med_code r, timeline.med_description r,
   timeline.obs_code r).
Definition outcome_key (o : outcome.t) : string * code_cell * string * string :=
  (outcome.patient o, outcome.med_code o, outcome.med_description o,
   outcome.obs_code o).
Definition group_of (rows : list timeline.t)
    (k : string * code_cell * string * string) : list timeline.t :=
  filter (λ r, group_key r = k) rows.
Definition labelled_group (rows : list timeline.t)
    (k : string * code_cell * string * string) : list (nat * timeline.t) :=
  filter (λ r, group_key r.2 = k) (with_index rows).

(** The statement of the selection policy. [pre] is a most recent
    observation of the group at or before the medication start: its offset
    is at most 0 and no offset of the group that is at most 0 is larger.
    [post] is an observation after the start that is closest to the target
    day: its offset is positive, no positive offset of the group is nearer
    to [target_days], and of the offsets that are equally near it is the
    smallest. *)
Definition most_recent_before (group : list timeline.t) (pre : timeline.t) : Prop :=
  pre ∈ group ∧ ∃ d, timeline.days_relative pre = Some d ∧ (d ≤ 0)%Z
    ∧ ∀ r d', r ∈ group → timeline.days_relative r = Some d' →
        (d' ≤ 0)%Z → (d' ≤ d)%Z.
Definition closest_after (group : list timeline.t) (post : timeline.t) : Prop :=
  post ∈ group ∧ ∃ d, timeline.days_relative post = Some d ∧ (0 < d)%Z
    ∧ ∀ r d', r ∈ group → timeline.days_relative r = Some d' → (0 < d')%Z →
        (Z.abs (d - target_days) ≤ Z.abs (d' - target_days))%Z
        ∧ (Z.abs (d' - target_days) = Z.abs (d - target_days) → (d ≤ d')%Z).

(** A date cell that [pd.to_datetime] accepts, and what it becomes. *)
Definition converts_to (c c' : date_cell) : Prop := to_datetime_cell c = Ok c'.

(** Timestamps between the years 1824 and 2116: any two of them differ by
    a representable [Timedelta]. *)
Definition in_era (c : date_cell) : Prop :=
  match c with
  | DTime ns => (- 2 ^ 62 < ns < 2 ^ 62)%Z
  | _ => True
  end.
(** A cell of a converted column: a timestamp or NaT. *)
Definition is_datetime (c : date_cell) : Prop :=
  match c with DTime _ | DNaT => True | _ => False end.

(** The statement of the normalizer: the period of a medication record. *)
Definition period_of (m p : medication.t) : Prop :=
  medication.patient p = medication.patient m
  ∧ medication.code p = medication.code m
  ∧ medication.description p = medication.description m
  ∧ medication.reasondescription p = medication.reasondescription m
  ∧ converts_to (medication.start m) (medication.start p)
  ∧ (converts_to (medication.stop m) DNaT →
       medication.stop p = DTime Timestamp_max)
  ∧ (¬ converts_to (medication.stop m) DNaT →
       converts_to (medication.stop m) (medication.stop p))
  ∧ (∀ ns, medication.stop m = DTime ns → medication.stop p = DTime ns).

(** The statement of the timeline builder: the day difference of two
    dates, the pairs of a medication period and an observation of one
    patient, and the timeline record of such a pair. *)
Definition day_difference (obs_date med_start : date_cell) : option Z :=
  match obs_date, med_start with
  | DTime a, DTime b => Some ((a - b) `div` ns_per_day)%Z
  | _, _ => None
  end.

Definition patient_pairs (periods : list medication.t)
    (observations : list observation.t) : list (medication.t * observation.t) :=
  m ← periods; o ← observations;
  if decide (observation.patient o = medication.patient m) then [(m, o)] else [].

Definition timeline_of (mo : medication.t * observation.t) (r : timeline.t) : Prop :=
  let '(m, o) := mo in
  timeline.patient r = observation.patient o
  ∧ timeline.med_code r = medication.code m
  ∧ timeline.med_description r = medication.description m
  ∧ timeline.med_start_date r = medication.start m
  ∧ timeline.obs_code r = observation.code o
  ∧ timeline.obs_description r = observation.description o
  ∧ converts_to (observation.date o) (timeline.obs_date r)
  ∧ timeline.value r = to_numeric_cell (observation.value o)
  ∧ timeline.units r = observation.units o
  ∧ timeline.days_relative r
      = day_difference (timeline.obs_date r) (medication.start m).

(** What [main] hands on: the contents of the two frames it returns. *)
Definition outputs (r : heap * result (loc * loc))
    : result (option frame * option frame) :=
  '(timeline_df, outcomes_df) ← r.2;
  mret (r.1 !! timeline_df, r.1 !! outcomes_df).
End notions.

(** Rows in key order, as [sort_values] leaves them. *)
Definition key_ordered {A} (by_ : A → option Z) (a b : A) : Prop :=
  ∀ x y, by_ a = Some x → by_ b = Some y → (x ≤ y)%Z.

(** The timeline with the value of the row at each position [i] replaced
    by [v i], and the same for a labelled row and for a selection. Two
    outcome records report the same selection when they agree on everything
    but the values, and their values are those of the same two rows. *)
Definition revalue (v : nat → value_cell) (rows : list timeline.t) : list timeline.t :=
  imap (λ i r, timeline.with_value r (v i)) rows.
Definition revalue_row (v : nat → value_cell) (r : nat * timeline.t) : nat * timeline.t :=
  (r.1, timeline.with_value r.2 (v r.1)).

Definition revalue_selected (v : nat → value_cell)
    (sel : option ((nat * timeline.t) * (nat * timeline.t) * (nat * timeline.t)))
    : option ((nat * timeline.t) * (nat * timeline.t) * (nat * timeline.t)) :=
  match sel with
  | Some (first, pre, post) =>
      Some (revalue_row v first, revalue_row v pre, revalue_row v post)
  | None => None
  end.

Definition same_selection (rows : list timeline.t) (v : nat → value_cell)
    (out out' : outcome.t) : Prop :=
  outcome_key out' = outcome_key out
  ∧ outcome.obs_description out' = outcome.obs_description out
  ∧ outcome.units out' = outcome.units out
  ∧ outcome.pre_date out' = outcome.pre_date out
  ∧ outcome.post_date out' = outcome.post_date out
  ∧ outcome.days_between out' = outcome.days_between out
  ∧ ∃ i j pre post,
      rows !! i = Some pre ∧ rows !! j = Some post
      ∧ outcome.pre_value out = timeline.value pre
      ∧ outcome.post_value out = timeline.value post
      ∧ outcome.pre_value out' = v i
      ∧ outcome.post_value out' = v j.

(** ** The stages as functions of the contents of their inputs

    The run of a stage on the heap is determined by the contents of the
    frames it is given (lemmas [create_medication_periods_run],
    [create_observation_timeline_run],
    [create_patient_medication_outcomes_run] and [main_run]). *)

Section contents.
Context `{Parsers} `{Argsort}.

(** What [pd.to_datetime] makes of a cell it accepts. *)
Definition converted (c : date_cell) : date_cell :=
  match to_datetime_cell c with Ok c' => c' | Raise _ => c end.

(** The stages as functions of the contents of their inputs. *)
Definition normalize (f : option frame) : result (list medication.t) :=
  match f with
  | Some (Medications rows) =>
      starts ← to_datetime (medication.start <$> rows);
      let rows := zip_with medication.with_start rows starts in
      stops ← to_datetime (medication.stop <$> rows);
      let rows := zip_with medication.with_stop rows stops in
      mret (zip_with medication.with_stop rows
              (fillna Timestamp_max (medication.stop <$> rows)))
  | _ => Raise KeyError
  end.

Definition coerce (observations : list observation.t) : result (list observation.t) :=
  dates ← to_datetime (observation.date <$> observations);
  let observations := zip_with observation.with_date observations dates in
  mret (zip_with observation.with_value observations
          (to_numeric (observation.value <$> observations))).

Definition build (observations medication_periods : option frame)
    : result (list timeline.t) :=
  match observations, medication_periods with
  | Some (Observations os), Some (Medications ms) =>
      if decide (os = [] ∨ ms = []) then Ok []
      else os' ← coerce os; timeline_records os' ms
  | _, _ => Raise KeyError
  end.

Definition numeric (rows : list timeline.t) : list timeline.t :=
  zip_with timeline.with_value rows (to_numeric (timeline.value <$> rows)).

Definition resolve (timeline_df : option frame) : result (list outcome.t) :=
  match timeline_df with
  | Some (Timeline rows) =>
      if decide (rows = []) then Ok [] else outcome_records (numeric rows)
  | _ => Raise KeyError
  end.

(** What [main] hands on, as a function of the contents of its inputs. *)
Definition pipeline (medications observations : option frame)
    : result (option frame * option frame) :=
  periods ← normalize medications;
  records ← build observations (Some (Medications periods));
  outs ← resolve (Some (Timeline records));
  mret (Some (Timeline (numeric records)), Some (Outcomes outs)).

(** The same, row by row, for tables whose date cells convert. *)
Definition normalized_row (m : medication.t) : medication.t :=
  medication.mk (medication.patient m) (medication.code m)
    (medication.description m) (converted (medication.start m))
    (fillna_cell Timestamp_max (converted (medication.stop m)))
    (medication.reasondescription m).

Definition coerced_row (o : observation.t) : observation.t :=
  observation.mk (observation.patient o) (observation.code o)
    (observation.description o) (converted (observation.date o))
    (to_numeric_cell (observation.value o)) (observation.units o).

Definition numeric_row (r : timeline.t) : timeline.t :=
  timeline.with_value r (to_numeric_cell (timeline.value r)).

Definition started (m : medication.t) : medication.t :=
  medication.with_start m (converted (medication.start m)).
Definition stopped (m : medication.t) : medication.t :=
  medication.with_stop m (converted (medication.stop m)).
Definition filled (m : medication.t) : medication.t :=
  medication.with_stop m (fillna_cell Timestamp_max (medication.stop m)).
End contents.

(** The pairs in the order of the loops: patients in order of first
    appearance among the observations, then the patient's medications, then
    the patient's observations. *)
Definition loop_pairs (observations : list observation.t)
    (periods : list medication.t) : list (medication.t * observation.t) :=
  patient ← unique (observation.patient <$> observations);
  m ← filter (λ m, medication.patient m = patient) periods;
  o ← filter (λ o, observation.patient o = patient) observations;
  [(m, o)].

(** The timeline record of a medication period and a (converted)
    observation of its patient. *)
Definition record_of (mo : medication.t * observation.t) : timeline.t :=
  timeline.mk (observation.patient mo.2) (medication.code mo.1)
    (medication.description mo.1) (medication.start mo.1)
    (observation.code mo.2) (observation.description mo.2)
    (observation.date mo.2)
    (day_difference (observation.date mo.2) (medication.start mo.1))
    (observation.value mo.2) (observation.units mo.2).

(** ** Sample tables *)

Definition sample_medications : list medication.t :=
  [medication.mk "P1" (CodeInt 860975) "Metformin 500 MG" (DStr "2020-01-01") DNaN
     (Some "Diabetes");
   medication.mk "P1" (CodeInt 106892) "Insulin" (DStr "2019-03-15")
     (DStr "2019-09-15") None].

Definition sample_periods : list medication.t :=
  [medication.mk "P1" (CodeInt 860975) "Metformin 500 MG"
     (DTime 1577836800000000000) (DTime Timestamp_max) None].

Definition sample_observations : list observation.t :=
  [observation.mk "P1" "4548-4" "Hemoglobin A1c" (DStr "2019-12-01") (VStr "9.0") "%";
   observation.mk "P2" "4548-4" "Hemoglobin A1c" (DStr "2020-02-01") (VStr "6.1") "%";
   observation.mk "P1" "4548-4" "Hemoglobin A1c" (DStr "2020-07-01") (VStr "7.0") "%"].

Definition sample_heap : heap :=
  <[2%positive := Observations sample_observations]>
    {[1%positive := Medications sample_periods]}.

Definition sample_tables : heap :=
  <[2%positive := Observations sample_observations]>
    {[1%positive := Medications sample_medications]}.

Definition sample_tables_elsewhere : heap :=
  <[7%positive := Observations sample_observations]>
    (<[5%positive := Medications sample_medications]>
       {[1%positive := Timeline []]}).

(** A one-group timeline with the given offsets and values, in the given
    order. *)
Definition offsets_timeline (offsets : list (Z * value_cell)) : list timeline.t :=
  (λ dv : Z * value_cell,
     timeline.mk "P" (CodeStr "M") "Metformin" (DTime 0) "X" "HbA1c"
       (DTime (dv.1 * ns_per_day)) (Some dv.1) dv.2 "%")
    <$> offsets.

(** What an outcome record reports of its selection. *)
Definition reported (o : outcome.t)
    : value_cell * value_cell * float * float * option Z :=
  (outcome.pre_value o, outcome.post_value o, outcome.change o,
   outcome.percent_change o, outcome.days_between o).

(** Patient P, medication M from 2020-01-01, metric X at 9.0 on 2019-12-01
    and at 7.0 on 2020-07-01. *)
Definition scenario : heap :=
  <[2%positive := Observations
      [observation.mk "P" "X" "HbA1c" (DStr "2019-12-01") (VStr "9.0") "%";
       observation.mk "P" "X" "HbA1c" (DStr "2020-07-01") (VStr "7.0") "%"]]>
    {[1%positive := Medications
        [medication.mk "P" (CodeStr "M") "Metformin" (DStr "2020-01-01") DNaN None]]}.

(** * The rest of [data_preparation.py]: the cohort, and what is saved *)

(** [series.isin(values)] for a list of [str]: an integer equals no
    [str]. *)
Definition isin (values : list string) (c : code_cell) : Prop :=
  match c with
  | CodeStr s => s ∈ values
  | CodeInt _ => False
  end.
#[global] Instance isin_dec values c : Decision (isin values c).
Proof. destruct c; simpl; apply _. Defined.

(** [series.str.contains(pat, case=False, na=False)] on one cell of text:
    the case-insensitive regular-expression search of the library, a
    parameter like the parsers. *)
Class Regex := {
  str_contains : string → string → bool;
}.

(** The rows of the conditions table; a description is text, or missing
    where the file has no entry. *)
Module condition.
Record t := mk {
  patient : string;
  code : code_cell;
  description : option string;
  start : string;
}.
End condition.

Module patient_info.
Record t := mk {
  patient : string;
  gender : string;
  race : string;
  ethnicity : string;
}.
End patient_info.

(** [series.str], the accessor of a column of text, on a column as
    [pd.read_csv] leaves it. A column of a table with rows in which no entry
    is text (every entry is missing) is read as a float64 column, on which
    the accessor raises; the column of a table without rows is an empty
    column of objects, which it accepts. *)
Definition str_accessor (col : list (option string)) : result (list (option string)) :=
  if decide (col ≠ [] ∧ Forall (λ c, c = None) col) then Raise AttributeError
  else Ok col.

Section cohort.
Context `{Regex}.

(** The mask of the text match; a missing description ([na=False]) does
    not match. *)
Definition mentions_diabetes (c : condition.t) : Prop :=
  match condition.description c with
  | Some d => str_contains "diabetes|diabetic" d = true
  | None => False
  end.
#[global] Instance mentions_diabetes_dec c : Decision (mentions_diabetes c).
Proof. unfold mentions_diabetes. destruct (condition.description c); apply _. Defined.

Definition identify_diabetic_patients (conditions_df : list condition.t)
    (diabetes_codes : list string) : result (gset string) :=
  let diabetes_conditions :=
    filter (λ c, isin diabetes_codes (condition.code c)) conditions_df in
  let diabetic_patients : gset string :=
    list_to_set (unique (condition.patient <$> diabetes_conditions)) in
  (* conditions_df["description"].str.contains(...) *)
  _ ← str_accessor (condition.description <$> conditions_df);
  let diabetes_desc_conditions := filter mentions_diabetes conditions_df in
  let diabetic_patients_desc : gset string :=
    list_to_set (unique (condition.patient <$> diabetes_desc_conditions)) in
  mret (diabetic_patients ∪ diabetic_patients_desc).
End cohort.

(** The dict of tables. No function updates the patients and conditions
    tables, which are held by value; the medications and observations
    tables are frames of the heap. *)
Module dataset.
Record t := mk {
  patients : list patient_info.t;
  conditions : list condition.t;
  medications : loc;
  observations : loc;
}.
Definition with_observations (d : t) (df : loc) : t :=
  mk (patients d) (conditions d) (medications d) df.
End dataset.

(** [df[mask]] is a new frame with the rows where the mask holds. *)
Definition filter_dataset_for_diabetic_patients (dataset : dataset.t)
    (diabetic_patients : gset string) (include_comorbidities : bool)
    : M dataset.t :=
  let patients :=
    filter (λ r, patient_info.patient r ∈ diabetic_patients)
      (dataset.patients dataset) in
  let conditions :=
    if include_comorbidities then
      filter (λ c, condition.patient c ∈ diabetic_patients)
        (dataset.conditions dataset)
    else
      filter (λ c, condition.patient c ∈ diabetic_patients
                   ∧ isin ["44054006"; "46635009"] (condition.code c))
        (dataset.conditions dataset) in
  rows ← read_medications (dataset.medications dataset);
  medications ← new_frame
    (Medications (filter (λ m, medication.patient m ∈ diabetic_patients) rows));
  rows ← read_observations (dataset.observations dataset);
  observations ← new_frame
    (Observations (filter (λ o, observation.patient o ∈ diabetic_patients) rows));
  mret (dataset.mk patients conditions medications observations).

Definition vital_codes : list string := ["39156-5"; "8480-6"; "8462-4"].

(** [pd.concat] puts the rows of the second frame after those of the
    first, and removes no duplicates. *)
Definition filter_relevant_observations (observations_df : loc)
    (glucose_codes : list string) (include_vitals : bool) : M loc :=
  rows ← read_observations observations_df;
  let relevant_obs := filter (λ o, observation.code o ∈ glucose_codes) rows in
  if include_vitals then
    let vitals_obs := filter (λ o, observation.code o ∈ vital_codes) rows in
    new_frame (Observations (relevant_obs ++ vitals_obs))
  else new_frame (Observations relevant_obs).

Module summary.
Record t := mk {
  num_diabetic_patients : nat;
  num_diabetes_conditions : nat;
  num_medications : nat;
  num_observations : nat;
  num_medication_outcomes : nat;
  glucose_metrics_tracked : list string;
  medications_analyzed : list string;
}.
End summary.

(** What [save_processed_data] writes: the table saved under each file
    name ([patients_diabetic.csv], ..., [medication_outcomes.csv]), as the
    frame holds it when it is saved, and the summary saved as
    [dataset_summary.json]. The text of the files is pandas' and json's. *)
Module processed.
Record t := mk {
  patients_diabetic : list patient_info.t;
  conditions_diabetic : list condition.t;
  medications_diabetic : list medication.t;
  observations_diabetic : list observation.t;
  observation_timeline : list timeline.t;
  medication_outcomes : list outcome.t;
  dataset_summary : summary.t;
}.
End processed.

Definition read_outcomes (df : loc) : M (list outcome.t) := λ h,
  match h !! df with
  | Some (Outcomes rows) => (h, Ok rows)
  | _ => (h, Raise KeyError)
  end.

Definition save_processed_data (filtered_dataset : dataset.t)
    (timeline_df outcomes_df : loc) : M processed.t :=
  medications ← read_medications (dataset.medications filtered_dataset);
  observations ← read_observations (dataset.observations filtered_dataset);
  timeline ← read_timeline timeline_df;
  outcomes ← read_outcomes outcomes_df;
  let summary :=
    summary.mk
      (length (dataset.patients filtered_dataset))
      (length (dataset.conditions filtered_dataset))
      (length medications) (length observations) (length outcomes)
      (if decide (outcomes ≠ []) then unique (outcome.obs_description <$> outcomes)
       else [])
      (if decide (outcomes ≠ []) then unique (outcome.med_description <$> outcomes)
       else []) in
  mret (processed.mk (dataset.patients filtered_dataset)
          (dataset.conditions filtered_dataset)
          medications observations timeline outcomes summary).

Module args.
Record t := mk {
  diabetes_codes : list string;
  glucose_codes : list string;
  include_comorbidities : bool;
  include_vitals : bool;
}.
End args.

Module data_preparation.
Section main.
Context `{Parsers} `{Argsort} `{Regex}.

(** [main], from the dataset that [load_dataset] has read to what
    [save_processed_data] writes. *)
Definition main (args : args.t) (dataset : dataset.t) : M processed.t :=
  diabetic_patients ← lift
    (identify_diabetic_patients (dataset.conditions dataset)
       (args.diabetes_codes args));
  filtered_dataset ← filter_dataset_for_diabetic_patients dataset
    diabetic_patients (args.include_comorbidities args);
  observations ← filter_relevant_observations
    (dataset.observations filtered_dataset)
    (args.glucose_codes args) (args.include_vitals args);
  let filtered_dataset := dataset.with_observations filtered_dataset observations in
  medication_periods ←
    create_medication_periods (dataset.medications filtered_dataset);
  timeline_df ← create_observation_timeline
    (dataset.observations filtered_dataset) medication_periods;
  outcomes_df ← create_patient_medication_outcomes timeline_df;
  save_processed_data filtered_dataset timeline_df outcomes_df.
End main.
End data_preparation.

(** * [llm_data_loader.py]: the patients chosen for the examples *)

(** [df.groupby(by).size().reset_index(name="count")] *)
Definition groupby_size {A} (by_ : A → string) (df : list A) : list (string * Z) :=
  (λ kg, (kg.1, Z.of_nat (length kg.2))) <$> groupby str_le by_ df.

(** [df.sort_values(by, ascending=False)] on a column of integers: pandas
    reverses the rows, puts the reversed rows in ascending order with
    [argsort], and reverses the result. *)
Definition sort_values_descending `{Argsort} {A} (by_ : A → Z) (df : list A) : list A :=
  let reversed := reverse df in
  reverse (omap (λ i, reversed !! i) (argsort (by_ <$> reversed))).

(** [df.head(n)]: the first [n] rows, or all but the last [-n]. *)
Definition head_rows {A} (n : Z) (df : list A) : list A :=
  if bool_decide (0 ≤ n)%Z then take (Z.to_nat n) df
  else take (length df - Z.to_nat (- n)) df.

(** The first lines of the patient examples of [format_data_for_llm]. *)
Definition selected_patients `{Argsort} (outcomes_df : list outcome.t)
    (max_patients : Z) : list string :=
  let patient_outcomes := groupby_size outcome.patient outcomes_df in
  let patient_outcomes := sort_values_descending snd patient_outcomes in
  fst <$> head_rows max_patients patient_outcomes.

(** ** Notions used in the statements about the cohort *)

(** The order of the groups of the two nested loops: by patient, medication
    code and medication description, then by metric code. *)
Definition group_key_le (a b : string * code_cell * string * string) : Prop :=
  if decide (a.1 = b.1) then str_le a.2 b.2 else tuple3_le a.1 b.1.
Definition group_key_lt (a b : string * code_cell * string * string) : Prop :=
  group_key_le a b ∧ a ≠ b.

Section outcome_notions.
Context `{Parsers}.

(** An outcome record and the rows of the two input tables it is computed
    from: the medication and the observation behind its "pre" side and
    behind its "post" side. *)
Definition drug_of (out : outcome.t) (m : medication.t) : Prop :=
  medication.patient m = outcome.patient out
  ∧ medication.code m = outcome.med_code out
  ∧ medication.description m = outcome.med_description out.
Definition metric_of (out : outcome.t) (o : observation.t) : Prop :=
  observation.patient o = outcome.patient out
  ∧ observation.code o = outcome.obs_code out.
Definition pre_of (out : outcome.t) (m : medication.t) (o : observation.t) : Prop :=
  outcome.pre_value out = to_numeric_cell (observation.value o)
  ∧ outcome.pre_date out = converted (observation.date o)
  ∧ ∃ a s, converted (observation.date o) = DTime a
      ∧ converted (medication.start m) = DTime s
      ∧ (a < s + ns_per_day)%Z.
Definition post_of (out : outcome.t) (m : medication.t) (o : observation.t) : Prop :=
  outcome.post_value out = to_numeric_cell (observation.value o)
  ∧ outcome.post_date out = converted (observation.date o)
  ∧ ∃ b s, converted (observation.date o) = DTime b
      ∧ converted (medication.start m) = DTime s
      ∧ (s + ns_per_day ≤ b)%Z
      ∧ outcome.days_between out = Some ((b - s) `div` ns_per_day)%Z.
End outcome_notions.

(** The rows that [filter_relevant_observations] keeps. *)
Definition relevant_observations (glucose_codes : list string)
    (include_vitals : bool) (rows : list observation.t) : list observation.t :=
  filter (λ o, observation.code o ∈ glucose_codes) rows
  ++ (if include_vitals then filter (λ o, observation.code o ∈ vital_codes) rows
      else []).

Section cohort_notions.
Context `{Regex}.

(** The cohort of a run of [main]: the patients that
    [identify_diabetic_patients] returns (none where it raises), and the
    rows of each table that belong to them. *)
Definition cohort (args : args.t) (dataset : dataset.t) : gset string :=
  match identify_diabetic_patients (dataset.conditions dataset)
          (args.diabetes_codes args) with
  | Ok diabetic_patients => diabetic_patients
  | Raise _ => ∅
  end.

(** The conditions table on which the text match can be made. *)
Definition has_descriptions (conditions_df : list condition.t) : Prop :=
  conditions_df = [] ∨ Exists (λ c, is_Some (condition.description c)) conditions_df.
Definition cohort_medications (args : args.t) (dataset : dataset.t)
    (rows : list medication.t) : list medication.t :=
  filter (λ m, medication.patient m ∈ cohort args dataset) rows.
Definition cohort_observations (args : args.t) (dataset : dataset.t)
    (rows : list observation.t) : list observation.t :=
  relevant_observations (args.glucose_codes args) (args.include_vitals args)
    (filter (λ o, observation.patient o ∈ cohort args dataset) rows).
Definition cohort_patients (args : args.t) (dataset : dataset.t)
    : list patient_info.t :=
  filter (λ r, patient_info.patient r ∈ cohort args dataset)
    (dataset.patients dataset).
Definition cohort_conditions (args : args.t) (dataset : dataset.t)
    : list condition.t :=
  filter (λ c, condition.patient c ∈ cohort args dataset
               ∧ (args.include_comorbidities args = false →
                  isin ["44054006"; "46635009"] (condition.code c)))
    (dataset.conditions dataset).
End cohort_notions.

(** The summary of the saved tables. *)
Definition summary_of (patients : list patient_info.t)
    (conditions : list condition.t) (medications : list medication.t)
    (observations : list observation.t) (outcomes : list outcome.t) : summary.t :=
  summary.mk (length patients) (length conditions) (length medications)
    (length observations) (length outcomes)
    (unique (outcome.obs_description <$> outcomes))
    (unique (outcome.med_description <$> outcomes)).

(** ** A regular-expression search for running the model

    Enough of [re.search] with [re.IGNORECASE] for a pattern that is an
    alternation of literals, on ASCII text. *)

Module sample_regex.
Definition lower (a : ascii) : ascii :=
  let n := nat_of_ascii a in
  if bool_decide (65 ≤ n ≤ 90) then ascii_of_nat (n + 32) else a.

Fixpoint starts_with (p s : string) : bool :=
  match p, s with
  | EmptyString, _ => true
  | String a p, String b s => Ascii.eqb (lower a) (lower b) && starts_with p s
  | String _ _, EmptyString => false
  end.

Fixpoint search (p s : string) : bool :=
  starts_with p s
  || match s with
     | EmptyString => false
     | String _ s => search p s
     end.

Fixpoint alternatives (acc pat : string) : list string :=
  match pat with
  | EmptyString => [acc]
  | String a pat =>
      if Ascii.eqb a "|"%char then acc :: alternatives EmptyString pat
      else alternatives (acc +:+ String a EmptyString) pat
  end.

#[global] Instance regex : Regex :=
  {| str_contains := λ pat s,
       existsb (λ alt, search alt s) (alternatives EmptyString pat) |}.
End sample_regex.

(** ** A sample dataset *)

Definition sample_conditions : list condition.t :=
  [condition.mk "P1" (CodeInt 44054006) (Some "Diabetes") "2015-03-01";
   condition.mk "P2" (CodeInt 162864005) (Some "Body mass index 30+ - obesity")
     "2016-05-01";
   condition.mk "P3" (CodeStr "15777000") None "2017-01-01"].

Definition sample_patients : list patient_info.t :=
  [patient_info.mk "P1" "F" "white" "nonhispanic";
   patient_info.mk "P2" "M" "asian" "nonhispanic";
   patient_info.mk "P3" "F" "black" "nonhispanic"].

Definition loaded_medications : list medication.t :=
  [medication.mk "P1" (CodeInt 860975) "Metformin 500 MG" (DStr "2020-01-01") DNaN
     (Some "Diabetes");
   medication.mk "P2" (CodeInt 106892) "Insulin" (DStr "2019-03-15")
     (DStr "2019-09-15") None].

Definition loaded_observations : list observation.t :=
  [observation.mk "P1" "4548-4" "Hemoglobin A1c" (DStr "2019-12-01") (VStr "9.0") "%";
   observation.mk "P2" "4548-4" "Hemoglobin A1c" (DStr "2020-02-01") (VStr "6.1") "%";
   observation.mk "P1" "8480-6" "Systolic Blood Pressure" (DStr "2020-03-01")
     (VStr "130") "mm[Hg]";
   observation.mk "P1" "4548-4" "Hemoglobin A1c" (DStr "2020-07-01") (VStr "n/a") "%";
   observation.mk "P3" "2339-0" "Glucose" (DStr "2020-07-01") (VStr "101") "mg/dL"].

Definition sample_loaded : heap :=
  <[2%positive := Observations loaded_observations]>
    {[1%positive := Medications loaded_medications]}.

Definition sample_dataset : dataset.t :=
  dataset.mk sample_patients sample_conditions 1%positive 2%positive.

(** The defaults of [parse_all_args], with [--include_vitals]. *)
Definition sample_args : args.t :=
  args.mk ["44054006"; "15777000"; "422034002"; "1551000119108"; "97331000119101";
           "368581000119106"]
    ["2339-0"; "2345-7"; "4548-4"] false true.

(** What [main] saves for the sample dataset. *)
Definition sample_processed : processed.t :=
  processed.mk
    [patient_info.mk "P1" "F" "white" "nonhispanic";
     patient_info.mk "P3" "F" "black" "nonhispanic"]
    []
    [medication.mk "P1" (CodeInt 860975) "Metformin 500 MG" (DTime 1577836800000000000)
       (DTime Timestamp_max) (Some "Diabetes")]
    [observation.mk "P1" "4548-4" "Hemoglobin A1c" (DTime 1575158400000000000)
       (VNum 9) "%";
     observation.mk "P1" "4548-4" "Hemoglobin A1c" (DTime 1593561600000000000)
       (VNum nan) "%";
     observation.mk "P3" "2339-0" "Glucose" (DTime 1593561600000000000)
       (VNum 101) "mg/dL";
     observation.mk "P1" "8480-6" "Systolic Blood Pressure" (DTime 1583020800000000000)
       (VNum 130) "mm[Hg]"]
    [timeline.mk "P1" (CodeInt 860975) "Metformin 500 MG" (DTime 1577836800000000000)
       "4548-4" "Hemoglobin A1c" (DTime 1575158400000000000) (Some (-31)%Z)
       (VNum 9) "%";
     timeline.mk "P1" (CodeInt 860975) "Metformin 500 MG" (DTime 1577836800000000000)
       "4548-4" "Hemoglobin A1c" (DTime 1593561600000000000) (Some 182%Z)
       (VNum nan) "%";
     timeline.mk "P1" (CodeInt 860975) "Metformin 500 MG" (DTime 1577836800000000000)
       "8480-6" "Systolic Blood Pressure" (DTime 1583020800000000000) (Some 60%Z)
       (VNum 130) "mm[Hg]"]
    [outcome.mk "P1" (CodeInt 860975) "Metformin 500 MG" "4548-4" "Hemoglobin A1c"
       (VNum 9) (VNum nan) nan nan
       (DTime 1575158400000000000) (DTime 1593561600000000000) (Some 182%Z) "%"]
    (summary.mk 2 0 1 4 1 ["Hemoglobin A1c"] ["Metformin 500 MG"]).

(** The filtered dataset of the sample dataset: the two new frames are at
    3 and 4. *)
Definition sample_filtered : dataset.t :=
  dataset.mk
    [patient_info.mk "P1" "F" "white" "nonhispanic";
     patient_info.mk "P3" "F" "black" "nonhispanic"]
    [] 3%positive 4%positive.

(** A dataset in which no condition is recorded. *)
Definition nobody : dataset.t :=
  dataset.mk sample_patients [] 1%positive 2%positive.

(** A medication whose stop date is not a date, and the sample tables as
    they are read, before the normalizer has run. *)
Definition unparsed_stops : list medication.t :=
  [medication.mk "P1" (CodeInt 860975) "Metformin 500 MG" (DStr "2020-01-01")
     (DStr "ongoing") None].

Definition raw_tables : heap :=
  <[2%positive := Observations sample_observations]>
    {[1%positive := Medications sample_medications]}.

(** The tables of [scenario], and what the three stages make of them. *)
Definition scenario_medications : list medication.t :=
  [medication.mk "P" (CodeStr "M") "Metformin" (DStr "2020-01-01") DNaN None].
Definition scenario_observations : list observation.t :=
  [observation.mk "P" "X" "HbA1c" (DStr "2019-12-01") (VStr "9.0") "%";
   observation.mk "P" "X" "HbA1c" (DStr "2020-07-01") (VStr "7.0") "%"].
Definition scenario_timeline_frame : option frame :=
  Some (Timeline
    [timeline.mk "P" (CodeStr "M") "Metformin" (DTime 1577836800000000000) "X" "HbA1c"
       (DTime 1575158400000000000) (Some (-31)%Z) (VNum 9) "%";
     timeline.mk "P" (CodeStr "M") "Metformin" (DTime 1577836800000000000) "X" "HbA1c"
       (DTime 1593561600000000000) (Some 182%Z) (VNum 7) "%"]).
Definition scenario_outcomes : list outcome.t :=
  [outcome.mk "P" (CodeStr "M") "Metformin" "X" "HbA1c" (VNum 9) (VNum 7)
     (-2)%float (-0x1.638e38e38e38ep+4)%float
     (DTime 1575158400000000000) (DTime 1593561600000000000) (Some 182%Z) "%"].

(** A dataset whose conditions have no description. *)
Definition undescribed : dataset.t :=
  dataset.mk sample_patients
    [condition.mk "P1" (CodeStr "44054006") None "2015-03-01"]
    1%positive 2%positive.

(** The tables of [scenario] as they are read, with a medication that has
    no start. *)
Definition unstarted : heap :=
  <[2%positive := Observations scenario_observations]>
    {[1%positive := Medications
        [medication.mk "P" (CodeStr "M") "Metformin" DNaN DNaN None]]}.

(** Two drugs of one patient, with the RxNorm codes 1049221 and 860975 as
    [pd.read_csv] reads them. *)
Definition two_drugs : list timeline.t :=
  (λ cd : Z * Z,
     timeline.mk "P" (CodeInt cd.1) "drug" (DTime 0) "X" "HbA1c"
       (DTime (cd.2 * ns_per_day)) (Some cd.2) (VNum 7) "%")
    <$> [(1049221, -5); (1049221, 170); (860975, -5); (860975, 170)]%Z.

(** One drug prescribed twice, and one observation between the two
    starts. *)
Definition refilled : heap :=
  <[2%positive := Observations
      [observation.mk "P" "X" "HbA1c" (DStr "2020-06-01") (VStr "8.0") "%"]]>
    {[1%positive := Medications
        [medication.mk "P" (CodeStr "M") "Metformin" (DStr "2020-01-01") (DStr "2020-03-01") None;
         medication.mk "P" (CodeStr "M") "Metformin" (DStr "2021-01-01") DNaN None]]}.

(** * Facts about the library operations *)

Lemma lookup_omap_total {A B} (f : A → option B) (l : list A) (i : nat) :
  Forall (λ x, is_Some (f x)) l → omap f l !! i = l !! i ≫= f.
Proof.
  intros Hl. revert i. induction Hl as [|x l [y Hy] _ IH]; intros i; [done|].
  simpl. rewrite Hy. destruct i; simpl; [by rewrite Hy | apply IH].
Qed.

Lemma omap_lookup_seq_take {A} (l : list A) n :
  n ≤ length l → omap (λ i, l !! i) (seq 0 n) = take n l.
Proof.
  induction n as [|n IH]; intros Hn; [done|].
  rewrite seq_S, omap_app, IH by lia. simpl.
  destruct (lookup_lt_is_Some_2 l n) as [x Hx]; [lia|].
  rewrite Hx. simpl. by rewrite (take_S_r _ _ x).
Qed.

Lemma omap_lookup_seq {A} (l : list A) :
  omap (λ i, l !! i) (seq 0 (length l)) = l.
Proof. rewrite omap_lookup_seq_take by done. apply firstn_all. Qed.

Lemma omap_omap {A B C} (f : A → option B) (g : B → option C) (l : list A) :
  omap g (omap f l) = omap (λ x, f x ≫= g) l.
Proof.
  induction l as [|x l IH]; [done|]. simpl.
  destruct (f x) as [y|]; simpl; [|done]. destruct (g y); [f_equal|]; exact IH.
Qed.

Lemma length_omap_total {A B} (f : A → option B) (l : list A) :
  Forall (λ x, is_Some (f x)) l → length (omap f l) = length l.
Proof.
  induction 1 as [|x l [y Hy] _ IH]; simpl; [done|].
  rewrite Hy. simpl. f_equal. exact IH.
Qed.

(** [stable_argsort] is an [Argsort]. *)
Lemma stable_argsort_perm ks : stable_argsort ks ≡ₚ seq 0 (length ks).
Proof.
  unfold stable_argsort. rewrite merge_sort_Permutation.
  rewrite snd_zip; [done|]. by rewrite length_seq.
Qed.

Lemma zip_seq_lookup (ks : list Z) p :
  p ∈ zip ks (seq 0 (length ks)) → ks !! p.2 = Some p.1.
Proof.
  intros [i Hi]%list_elem_of_lookup.
  apply lookup_zip_with_Some in Hi as (k & j & -> & Hk & Hj).
  apply lookup_seq in Hj as [-> _]. done.
Qed.

Lemma stable_argsort_sorted ks :
  StronglySorted Z.le (omap (λ i, ks !! i) (stable_argsort ks)).
Proof.
  unfold stable_argsort.
  set (l := merge_sort key_le _).
  assert (Hs : StronglySorted key_le l).
  { apply StronglySorted_merge_sort.
    - intros x y z. unfold key_le. lia.
    - intros x y. unfold key_le. lia. }
  assert (Hl : Forall (λ p, ks !! p.2 = Some p.1) l).
  { apply Forall_forall. intros p Hp. apply zip_seq_lookup.
    by rewrite <- (merge_sort_Permutation key_le). }
  clearbody l.
  assert (Heq : omap (λ i, ks !! i) (l.*2) = l.*1).
  { clear Hs. induction Hl as [|p l Hp _ IH]; [done|].
    simpl. rewrite Hp. simpl. f_equal. exact IH. }
  rewrite Heq. eapply StronglySorted_fmap; [|done]. done.
Qed.

#[global] Instance stable_sort : Argsort :=
  {| argsort := stable_argsort;
     argsort_perm := stable_argsort_perm;
     argsort_sorted := stable_argsort_sorted |}.

(** ** Loops *)

Lemma for_each_bind {A B} (xs : list A) (body : A → result (list B)) (g : A → list B) :
  (∀ x, x ∈ xs → body x = Ok (g x)) → for_each xs body = Ok (xs ≫= g).
Proof.
  induction xs as [|x xs IH]; intros Hb; [done|].
  simpl. rewrite Hb by left. simpl.
  rewrite IH by (intros; apply Hb; by right). done.
Qed.

Lemma for_each_elem_of {A B} (xs : list A) (body : A → result (list B)) :
  (∀ x, x ∈ xs → ∃ l, body x = Ok l) →
  ∃ outs, for_each xs body = Ok outs
    ∧ ∀ y, y ∈ outs ↔ ∃ x l, x ∈ xs ∧ body x = Ok l ∧ y ∈ l.
Proof.
  induction xs as [|x xs IH]; intros Hb.
  - exists []. split; [done|]. intros y. split; [by intros ?%elem_of_nil|].
    by intros (? & ? & ?%elem_of_nil & _).
  - destruct (Hb x) as [l Hl]; [by left|].
    destruct IH as (outs & Hf & Hin); [intros; apply Hb; by right|].
    exists (l ++ outs). split; [simpl; by rewrite Hl, Hf|].
    intros y. rewrite elem_of_app, Hin. split.
    + intros [Hy|(x' & l' & Hx' & Hl' & Hy)].
      * exists x, l. split; [by left|done].
      * exists x', l'. split; [by right|done].
    + intros (x' & l' & [->|Hx']%elem_of_cons & Hl' & Hy).
      * left. congruence.
      * right. eauto.
Qed.

(** ** [unique] and [groupby] *)

Lemma elem_of_unique_from {K} `{EqDecision K} (seen l : list K) x :
  x ∈ unique_from seen l ↔ x ∈ l ∧ x ∉ seen.
Proof.
  revert seen. induction l as [|y l IH]; intros seen; simpl.
  - split; [by intros ?%elem_of_nil | by intros [?%elem_of_nil _]].
  - case_decide as Hy.
    + rewrite IH, elem_of_cons. naive_solver.
    + rewrite elem_of_cons, IH, !elem_of_cons. 
      destruct (decide (x = y)); naive_solver.
Qed.

Lemma elem_of_unique {K} `{EqDecision K} (l : list K) x : x ∈ unique l ↔ x ∈ l.
Proof.
  unfold unique. rewrite elem_of_unique_from.
  split; [by intros [? _] | intros ?; split; [done | by intros ?%elem_of_nil]].
Qed.

Lemma NoDup_unique_from {K} `{EqDecision K} (seen l : list K) :
  NoDup (unique_from seen l).
Proof.
  revert seen. induction l as [|y l IH]; intros seen; simpl; [constructor|].
  case_decide; [done|]. constructor; [|done].
  rewrite elem_of_unique_from, elem_of_cons. naive_solver.
Qed.

Lemma NoDup_unique {K} `{EqDecision K} (l : list K) : NoDup (unique l).
Proof. apply NoDup_unique_from. Qed.

Lemma elem_of_groupby {A K} `{EqDecision K} (R : relation K)
    `{∀ x y, Decision (R x y)} (by_ : A → K) (df : list A) k g :
  (k, g) ∈ groupby R by_ df ↔ k ∈ by_ <$> df ∧ g = filter (λ r, by_ r = k) df.
Proof.
  unfold groupby. rewrite list_elem_of_fmap. split.
  - intros (k' & [= -> ->] & Hk). split; [|done].
    by rewrite merge_sort_Permutation, elem_of_unique in Hk.
  - intros [Hk ->]. exists k. split; [done|].
    by rewrite merge_sort_Permutation, elem_of_unique.
Qed.

(** ** Indexed frames *)

Lemma with_index_snd {A} (rows : list A) : (with_index rows).*2 = rows.
Proof.
  unfold with_index. apply list_eq. intros i.
  rewrite list_lookup_fmap, list_lookup_imap. by destruct (rows !! i).
Qed.

Lemma with_index_fst {A} (rows : list A) :
  (with_index rows).*1 = seq 0 (length rows).
Proof.
  unfold with_index. apply list_eq. intros i.
  rewrite list_lookup_fmap, list_lookup_imap.
  destruct (rows !! i) eqn:Hi; simpl.
  - symmetry. apply lookup_seq. split; [done|]. by eapply lookup_lt_Some.
  - symmetry. apply lookup_seq_ge. by apply lookup_ge_None.
Qed.

Lemma NoDup_with_index {A} (rows : list A) : NoDup (with_index rows).*1.
Proof. rewrite with_index_fst. apply NoDup_seq. Qed.

Lemma filter_snd {A B} (P : B → Prop) `{∀ x, Decision (P x)} (l : list (A * B)) :
  (filter (λ r, P r.2) l).*2 = filter P (l.*2).
Proof.
  induction l as [|[a b] l IH]; [done|].
  rewrite filter_cons. simpl. rewrite filter_cons.
  case_decide; simpl; [f_equal|]; exact IH.
Qed.

Lemma NoDup_fst_filter {A B} (P : A * B → Prop) `{∀ x, Decision (P x)} (l : list (A * B)) :
  NoDup l.*1 → NoDup (filter P l).*1.
Proof.
  intros Hl. eapply sublist_NoDup; [done|].
  apply fmap_sublist, sublist_filter.
Qed.

(** ** [sort_values] *)

Lemma StronglySorted_sublist {A} (R : relation A) (l k : list A) :
  l `sublist_of` k → StronglySorted R k → StronglySorted R l.
Proof.
  induction 1 as [|x l k Hs IH|x l k Hs IH]; intros Hk.
  - constructor.
  - apply StronglySorted_inv in Hk as [Hk Hx]. constructor; [by apply IH|].
    eapply Forall_forall. intros y Hy. eapply Forall_forall in Hx; [done|].
    by eapply elem_of_sublist.
  - apply StronglySorted_inv in Hk as [Hk _]. by apply IH.
Qed.

Lemma StronglySorted_pairwise {A} (R : relation A) (l : list A) :
  (∀ x y, x ∈ l → y ∈ l → R x y) → StronglySorted R l.
Proof.
  induction l as [|x l IH]; intros Hl; constructor.
  - apply IH. intros. apply Hl; by right.
  - apply Forall_forall. intros y Hy. apply Hl; [by left | by right].
Qed.

Lemma key_ordered_omap {A} (by_ : A → option Z) (l : list A) :
  Forall (λ r, is_Some (by_ r)) l →
  StronglySorted Z.le (omap by_ l) → StronglySorted (key_ordered by_) l.
Proof.
  induction 1 as [|r l [x Hx] Hl IH]; intros Hs; [constructor|].
  simpl in Hs. rewrite Hx in Hs. apply StronglySorted_inv in Hs as [Hs Hr].
  constructor; [by apply IH|].
  apply Forall_forall. intros r' Hr' x' y' Hx' Hy'.
  eapply Forall_forall in Hr; [|apply list_elem_of_omap; eauto].
  congruence.
Qed.

Lemma omap_pointwise {A B} (f g : A → option B) (l : list A) :
  (∀ x, f x = g x) → omap f l = omap g l.
Proof.
  intros Hfg. induction l as [|x l IH]; [done|].
  simpl. rewrite Hfg. destruct (g x); [f_equal|]; exact IH.
Qed.

Section sort_values.
Context `{Argsort} {A : Type} (by_ : A → option Z).

Lemma sort_values_Permutation (df : list A) : sort_values by_ df ≡ₚ df.
Proof.
  unfold sort_values.
  set (non_nan := filter (λ r, is_Some (by_ r)) df).
  assert (Hn : Forall (λ r, is_Some (by_ r)) non_nan).
  { apply Forall_forall. by intros r [? _]%list_elem_of_filter. }
  rewrite argsort_perm, length_omap_total, omap_lookup_seq by done.
  rewrite (list_filter_iff (λ r, by_ r = None) (λ r, ¬ is_Some (by_ r)))
    by (intros r; apply eq_None_not_Some).
  apply filter_app_complement.
Qed.

Lemma sort_values_sorted (df : list A) :
  StronglySorted (key_ordered by_) (sort_values by_ df).
Proof.
  unfold sort_values.
  set (non_nan := filter (λ r, is_Some (by_ r)) df).
  assert (Hn : Forall (λ r, is_Some (by_ r)) non_nan).
  { apply Forall_forall. by intros r [? _]%list_elem_of_filter. }
  apply StronglySorted_app_2.
  - intros x y _ [Hy _]%list_elem_of_filter x' y' _ Hy'. congruence.
  - apply key_ordered_omap.
    + apply Forall_forall. intros r (i & Hr)%list_elem_of_omap.
      destruct Hr as [_ Hr]. eapply Forall_forall in Hn; [done|].
      by eapply list_elem_of_lookup_2.
    + rewrite omap_omap.
      rewrite (omap_pointwise _ (λ i, omap by_ non_nan !! i)).
      * apply argsort_sorted.
      * intros i. symmetry. by apply lookup_omap_total.
  - apply StronglySorted_pairwise.
    intros x y _ [Hy _]%list_elem_of_filter x' y' _ Hy'. congruence.
Qed.
End sort_values.

(** ** [idxmin], [loc_], [iloc_last] *)

Lemma StronglySorted_lookup {A} (R : relation A) (l : list A) i j x y :
  StronglySorted R l → l !! i = Some x → l !! j = Some y → i < j → R x y.
Proof.
  intros Hs. revert i j. induction Hs as [|z l _ IH Hz]; intros i j Hi Hj Hij; [done|].
  destruct j as [|j]; [lia|]. destruct i as [|i]; simplify_eq/=.
  - eapply Forall_forall in Hz; [done|]. by eapply list_elem_of_lookup_2.
  - eapply IH; [done..|lia].
Qed.

Lemma idxmin_from_spec (best : nat * Z) (s : list (nat * Z)) :
  ∃ p v, (best :: s) !! p = Some (idxmin_from best s, v)
    ∧ ∀ q j w, (best :: s) !! q = Some (j, w) →
        (v ≤ w)%Z ∧ (q < p → (v < w)%Z).
Proof.
  revert best. induction s as [|[i v'] s IH]; intros [b vb].
  - exists 0, vb. split; [done|]. intros [|q] j w Hq; simplify_eq/=. lia.
  - simpl. destruct (Z.ltb_spec v' vb) as [Hlt|Hge].
    + destruct (IH (i, v')) as (p & v & Hp & Hmin).
      exists (S p), v. split; [done|]. intros [|q] j w Hq; simplify_eq/=.
      * destruct (Hmin 0 i v' eq_refl) as [? _]. lia.
      * destruct (Hmin q j w Hq) as [? ?]. split; [done|]. lia.
    + destruct (IH (b, vb)) as (p & v & Hp & Hmin).
      destruct (Hmin 0 b vb eq_refl) as [Hb Hb'].
      exists (match p with 0 => 0 | S p => S (S p) end), v. split.
      { by destruct p. }
      intros [|[|q]] j w Hq; simplify_eq/=.
      * split; [done|]. destruct p; lia.
      * split; [lia|]. destruct p; [lia|]. intros _. 
        assert (v < vb)%Z by (apply Hb'; lia). lia.
      * destruct (Hmin (S q) j w Hq) as [? Hs]. split; [done|].
        destruct p; [lia|]. intros ?. apply Hs. lia.
Qed.

Lemma idxmin_spec (s : list (nat * option Z)) (s' : list (nat * Z)) :
  omap (λ p, pair p.1 <$> p.2) s = s' → s' ≠ [] →
  ∃ p i v, idxmin s = Ok i ∧ s' !! p = Some (i, v)
    ∧ ∀ q j w, s' !! q = Some (j, w) → (v ≤ w)%Z ∧ (q < p → (v < w)%Z).
Proof.
  intros Hs Hne. unfold idxmin. rewrite Hs.
  destruct s' as [|best s']; [done|].
  destruct (idxmin_from_spec best s') as (p & v & Hp & Hmin). eauto 10.
Qed.

Lemma loc_spec {A} (df : list (nat * A)) p i r :
  NoDup df.*1 → df !! p = Some (i, r) → loc_ df i = Ok r.
Proof.
  intros Hnd Hp. unfold loc_.
  destruct (list_find _ df) as [[q [j r']]|] eqn:Hf.
  - apply list_find_Some in Hf as (Hq & Hj & _). simpl in Hj. subst j.
    assert (q = p) as ->.
    { eapply NoDup_lookup; [done| |]; rewrite list_lookup_fmap.
      - by rewrite Hq. - by rewrite Hp. }
    congruence.
  - apply list_find_None in Hf.
    assert (Hin : (i, r) ∈ df) by (eapply list_elem_of_lookup_2; exact Hp).
    eapply Forall_forall in Hf; [|exact Hin]. by destruct Hf.
Qed.

Lemma filter_nil_length {A} (P : A → Prop) `{∀ x, Decision (P x)} (l : list A) :
  ¬ 0 < length (filter P l) → ∀ x, x ∈ l → ¬ P x.
Proof.
  intros Hl x Hx HP. assert (Hin : x ∈ filter P l) by by apply list_elem_of_filter.
  destruct (filter P l); [by apply elem_of_nil in Hin|]. simpl in Hl. lia.
Qed.

Section selection.
Context `{Argsort}.

Lemma days_diff_omap (post_med : list (nat * timeline.t)) :
  Forall (λ r, cell_gt (timeline.days_relative r.2) 0) post_med →
  omap (λ p : nat * option Z, pair p.1 <$> p.2)
    ((λ r, (r.1, (λ d, Z.abs (d - target_days)) <$> timeline.days_relative r.2))
       <$> post_med)
  = (λ r, (r.1, Z.abs (default 0%Z (timeline.days_relative r.2) - target_days)))
      <$> post_med.
Proof.
  induction 1 as [|r l Hr _ IH]; [done|].
  rewrite !fmap_cons. simpl.
  destruct (timeline.days_relative r.2) as [d|]; [|done].
  simpl. f_equal. exact IH.
Qed.

(** What [selection] answers, for a group whose labels are distinct. *)
Lemma selection_spec (g : list (nat * timeline.t)) :
  NoDup g.*1 →
  (selection g = Ok None
   ∧ (length g < 2
      ∨ (∀ r, r ∈ g → ¬ cell_le (timeline.days_relative r.2) 0)
      ∨ (∀ r, r ∈ g → ¬ cell_gt (timeline.days_relative r.2) 0)))
  ∨ (∃ first pre post,
       selection g = Ok (Some (first, pre, post))
       ∧ 2 ≤ length g
       ∧ head g = Some first
       ∧ pre ∈ g ∧ post ∈ g
       ∧ most_recent_before g.*2 pre.2
       ∧ closest_after g.*2 post.2).
Proof.
  intros Hnd. unfold selection.
  case_decide as Hlen; [left; split; [done|by left]|].
  assert (Hfirst : ∃ first, head g = Some first ∧ iloc_first g = Ok first).
  { destruct g; [simpl in Hlen; lia|]. eauto. }
  destruct Hfirst as (first & Hhead & ->). cbn [mbind result_bind].
  set (sorted := sort_values (timeline.days_relative ∘ snd) g).
  assert (Hperm : sorted ≡ₚ g) by apply sort_values_Permutation.
  assert (Hsorted : StronglySorted (key_ordered (timeline.days_relative ∘ snd)) sorted)
    by apply sort_values_sorted.
  assert (Hnd' : NoDup sorted.*1) by by rewrite Hperm.
  clearbody sorted.
  set (pre_med := filter _ sorted).
  case_decide as Hpre; cycle 1.
  { left. split; [done|]. right; left. intros r Hr.
    eapply (filter_nil_length _ _ Hpre). by rewrite Hperm. }
  destruct (last pre_med) as [pre|] eqn:Hlast; cycle 1.
  { apply last_None in Hlast. rewrite Hlast in Hpre. simpl in Hpre. lia. }
  unfold iloc_last. rewrite Hlast. cbn [mbind result_bind].
  set (post_med := filter _ sorted).
  case_decide as Hpost; cycle 1.
  { left. split; [done|]. right; right. intros r Hr.
    eapply (filter_nil_length _ _ Hpost). by rewrite Hperm. }
  assert (Hall : Forall (λ r, cell_gt (timeline.days_relative r.2) 0) post_med).
  { apply Forall_forall. by intros r [? _]%list_elem_of_filter. }
  destruct (idxmin_spec _ _ (days_diff_omap post_med Hall)) as (p & i & v & -> & Hp & Hmin).
  { intros Hnil%fmap_nil_inv. rewrite Hnil in Hpost. simpl in Hpost. lia. }
  rewrite list_lookup_fmap in Hp.
  destruct (post_med !! p) as [[i' post]|] eqn:Hpp; simplify_eq/=.
  rewrite (loc_spec post_med p i post); [|by apply NoDup_fst_filter|done].
  right. exists first, pre, (i, post). split; [done|].
  split; [lia|]. split; [done|].
  assert (Hpre_in : pre ∈ pre_med) by by apply last_Some_elem_of.
  assert (Hpost_in : (i, post) ∈ post_med) by by eapply list_elem_of_lookup_2.
  apply list_elem_of_filter in Hpre_in as [Hpre_le Hpre_in].
  apply list_elem_of_filter in Hpost_in as [Hpost_gt Hpost_in].
  rewrite Hperm in Hpre_in, Hpost_in.
  split; [done|]. split; [done|]. split.
  - split; [by apply list_elem_of_fmap_2|].
    destruct (timeline.days_relative pre.2) as [d|] eqn:Hd; [|done].
    exists d. split; [done|]. split; [done|].
    intros r d' ([l r'] & -> & Hr)%list_elem_of_fmap Hd' Hle. simpl in *.
    assert (Hin : (l, r') ∈ pre_med).
    { apply list_elem_of_filter. split; [by simpl; rewrite Hd'|by rewrite Hperm]. }
    apply last_Some in Hlast as [pre_med' Hlast].
    rewrite Hlast in Hin. apply elem_of_app in Hin as [Hin|Hin%list_elem_of_singleton].
    + assert (Hs : StronglySorted (key_ordered (timeline.days_relative ∘ snd)) pre_med).
      { eapply StronglySorted_sublist; [apply sublist_filter|done]. }
      rewrite Hlast in Hs.
      eapply (StronglySorted_app_1_elem_of _ _ _ _ _ Hs Hin); [by left|..]; done.
    + subst pre. simpl in Hd. simplify_eq. lia.
  - split; [by apply list_elem_of_fmap_2|].
    simpl in Hpost_gt.
    destruct (timeline.days_relative post) as [d|] eqn:Hd; [|done].
    exists d. split; [done|]. split; [done|].
    intros r d' ([l r'] & -> & Hr)%list_elem_of_fmap Hd' Hgt. simpl in *.
    assert (Hin : (l, r') ∈ post_med).
    { apply list_elem_of_filter. split; [by simpl; rewrite Hd'|by rewrite Hperm]. }
    apply list_elem_of_lookup in Hin as [q Hq].
    destruct (Hmin q l (Z.abs (d' - target_days))) as [Hle Hlt].
    { rewrite list_lookup_fmap, Hq. simpl. by rewrite Hd'. }
    split; [done|]. intros Heq.
    destruct (decide (q < p)) as [Hqp|Hqp]; [specialize (Hlt Hqp); lia|].
    destruct (decide (q = p)) as [->|Hne]; [simplify_eq; lia|].
    assert (Hs : StronglySorted (key_ordered (timeline.days_relative ∘ snd)) post_med).
    { eapply StronglySorted_sublist; [apply sublist_filter|done]. }
    eapply (StronglySorted_lookup _ _ p q _ _ Hs Hpp Hq); [lia|done..].
Qed.
End selection.

(** ** Floating-point NaN *)

Lemma is_nan_eq (x : float) : PrimFloat.is_nan x = true → x = nan.
Proof.
  intros Hx. apply Prim2SF_inj.
  unfold PrimFloat.is_nan in Hx. rewrite FloatAxioms.eqb_spec in Hx.
  destruct (Prim2SF x) as [s|s| |s m e] eqn:Hp; simpl in Hx; try done.
  - by destruct s.
  - unfold SFeqb, SFcompare in Hx.
    rewrite Z.compare_refl, Pos.compare_refl in Hx. by destruct s.
Qed.

Lemma sub_nan_l (x : float) : PrimFloat.sub nan x = nan.
Proof. apply Prim2SF_inj. rewrite FloatAxioms.sub_spec. reflexivity. Qed.
Lemma sub_nan_r (x : float) : PrimFloat.sub x nan = nan.
Proof.
  apply Prim2SF_inj. rewrite FloatAxioms.sub_spec.
  change (Prim2SF nan) with S754_nan. by destruct (Prim2SF x).
Qed.
Lemma div_nan_l (x : float) : PrimFloat.div nan x = nan.
Proof. apply Prim2SF_inj. rewrite FloatAxioms.div_spec. reflexivity. Qed.
Lemma div_nan_r (x : float) : PrimFloat.div x nan = nan.
Proof.
  apply Prim2SF_inj. rewrite FloatAxioms.div_spec.
  change (Prim2SF nan) with S754_nan. by destruct (Prim2SF x).
Qed.
Lemma mul_nan_l (x : float) : PrimFloat.mul nan x = nan.
Proof. apply Prim2SF_inj. rewrite FloatAxioms.mul_spec. reflexivity. Qed.

(** ** [calculate_change] *)

Section calculate_change.
Context `{Parsers}.

Lemma py_float_Raise v e : py_float v = Raise e → e = ValueError.
Proof. destruct v as [s|f]; simpl; [|done]. destruct (parse_float s); congruence. Qed.

Lemma calculate_change_spec (pre_value post_value : value_cell) :
  ∃ change percent_change,
    calculate_change pre_value post_value = Ok (change, percent_change)
    ∧ match py_float post_value, py_float pre_value with
      | Ok post, Ok pre =>
          change = PrimFloat.sub post pre
          ∧ percent_change =
              if PrimFloat.eqb pre 0%float then nan
              else PrimFloat.mul (PrimFloat.div (PrimFloat.sub post pre) pre) 100%float
      | _, _ => change = nan ∧ percent_change = nan
      end.
Proof.
  unfold calculate_change.
  destruct (py_float post_value) as [post|e] eqn:Hpost.
  2: { apply py_float_Raise in Hpost as ->. simpl. eauto. }
  destruct (py_float pre_value) as [pre|e] eqn:Hpre.
  2: { apply py_float_Raise in Hpre as ->. simpl. eauto. }
  cbn [mbind result_bind mret result_ret].
  unfold py_truediv.
  destruct (PrimFloat.eqb pre 0%float) eqn:Hz; simpl; eauto.
Qed.
End calculate_change.

Section resolver.
Context `{Parsers} `{Argsort}.

Lemma group_outcome_selection p mc md oc (g : list (nat * timeline.t)) :
  group_outcome p mc md oc g =
    sel ← selection g;
    match sel with
    | None => mret []
    | Some (first, pre, post) =>
        out ← outcome_of p mc md oc first.2 pre.2 post.2; mret [out]
    end.
Proof.
  unfold group_outcome, selection, outcome_of.
  case_decide; [done|].
  destruct g as [|first g]; [done|].
  set (sorted := sort_values _ _). clearbody sorted.
  rewrite !fmap_cons. cbn [iloc_first mbind result_bind].
  case_decide; [|done].
  destruct (iloc_last _) as [pre|]; [|done]. cbn [mbind result_bind].
  case_decide; [|done].
  destruct (idxmin _) as [i|]; [|done]. cbn [mbind result_bind].
  destruct (loc_ _ _) as [post|]; [|done]. cbn [mbind result_bind].
  cbn -[calculate_change].
  destruct (calculate_change _ _) as [[c pc]|]; done.
Qed.

Lemma outcome_of_total p mc md oc first pre post :
  ∃ out, outcome_of p mc md oc first pre post = Ok out.
Proof.
  unfold outcome_of.
  destruct (calculate_change_spec (timeline.value pre) (timeline.value post))
    as (c & pc & -> & _).
  eauto.
Qed.

Lemma group_outcome_spec p mc md oc (g : list (nat * timeline.t)) :
  NoDup g.*1 →
  (group_outcome p mc md oc g = Ok []
   ∧ (length g < 2
      ∨ (∀ r, r ∈ g.*2 → ¬ cell_le (timeline.days_relative r) 0)
      ∨ (∀ r, r ∈ g.*2 → ¬ cell_gt (timeline.days_relative r) 0)))
  ∨ (∃ first pre post out,
       group_outcome p mc md oc g = Ok [out]
       ∧ 2 ≤ length g
       ∧ head g.*2 = Some first
       ∧ most_recent_before g.*2 pre
       ∧ closest_after g.*2 post
       ∧ outcome_of p mc md oc first pre post = Ok out).
Proof.
  intros Hnd. rewrite group_outcome_selection.
  destruct (selection_spec g Hnd)
    as [[-> Hskip]|(first & pre & post & -> & Hlen & Hhead & _ & _ & Hpre & Hpost)].
  - left. split; [reflexivity|].
    destruct Hskip as [?|[Hs|Hs]]; [by left|right; left|right; right];
      intros r ([l r'] & -> & Hr)%list_elem_of_fmap; by apply (Hs _ Hr).
  - right. destruct (outcome_of_total p mc md oc first.2 pre.2 post.2) as [out Hout].
    exists first.2, pre.2, post.2, out. cbn [mbind result_bind]. rewrite Hout.
    split; [reflexivity|]. split; [done|]. split; [|done].
    destruct g; simplify_eq/=. done.
Qed.

Lemma group_key_split (r : nat * timeline.t) p mc md oc :
  group_key r.2 = (p, mc, md, oc) ↔ obs_key r = oc ∧ med_key r = (p, mc, md).
Proof. unfold group_key, obs_key, med_key. naive_solver. Qed.

Lemma labelled_group_snd rows k : (labelled_group rows k).*2 = group_of rows k.
Proof.
  unfold labelled_group, group_of.
  etrans; [exact (filter_snd (A:=nat) (λ r, group_key r = k) (with_index rows))|].
  by rewrite with_index_snd.
Qed.

Lemma NoDup_labelled_group rows k : NoDup (labelled_group rows k).*1.
Proof. apply NoDup_fst_filter, NoDup_with_index. Qed.

(** The resolver raises nothing, and its records are those of the groups. *)
Lemma outcome_records_spec (rows : list timeline.t) :
  ∃ outs, outcome_records rows = Ok outs
    ∧ ∀ out, out ∈ outs ↔
        ∃ p mc md oc,
          (p, mc, md, oc) ∈ group_key <$> rows
          ∧ group_outcome p mc md oc (labelled_group rows (p, mc, md, oc)) = Ok [out].
Proof.
  unfold outcome_records.
  set (W := with_index rows).
  assert (Hinner : ∀ x, x ∈ groupby tuple3_le med_key W →
    ∃ l, (let '(p, mc, md, group) := x in
          for_each (groupby str_le obs_key group)
            (λ '(oc, og), group_outcome p mc md oc og)) = Ok l
      ∧ ∀ out, out ∈ l ↔ ∃ oc,
          (x.1, oc) ∈ (λ r, (med_key r, obs_key r)) <$> W
          ∧ group_outcome x.1.1.1 x.1.1.2 x.1.2 oc
              (labelled_group rows (x.1, oc)) = Ok [out]).
  { intros [[[p mc] md] group] [Hk ->]%elem_of_groupby.
    set (group := filter _ W).
    assert (Hog : ∀ oc, filter (λ r, obs_key r = oc) group
                        = labelled_group rows (p, mc, md, oc)).
    { intros oc. unfold group, labelled_group. rewrite list_filter_filter.
      apply list_filter_iff. intros r. by rewrite group_key_split. }
    edestruct (for_each_elem_of (groupby str_le obs_key group)
      (λ '(oc, og), group_outcome p mc md oc og)) as (l & Hl & Hin).
    { intros [oc og] [_ ->]%elem_of_groupby. rewrite Hog.
      destruct (group_outcome_spec p mc md oc _ (NoDup_labelled_group rows (p, mc, md, oc)))
        as [[-> _]|(? & ? & ? & out & -> & _)]; eauto. }
    exists l. split; [done|]. intros out. rewrite Hin. simpl. split.
    - intros ([oc og] & l' & [Hoc ->]%elem_of_groupby & Hl' & Hout).
      rewrite Hog in Hl'. exists oc. 
      destruct (group_outcome_spec p mc md oc _ (NoDup_labelled_group rows (p, mc, md, oc)))
        as [[Hg _]|(? & ? & ? & out' & Hg & _)]; rewrite Hg in Hl'; simplify_eq.
      { by apply elem_of_nil in Hout. }
      apply list_elem_of_singleton in Hout as ->. split; [|done].
      apply list_elem_of_fmap in Hoc as (r & -> & [Hr Hin']%list_elem_of_filter).
      apply list_elem_of_fmap. exists r. by rewrite Hr.
    - intros (oc & Hoc & Hg). exists (oc, labelled_group rows (p, mc, md, oc)), [out].
      split; [|split; [done|by left]].
      apply elem_of_groupby. split; [|by rewrite Hog].
      apply list_elem_of_fmap in Hoc as (r & Heq & Hin'). simpl in Heq.
      assert (Hmk : med_key r = (p, mc, md)) by congruence.
      assert (Hok : oc = obs_key r) by congruence.
      apply list_elem_of_fmap. exists r. split; [done|].
      by apply list_elem_of_filter. }
  edestruct (for_each_elem_of (groupby tuple3_le med_key W)
    (λ '(p, mc, md, group), for_each (groupby str_le obs_key group)
       (λ '(oc, og), group_outcome p mc md oc og))) as (outs & Houts & Hin).
  { intros x Hx. destruct (Hinner x Hx) as (l & Hl & _). eauto. }
  exists outs. split; [done|]. intros out. rewrite Hin. split.
  - intros (x & l & Hx & Hl & Hout).
    destruct (Hinner x Hx) as (l' & Hl' & Hchar). rewrite Hl in Hl'. simplify_eq.
    apply Hchar in Hout as (oc & Hoc & Hg).
    destruct x as [[[p mc] md] group]. simpl in *.
    exists p, mc, md, oc. split; [|done].
    apply list_elem_of_fmap in Hoc as (r & Heq & Hr'). simpl in Heq.
    apply list_elem_of_fmap. exists r.2. split.
    + unfold med_key, obs_key in Heq. unfold group_key. congruence.
    + rewrite <- (with_index_snd rows). by apply list_elem_of_fmap_2.
  - intros (p & mc & md & oc & Hk & Hg).
    assert (Hk' : ((p, mc, md), oc) ∈ (λ r, (med_key r, obs_key r)) <$> W).
    { rewrite <- (with_index_snd rows) in Hk.
      apply list_elem_of_fmap in Hk as (r & Hr & (r' & -> & Hin')%list_elem_of_fmap).
      apply list_elem_of_fmap. exists r'. split; [|done].
      unfold group_key in Hr. unfold med_key, obs_key. simpl. congruence. }
    set (x := ((p, mc, md), filter (λ r, med_key r = (p, mc, md)) W)).
    assert (Hx : x ∈ groupby tuple3_le med_key W).
    { apply elem_of_groupby. split; [|done].
      apply list_elem_of_fmap in Hk' as (r & Heq & Hin'). simpl in Heq.
      apply list_elem_of_fmap. exists r. split; [congruence|done]. }
    destruct (Hinner x Hx) as (l & Hl & Hchar).
    exists x, l. split; [done|]. split; [done|].
    apply Hchar. exists oc. done.
Qed.
End resolver.
Section resolver_claims.
Context `{Parsers} `{Argsort}.

Lemma outcome_of_fields p mc md oc first pre post out :
  outcome_of p mc md oc first pre post = Ok out →
  outcome_key out = (p, mc, md, oc)
  ∧ outcome.obs_description out = timeline.obs_description first
  ∧ outcome.units out = timeline.units first
  ∧ outcome.pre_value out = timeline.value pre
  ∧ outcome.pre_date out = timeline.obs_date pre
  ∧ outcome.post_value out = timeline.value post
  ∧ outcome.post_date out = timeline.obs_date post
  ∧ outcome.days_between out = timeline.days_relative post
  ∧ calculate_change (outcome.pre_value out) (outcome.post_value out)
      = Ok (outcome.change out, outcome.percent_change out).
Proof.
  unfold outcome_of. intros Hout.
  destruct (calculate_change _ _) as [[c pc]|] eqn:Hc; [|done].
  injection Hout as <-. by repeat split.
Qed.

(** The records of the resolver, read group by group: each comes from a
    group with at least two rows, and carries the fields of the group's
    first row, of a most recent row before the start and of a closest row
    after it; a group that is skipped yields none. *)
Lemma outcome_records_groups (rows : list timeline.t) :
  ∃ outs, outcome_records rows = Ok outs
    ∧ (∀ out, out ∈ outs →
        let group := group_of rows (outcome_key out) in
        ∃ first pre post,
          2 ≤ length group
          ∧ head group = Some first
          ∧ most_recent_before group pre
          ∧ closest_after group post
          ∧ outcome_of (outcome.patient out) (outcome.med_code out)
              (outcome.med_description out) (outcome.obs_code out)
              first pre post = Ok out)
    ∧ (∀ k,
        length (group_of rows k) < 2
        ∨ (∀ r, r ∈ group_of rows k → ¬ cell_le (timeline.days_relative r) 0)
        ∨ (∀ r, r ∈ group_of rows k → ¬ cell_gt (timeline.days_relative r) 0) →
        ∀ out, out ∈ outs → outcome_key out ≠ k)
    ∧ (∀ k,
        2 ≤ length (group_of rows k) →
        (∃ r, r ∈ group_of rows k ∧ cell_le (timeline.days_relative r) 0) →
        (∃ r, r ∈ group_of rows k ∧ cell_gt (timeline.days_relative r) 0) →
        ∃ out, out ∈ outs ∧ outcome_key out = k).
Proof.
  destruct (outcome_records_spec rows) as (outs & Houts & Hin).
  exists outs. split; [done|].
  assert (Hgroup : ∀ p mc md oc out,
    group_outcome p mc md oc (labelled_group rows (p, mc, md, oc)) = Ok [out] →
    outcome_key out = (p, mc, md, oc)
    ∧ ∃ first pre post,
        2 ≤ length (group_of rows (p, mc, md, oc))
        ∧ head (group_of rows (p, mc, md, oc)) = Some first
        ∧ most_recent_before (group_of rows (p, mc, md, oc)) pre
        ∧ closest_after (group_of rows (p, mc, md, oc)) post
        ∧ outcome_of p mc md oc first pre post = Ok out).
  { intros p mc md oc out Hg.
    destruct (group_outcome_spec p mc md oc _ (NoDup_labelled_group rows (p, mc, md, oc)))
      as [[Hg' _]|(first & pre & post & out' & Hg' & Hlen & Hhead & Hpre & Hpost & Hout)];
      rewrite Hg' in Hg; simplify_eq.
    rewrite <- (length_fmap snd) in Hlen. rewrite labelled_group_snd in *.
    split; [by apply outcome_of_fields in Hout as [? _]|]. eauto 10. }
  split; [|split].
  - intros out (p & mc & md & oc & _ & Hg)%Hin.
    destruct (Hgroup _ _ _ _ _ Hg) as (Hk & first & pre & post & ? & ? & ? & ? & Hout).
    simpl. rewrite Hk. exists first, pre, post.
    unfold outcome_key in Hk. by simplify_eq.
  - intros k Hskip out (p & mc & md & oc & _ & Hg)%Hin Hk.
    destruct (Hgroup _ _ _ _ _ Hg) as (Hk' & first & pre & post & Hlen & _ & Hpre & Hpost & _).
    rewrite Hk' in Hk. subst k.
    destruct Hskip as [?|[Hs|Hs]]; [lia|..].
    + destruct Hpre as (Hin' & d & Hd & Hle & _). apply (Hs _ Hin'). by rewrite Hd.
    + destruct Hpost as (Hin' & d & Hd & Hgt & _). apply (Hs _ Hin'). by rewrite Hd.
  - intros [[[p mc] md] oc] Hlen (r1 & Hr1 & Hle) (r2 & Hr2 & Hgt).
    destruct (group_outcome_spec p mc md oc _ (NoDup_labelled_group rows (p, mc, md, oc)))
      as [[_ Hskip]|(first & pre & post & out & Hg & _)].
    + rewrite <- (length_fmap snd) in Hskip. rewrite labelled_group_snd in Hskip.
      destruct Hskip as [?|[Hs|Hs]]; [lia|by destruct (Hs r1)|by destruct (Hs r2)].
    + exists out. split; [|by apply Hgroup in Hg as [? _]].
      apply Hin. exists p, mc, md, oc. split; [|done].
      apply list_elem_of_filter in Hr1 as [<- Hr1]. by apply list_elem_of_fmap_2.
Qed.

(** C2. In the Outcome Resolver, every outcome record carries the value and
    date of a "pre" record of its group (patient, medication code, medication
    description, metric code) whose [days_relative] is at most 0 and is the
    largest of the group's offsets that are at most 0; and a group with no
    record at [days_relative ≤ 0] has no outcome record. *)
Theorem pre_record_is_most_recent (rows : list timeline.t) :
  ∃ outs, outcome_records rows = Ok outs
    ∧ (∀ out, out ∈ outs →
        ∃ pre, most_recent_before (group_of rows (outcome_key out)) pre
          ∧ outcome.pre_value out = timeline.value pre
          ∧ outcome.pre_date out = timeline.obs_date pre)
    ∧ (∀ k,
        (∀ r, r ∈ group_of rows k → ¬ cell_le (timeline.days_relative r) 0) →
        ∀ out, out ∈ outs → outcome_key out ≠ k).
Proof.
  destruct (outcome_records_groups rows) as (outs & Houts & Hsel & Hskip & _).
  exists outs. split; [done|]. split.
  - intros out Hout.
    destruct (Hsel out Hout) as (first & pre & post & _ & _ & Hpre & _ & Hof).
    apply outcome_of_fields in Hof as (_ & _ & _ & ? & ? & _).
    by exists pre.
  - intros k Hk. apply Hskip. right; by left.
Qed.

(** C3. In the Outcome Resolver, every outcome record carries the value,
    date and offset of a "post" record of its group whose [days_relative] is
    positive and minimizes [|days_relative − 180|] over the group's positive
    offsets, and which among equally near offsets has the smallest one (the
    first in ascending order). For positive offsets 10, 175, 185 and 400
    that is the record at 175. A group with no record at
    [days_relative > 0] has no outcome record. *)
Theorem post_record_is_closest_to_target (rows : list timeline.t) :
  ∃ outs, outcome_records rows = Ok outs
    ∧ (∀ out, out ∈ outs →
        ∃ post, closest_after (group_of rows (outcome_key out)) post
          ∧ outcome.post_value out = timeline.value post
          ∧ outcome.post_date out = timeline.obs_date post
          ∧ outcome.days_between out = timeline.days_relative post)
    ∧ (∀ out, out ∈ outs →
        (∀ r d, r ∈ group_of rows (outcome_key out) →
           timeline.days_relative r = Some d → (0 < d)%Z →
           d ∈ [10; 175; 185; 400]%Z) →
        (∃ r, r ∈ group_of rows (outcome_key out)
              ∧ timeline.days_relative r = Some 175%Z) →
        outcome.days_between out = Some 175%Z)
    ∧ (∀ k,
        (∀ r, r ∈ group_of rows k → ¬ cell_gt (timeline.days_relative r) 0) →
        ∀ out, out ∈ outs → outcome_key out ≠ k).
Proof.
  destruct (outcome_records_groups rows) as (outs & Houts & Hsel & Hskip & _).
  exists outs. split; [done|]. split; [|split].
  - intros out Hout.
    destruct (Hsel out Hout) as (first & pre & post & _ & _ & _ & Hpost & Hof).
    apply outcome_of_fields in Hof as (_ & _ & _ & _ & _ & ? & ? & ? & _).
    by exists post.
  - intros out Hout Hoffsets (r & Hr & Hd).
    destruct (Hsel out Hout) as (first & pre & post & _ & _ & _ & Hpost & Hof).
    apply outcome_of_fields in Hof as (_ & _ & _ & _ & _ & _ & _ & -> & _).
    destruct Hpost as (Hin & d & Hdp & Hpos & Hmin). rewrite Hdp. f_equal.
    destruct (Hmin r 175%Z Hr Hd) as [Hle Htie]; [lia|].
    specialize (Hoffsets post d Hin Hdp Hpos).
    unfold target_days in *.
    repeat (apply elem_of_cons in Hoffsets as [->|Hoffsets]); try lia.
    by apply elem_of_nil in Hoffsets.
  - intros k Hk. apply Hskip. right; by right.
Qed.

(** C4. In the Outcome Resolver, a group with fewer than 2 timeline records,
    or with no record at [days_relative ≤ 0], or with no record at
    [days_relative > 0], contributes no outcome record, and the resolver
    returns normally (it raises nothing) whatever groups the timeline has. *)
Theorem insufficient_groups_are_skipped (rows : list timeline.t) :
  ∃ outs, outcome_records rows = Ok outs
    ∧ ∀ k,
        length (group_of rows k) < 2
        ∨ (∀ r, r ∈ group_of rows k → ¬ cell_le (timeline.days_relative r) 0)
        ∨ (∀ r, r ∈ group_of rows k → ¬ cell_gt (timeline.days_relative r) 0) →
        ∀ out, out ∈ outs → outcome_key out ≠ k.
Proof.
  destruct (outcome_records_groups rows) as (outs & Houts & _ & Hskip & _).
  by exists outs.
Qed.

(** C10. Every outcome record takes its metric description and its unit from
    the first timeline record of its group in the group's original order,
    not from the selected "pre" or "post" record; there are timelines whose
    outcome record has a description and a unit that differ from those of
    both selected records. *)
Theorem description_and_units_of_first_row :
  (∀ rows : list timeline.t,
     ∃ outs, outcome_records rows = Ok outs
       ∧ ∀ out, out ∈ outs →
           ∃ first, head (group_of rows (outcome_key out)) = Some first
             ∧ outcome.obs_description out = timeline.obs_description first
             ∧ outcome.units out = timeline.units first)
  ∧ (∃ (rows : list timeline.t) out,
       outcome_records rows = Ok [out]
       ∧ ∀ pre post,
           most_recent_before (group_of rows (outcome_key out)) pre →
           closest_after (group_of rows (outcome_key out)) post →
           outcome.units out ≠ timeline.units pre
           ∧ outcome.units out ≠ timeline.units post
           ∧ outcome.obs_description out ≠ timeline.obs_description pre
           ∧ outcome.obs_description out ≠ timeline.obs_description post).
Proof.
  split.
  - intros rows.
    destruct (outcome_records_groups rows) as (outs & Houts & Hsel & _).
    exists outs. split; [done|]. intros out Hout.
    destruct (Hsel out Hout) as (first & pre & post & _ & Hhead & _ & _ & Hof).
    apply outcome_of_fields in Hof as (_ & ? & ? & _).
    by exists first.
  - set (row := λ desc d u, timeline.mk "P" (CodeStr "M") "Metformin" (DTime 0)
                  "4548-4" desc (DTime (d * ns_per_day)) (Some d) (VNum 7) u).
    set (first := row "HbA1c (lab A)" 200%Z "mmol/mol").
    set (before := row "HbA1c" (-5)%Z "%").
    set (after := row "HbA1c (lab B)" 170%Z "percent").
    set (rows := [first; before; after]).
    assert (Hin : ∀ r, r ∈ rows → r = first ∨ r = before ∨ r = after).
    { intros r Hr. repeat (apply elem_of_cons in Hr as [->|Hr]); auto.
      by apply elem_of_nil in Hr. }
    assert (Hrec : ∃ out, outcome_records rows = Ok [out]
               ∧ outcome_key out = ("P", CodeStr "M", "Metformin", "4548-4")).
    { unfold outcome_records.
      assert (groupby tuple3_le med_key (with_index rows)
              = [(("P", CodeStr "M", "Metformin"), with_index rows)]) as -> by reflexivity.
      cbn [for_each].
      assert (groupby str_le obs_key (with_index rows)
              = [("4548-4", with_index rows)]) as -> by reflexivity.
      cbn [for_each].
      destruct (group_outcome_spec "P" (CodeStr "M") "Metformin" "4548-4" (with_index rows))
        as [[_ Hskip]|(? & ? & ? & out & -> & _ & _ & _ & _ & Hof)].
      - apply NoDup_with_index.
      - rewrite with_index_snd in Hskip.
        destruct Hskip as [Hlen|[Hs|Hs]]; [simpl in Hlen; lia|..]; exfalso.
        + apply (Hs before); [apply elem_of_cons; right; by left|simpl; lia].
        + apply (Hs first); [by left|simpl; lia].
      - exists out. split; [done|]. by apply outcome_of_fields in Hof as [? _]. }
    destruct Hrec as (out & Hrec & Hkey). exists rows, out. split; [done|].
    destruct (outcome_records_groups rows) as (outs & Houts & Hsel & _).
    rewrite Hrec in Houts. injection Houts as <-.
    destruct (Hsel out) as (first' & pre' & post' & _ & Hhead & _ & _ & Hof); [by left|].
    apply outcome_of_fields in Hof as (_ & Hdesc & Hunits & _).
    assert (Hg : group_of rows (outcome_key out) = rows) by (rewrite Hkey; reflexivity).
    rewrite Hg in *. injection Hhead as <-. rewrite Hdesc, Hunits.
    intros pre post (Hpre & d & Hd & Hle & _) (Hpost & d' & Hd' & Hgt & Hmin).
    assert (pre = before) as ->.
    { destruct (Hin pre Hpre) as [ -> | [ -> | -> ] ]; [|done|]; simpl in Hd; simplify_eq; lia. }
    assert (post = after) as ->.
    { destruct (Hin post Hpost) as [ -> | [ -> | -> ] ]; [| |done]; simpl in Hd'; simplify_eq; [|lia].
      destruct (Hmin after 170%Z) as [? _]; [|done|lia|unfold target_days in *; lia].
      do 2 (apply elem_of_cons; right). by left. }
    done.
Qed.
End resolver_claims.

(** ** Naturality of the operations in the rows *)

Lemma filter_fmap_comm {A B} (f : A → B) (P : B → Prop) (Q : A → Prop)
    `{∀ x, Decision (P x)} `{∀ x, Decision (Q x)} (l : list A) :
  (∀ x, P (f x) ↔ Q x) → filter P (f <$> l) = f <$> filter Q l.
Proof.
  intros HPQ. induction l as [|x l IH]; [done|].
  rewrite fmap_cons, !filter_cons.
  destruct (decide (P (f x))) as [HP|HP], (decide (Q x)) as [HQ|HQ];
    rewrite ?fmap_cons, ?IH; try done; by apply HPQ in HP || apply HPQ in HQ.
Qed.

Lemma omap_fmap_comm {A B C} (f : A → B) (g : B → option C) (l : list A) :
  omap g (f <$> l) = omap (g ∘ f) l.
Proof.
  induction l as [|x l IH]; [done|]. rewrite fmap_cons. simpl.
  destruct (g (f x)); [f_equal|]; exact IH.
Qed.

Lemma fmap_omap_lookup {A B} (f : A → B) (l : list A) (idx : list nat) :
  omap (λ i, (f <$> l) !! i) idx = f <$> omap (λ i, l !! i) idx.
Proof.
  induction idx as [|i idx IH]; [done|]. simpl.
  rewrite list_lookup_fmap. destruct (l !! i); simpl; [f_equal|]; exact IH.
Qed.

Lemma groupby_fmap {A K} `{EqDecision K} (R : relation K)
    `{∀ x y, Decision (R x y)} (by_ : A → K) (h : A → A) (df : list A) :
  (∀ r, by_ (h r) = by_ r) →
  groupby R by_ (h <$> df)
  = (λ kg : K * list A, (kg.1, h <$> kg.2)) <$> groupby R by_ df.
Proof.
  intros Hh. unfold groupby. rewrite <- !list_fmap_compose.
  rewrite (list_fmap_ext (by_ ∘ h) by_ df) by (intros; apply Hh).
  apply list_fmap_ext. intros _ k _. simpl. f_equal.
  apply filter_fmap_comm. intros r. by rewrite Hh.
Qed.

Lemma for_each_fmap {A A' B} (f : A → A') (xs : list A) (body : A' → result (list B)) :
  for_each (f <$> xs) body = for_each xs (body ∘ f).
Proof. induction xs as [|x xs IH]; [done|]. rewrite fmap_cons. simpl. by rewrite IH. Qed.

Lemma for_each_Forall2 {A B B'} (R : B → B' → Prop) (xs : list A)
    (body : A → result (list B)) (body' : A → result (list B')) :
  (∀ x, x ∈ xs → ∃ l l', body x = Ok l ∧ body' x = Ok l' ∧ Forall2 R l l') →
  ∃ outs outs', for_each xs body = Ok outs ∧ for_each xs body' = Ok outs'
    ∧ Forall2 R outs outs'.
Proof.
  induction xs as [|x xs IH]; intros Hb.
  - exists [], []. by repeat split.
  - destruct (Hb x) as (l & l' & Hl & Hl' & HR); [by left|].
    destruct IH as (outs & outs' & Ho & Ho' & HR'); [intros; apply Hb; by right|].
    exists (l ++ outs), (l' ++ outs'). simpl. rewrite Hl, Hl', Ho, Ho'.
    split; [done|]. split; [done|]. by apply Forall2_app.
Qed.

Section revalue.
Context `{Parsers} `{Argsort} (v : nat → value_cell).

Lemma with_index_revalue (rows : list timeline.t) :
  with_index (revalue v rows) = revalue_row v <$> with_index rows.
Proof.
  unfold with_index, revalue. apply list_eq. intros i.
  rewrite list_lookup_fmap, !list_lookup_imap. by destruct (rows !! i).
Qed.

Lemma sort_values_revalue (g : list (nat * timeline.t)) :
  sort_values (timeline.days_relative ∘ snd) (revalue_row v <$> g)
  = revalue_row v <$> sort_values (timeline.days_relative ∘ snd) g.
Proof.
  unfold sort_values. set (by_ := timeline.days_relative ∘ snd).
  rewrite (filter_fmap_comm (revalue_row v)
             (λ r, is_Some (by_ r)) (λ r, is_Some (by_ r)) g) by done.
  rewrite (filter_fmap_comm (revalue_row v)
             (λ r, by_ r = None) (λ r, by_ r = None) g) by done.
  rewrite omap_fmap_comm, fmap_app, fmap_omap_lookup. done.
Qed.

Lemma loc_revalue (df : list (nat * timeline.t)) (i : nat) :
  loc_ (revalue_row v <$> df) i
  = (λ r, timeline.with_value r (v i)) <$> loc_ df i.
Proof.
  unfold loc_. rewrite list_find_fmap.
  rewrite (list_find_ext _ (λ p, p.1 = i)) by done.
  destruct (list_find _ df) as [[q [j r]]|] eqn:Hf; [|done].
  apply list_find_Some in Hf as (_ & Hj & _). simpl in Hj. by subst.
Qed.

Lemma selection_revalue (g : list (nat * timeline.t)) :
  selection (revalue_row v <$> g) = revalue_selected v <$> selection g.
Proof.
  unfold selection. rewrite length_fmap.
  case_decide; [done|].
  rewrite sort_values_revalue.
  set (sorted := sort_values _ _). clearbody sorted.
  destruct g as [|first g]; [done|].
  rewrite fmap_cons. cbn [iloc_first mbind result_bind].
  rewrite (filter_fmap_comm (revalue_row v)
             (λ r, cell_le (timeline.days_relative r.2) 0)
             (λ r, cell_le (timeline.days_relative r.2) 0) sorted) by done.
  rewrite (filter_fmap_comm (revalue_row v)
             (λ r, cell_gt (timeline.days_relative r.2) 0)
             (λ r, cell_gt (timeline.days_relative r.2) 0) sorted) by done.
  rewrite !length_fmap.
  case_decide; [|done].
  unfold iloc_last. rewrite fmap_last.
  destruct (last _) as [pre|]; [|done]. cbn [fmap option_fmap option_map mbind result_bind].
  case_decide; [|done].
  rewrite <- list_fmap_compose.
  rewrite (list_fmap_ext _ (λ r : nat * timeline.t, (r.1, (λ d, Z.abs (d - target_days)) <$>
                        timeline.days_relative r.2))) by done.
  destruct (idxmin _) as [i|]; [|done]. cbn [mbind result_bind].
  rewrite loc_revalue.
  destruct (loc_ _ i) as [post|]; done.
Qed.
End revalue.

Section revalue_outcomes.
Context `{Parsers} `{Argsort} (v : nat → value_cell).

Lemma elem_of_with_index {A} (rows : list A) (r : nat * A) :
  r ∈ with_index rows → rows !! r.1 = Some r.2.
Proof.
  unfold with_index. intros (i & x & -> & Hx)%elem_of_lookup_imap. done.
Qed.

Lemma group_outcome_revalue rows p mc md oc (g : list (nat * timeline.t)) :
  NoDup g.*1 → (∀ r, r ∈ g → r ∈ with_index rows) →
  ∃ l l', group_outcome p mc md oc g = Ok l
    ∧ group_outcome p mc md oc (revalue_row v <$> g) = Ok l'
    ∧ Forall2 (same_selection rows v) l l'.
Proof.
  intros Hnd Hsub. rewrite !group_outcome_selection, selection_revalue.
  destruct (selection_spec g Hnd)
    as [[-> _]|(first & pre & post & -> & _ & _ & Hpre & Hpost & _)].
  { exists [], []. by repeat split. }
  cbn [fmap result_fmap revalue_selected mbind result_bind].
  destruct (outcome_of_total p mc md oc first.2 pre.2 post.2) as [out Hout].
  destruct (outcome_of_total p mc md oc (revalue_row v first).2
              (revalue_row v pre).2 (revalue_row v post).2) as [out' Hout'].
  rewrite Hout, Hout'. exists [out], [out']. split; [done|]. split; [done|].
  apply List.Forall2_cons; [|apply List.Forall2_nil].
  destruct (outcome_of_fields _ _ _ _ _ _ _ _ Hout)
    as (Hk & ? & ? & ? & ? & ? & ? & ? & _).
  destruct (outcome_of_fields _ _ _ _ _ _ _ _ Hout')
    as (Hk' & ? & ? & ? & ? & ? & ? & ? & _).
  unfold same_selection. rewrite Hk, Hk'.
  simpl in *. do 6 (split; [congruence|]).
  exists pre.1, post.1, pre.2, post.2.
  split; [by apply elem_of_with_index, Hsub|].
  split; [by apply elem_of_with_index, Hsub|]. done.
Qed.

Lemma outcome_records_revalue (rows : list timeline.t) :
  ∃ outs outs',
    outcome_records rows = Ok outs
    ∧ outcome_records (revalue v rows) = Ok outs'
    ∧ Forall2 (same_selection rows v) outs outs'.
Proof.
  unfold outcome_records. rewrite with_index_revalue.
  rewrite (groupby_fmap _ med_key (revalue_row v)) by done.
  rewrite for_each_fmap.
  apply for_each_Forall2.
  intros [[[p mc] md] group] [_ ->]%elem_of_groupby. simpl.
  rewrite (groupby_fmap _ obs_key (revalue_row v)) by done.
  rewrite for_each_fmap.
  apply for_each_Forall2.
  intros [oc og] [_ ->]%elem_of_groupby. simpl.
  apply group_outcome_revalue.
  - by do 2 apply NoDup_fst_filter, NoDup_with_index || apply NoDup_fst_filter.
  - by intros r [_ [_ ?]%list_elem_of_filter]%list_elem_of_filter.
Qed.
End revalue_outcomes.

Section value_claims.
Context `{Parsers} `{Argsort}.

Lemma calculate_change_nan (pre_value post_value : value_cell) change percent_change :
  calculate_change pre_value post_value = Ok (change, percent_change) →
  (∃ pre, py_float pre_value = Ok pre ∧ PrimFloat.is_nan pre = true)
  ∨ (∃ post, py_float post_value = Ok post ∧ PrimFloat.is_nan post = true) →
  change = nan ∧ percent_change = nan.
Proof.
  intros Hc Hnan.
  destruct (calculate_change_spec pre_value post_value) as (c & pc & Hc' & Hspec).
  rewrite Hc in Hc'. injection Hc' as <- <-.
  destruct (py_float post_value) as [post|]; [|done].
  destruct (py_float pre_value) as [pre|]; [|done].
  destruct Hspec as [-> ->].
  destruct Hnan as [(? & [= <-] & ->%is_nan_eq)|(? & [= <-] & ->%is_nan_eq)].
  - rewrite sub_nan_r. split; [done|].
    change (PrimFloat.eqb nan 0) with false. cbv iota.
    by rewrite div_nan_l, mul_nan_l.
  - rewrite sub_nan_l. split; [done|].
    destruct (PrimFloat.eqb pre 0); [done|]. by rewrite div_nan_l, mul_nan_l.
Qed.

(** C6. Every outcome record has [change = post − pre] and
    [percent_change = change / pre × 100] in floating-point arithmetic on
    its two selected values; both are NaN when one of the two values is NaN
    or is text that [float] rejects, and [percent_change] is NaN when the
    pre value equals 0; the resolver returns normally (it raises nothing,
    in particular no [ZeroDivisionError]). *)
Theorem change_and_percent_change (rows : list timeline.t) :
  ∃ outs, outcome_records rows = Ok outs
    ∧ ∀ out, out ∈ outs →
        match py_float (outcome.post_value out),
              py_float (outcome.pre_value out) with
        | Ok post, Ok pre =>
            outcome.change out = PrimFloat.sub post pre
            ∧ outcome.percent_change out =
                (if PrimFloat.eqb pre 0 then nan
                 else PrimFloat.mul (PrimFloat.div (outcome.change out) pre) 100)
            ∧ (PrimFloat.is_nan pre = true ∨ PrimFloat.is_nan post = true →
               outcome.change out = nan ∧ outcome.percent_change out = nan)
        | _, _ => outcome.change out = nan ∧ outcome.percent_change out = nan
        end.
Proof.
  destruct (outcome_records_groups rows) as (outs & Houts & Hsel & _).
  exists outs. split; [done|]. intros out Hout.
  destruct (Hsel out Hout) as (first & pre & post & _ & _ & _ & _ & Hof).
  apply outcome_of_fields in Hof as (_ & _ & _ & _ & _ & _ & _ & _ & Hc).
  destruct (calculate_change_spec (outcome.pre_value out) (outcome.post_value out))
    as (c & pc & Hc' & Hspec).
  pose proof (calculate_change_nan _ _ _ _ Hc) as Hnan.
  rewrite Hc in Hc'. injection Hc' as <- <-.
  destruct (py_float (outcome.post_value out)) as [x|]; [|done].
  destruct (py_float (outcome.pre_value out)) as [y|]; [|done].
  destruct Hspec as [Hchange Hpct]. split; [done|]. split; [by rewrite Hpct, Hchange|].
  intros [Hy|Hx]; apply Hnan; [left|right]; eauto.
Qed.

(** C9. The selection of the resolver does not look at the values. Whatever
    values the timeline records carry (NaN for a value that failed to parse
    included), the same groups yield an outcome record and the same rows
    are selected as "pre" and "post": a group with at least two records, one
    at [days_relative ≤ 0] and one at [days_relative > 0], always yields a
    record, and replacing the values of the rows by any others changes only
    the values the records report. A record whose selected pre or post
    value is NaN is emitted with NaN [change] and [percent_change]. *)
Theorem selection_ignores_values (rows : list timeline.t) (v : nat → value_cell) :
  ∃ outs outs',
    outcome_records rows = Ok outs
    ∧ outcome_records (revalue v rows) = Ok outs'
    ∧ Forall2 (same_selection rows v) outs outs'
    ∧ (∀ k,
        2 ≤ length (group_of rows k) →
        (∃ r, r ∈ group_of rows k ∧ cell_le (timeline.days_relative r) 0) →
        (∃ r, r ∈ group_of rows k ∧ cell_gt (timeline.days_relative r) 0) →
        ∃ out, out ∈ outs ∧ outcome_key out = k)
    ∧ (∀ out', out' ∈ outs' →
        outcome.pre_value out' = VNum nan ∨ outcome.post_value out' = VNum nan →
        outcome.change out' = nan ∧ outcome.percent_change out' = nan).
Proof.
  destruct (outcome_records_revalue v rows) as (outs & outs' & Houts & Houts' & Hsame).
  exists outs, outs'. split; [done|]. split; [done|]. split; [done|]. split.
  - destruct (outcome_records_groups rows) as (outs0 & Houts0 & _ & _ & Hemit).
    rewrite Houts in Houts0. by injection Houts0 as <-.
  - intros out' Hout' Hnan.
    destruct (outcome_records_groups (revalue v rows)) as (outs0 & Houts0 & Hsel & _).
    rewrite Houts' in Houts0. injection Houts0 as <-.
    destruct (Hsel out' Hout') as (first & pre & post & _ & _ & _ & _ & Hof).
    apply outcome_of_fields in Hof as (_ & _ & _ & _ & _ & _ & _ & _ & Hc).
    apply (calculate_change_nan _ _ _ _ Hc).
    destruct Hnan as [-> | ->]; [left|right]; by exists nan.
Qed.
End value_claims.

(** * The stages on the heap *)

Lemma mapM_result_Ok {A B} (f : A → result B) (l : list A) (k : list B) :
  mapM f l = Ok k ↔ Forall2 (λ x y, f x = Ok y) l k.
Proof.
  revert k. induction l as [|x l IH]; intros k.
  - split; [intros [= <-]; constructor | by intros ->%Forall2_nil_inv_l].
  - change (mapM f (x :: l)) with (y ← f x; k ← mapM f l; mret (y :: k)).
    split.
    + destruct (f x) as [y|e] eqn:Hx; [|done].
      destruct (mapM f l) as [k'|e] eqn:Hl; [|done].
      intros [= <-]. constructor; [done|]. by apply IH.
    + intros (y & k' & Hy & Hk' & ->)%Forall2_cons_inv_l.
      apply IH in Hk'. by rewrite Hy, Hk'.
Qed.

Lemma zip_with_fmap_same {A B C} (f : A → B → C) (g : A → B) (l : list A) :
  zip_with f l (g <$> l) = (λ x, f x (g x)) <$> l.
Proof. induction l as [|x l IH]; [done|]. simpl. f_equal. exact IH. Qed.

Lemma Forall2_fmap_eq {A B} (f : A → B) (l : list A) (k : list B) :
  Forall2 (λ x y, f x = y) l k → k = f <$> l.
Proof. induction 1 as [|x y l k <- _ ->]; done. Qed.

Section stage_runs.
Context `{Parsers} `{Argsort}.


Lemma to_datetime_Ok (col col' : list date_cell) :
  to_datetime col = Ok col' ↔
  Forall (λ c, ∃ c', converts_to c c') col ∧ col' = converted <$> col.
Proof.
  unfold to_datetime. rewrite mapM_result_Ok. split.
  - intros Hf. split.
    + eapply Forall2_Forall_l; [exact Hf|]. apply Forall_true.
      intros c' c Hc. by exists c'.
    + apply Forall2_fmap_eq. eapply Forall2_impl; [exact Hf|].
      intros c c' Hc. unfold converted. by rewrite Hc.
  - intros [Hall ->]. apply Forall2_fmap_r, Forall_Forall2_diag.
    eapply Forall_impl; [exact Hall|]. intros c [c' Hc]. unfold converted, converts_to in *.
    simpl. by rewrite Hc.
Qed.

Lemma converted_idemp (c : date_cell) :
  (∃ c', converts_to c c') → to_datetime_cell (converted c) = Ok (converted c).
Proof.
  intros [c' Hc]. unfold converted, converts_to in *. rewrite Hc.
  destruct c as [s| | |]; simpl in *; simplify_eq; [|done..].
  destruct (parse_datetime s) as [[?|]|]; by simplify_eq.
Qed.

Lemma converted_is_datetime (c c' : date_cell) : converts_to c c' → is_datetime c'.
Proof.
  unfold converts_to. destruct c as [s| | |]; simpl.
  - by destruct (parse_datetime s) as [[?|]|]; [intros [= <-]|intros [= <-]|].
  - by intros [= <-].
  - by intros [= <-].
  - by intros [= <-].
Qed.


Lemma bind_assoc_M {A B C} (m : M A) (f : A → M B) (g : B → M C) (h : heap) :
  ((m ≫= f) ≫= g) h = (m ≫= λ a, f a ≫= g) h.
Proof.
  unfold mbind, M_bind. by destruct (m h) as [h' [a|e]].
Qed.
Lemma bind_lift_Ok {A B} (a : A) (f : A → M B) (h : heap) :
  (lift (Ok a) ≫= f) h = f a h.
Proof. done. Qed.
Lemma bind_lift_Raise {A B} (e : exn) (f : A → M B) (h : heap) :
  (lift (Raise e) ≫= f) h = (h, Raise e).
Proof. done. Qed.
Lemma bind_store {B} df fr (f : () → M B) (h : heap) :
  (store df fr ≫= f) h = f () (<[df := fr]> h).
Proof. done. Qed.
Lemma bind_read_medications {B} df rows (f : list medication.t → M B) (h : heap) :
  h !! df = Some (Medications rows) → (read_medications df ≫= f) h = f rows h.
Proof. intros Hdf. unfold mbind, M_bind, read_medications. by rewrite Hdf. Qed.
Lemma bind_read_observations {B} df rows (f : list observation.t → M B) (h : heap) :
  h !! df = Some (Observations rows) → (read_observations df ≫= f) h = f rows h.
Proof. intros Hdf. unfold mbind, M_bind, read_observations. by rewrite Hdf. Qed.
Lemma bind_read_timeline {B} df rows (f : list timeline.t → M B) (h : heap) :
  h !! df = Some (Timeline rows) → (read_timeline df ≫= f) h = f rows h.
Proof. intros Hdf. unfold mbind, M_bind, read_timeline. by rewrite Hdf. Qed.

Lemma create_medication_periods_run (h : heap) (df : loc) :
  ∃ h', create_medication_periods df h
        = (h', match normalize (h !! df) with Ok _ => Ok df | Raise e => Raise e end)
    ∧ (∀ l, l ≠ df → h' !! l = h !! l)
    ∧ (∀ rows, normalize (h !! df) = Ok rows → h' !! df = Some (Medications rows)).
Proof.
  unfold create_medication_periods, assign_medications.
  destruct (h !! df) as [fr|] eqn:Hdf.
  2: { exists h. unfold mbind, M_bind, read_medications. rewrite Hdf. by repeat split. }
  destruct fr as [rows| | |];
    try (exists h; unfold mbind, M_bind, read_medications; rewrite Hdf; by repeat split).
  rewrite (bind_read_medications df rows) by done. simpl normalize.
  destruct (to_datetime (medication.start <$> rows)) as [starts|e].
  2: { exists h. rewrite bind_lift_Raise. by repeat split. }
  rewrite bind_lift_Ok, bind_assoc_M, (bind_read_medications df rows) by done.
  rewrite bind_store. cbn [mbind result_bind].
  set (rows1 := zip_with medication.with_start rows starts).
  rewrite (bind_read_medications df rows1) by apply lookup_insert_eq.
  destruct (to_datetime (medication.stop <$> rows1)) as [stops|e].
  2: { eexists. rewrite bind_lift_Raise. split; [done|]. split; [|done].
       intros l Hl. by rewrite lookup_insert_ne. }
  rewrite bind_lift_Ok, bind_assoc_M, (bind_read_medications df rows1)
    by apply lookup_insert_eq.
  rewrite bind_store, insert_insert_eq. cbn [mbind result_bind mret result_ret].
  set (rows2 := zip_with medication.with_stop rows1 stops).
  rewrite (bind_read_medications df rows2) by apply lookup_insert_eq.
  rewrite bind_assoc_M, (bind_read_medications df rows2) by apply lookup_insert_eq.
  rewrite bind_store, insert_insert_eq.
  eexists. split; [done|]. split.
  - intros l Hl. by rewrite lookup_insert_ne.
  - intros rows' [= <-]. by rewrite lookup_insert_eq.
Qed.





Lemma fresh_lookup (h : heap) : h !! fresh (dom h) = None.
Proof. apply not_elem_of_dom, is_fresh. Qed.

Lemma fresh_insert_ne (h : heap) l fr : fresh (dom (<[l := fr]> h)) ≠ l.
Proof.
  intros Heq. apply (is_fresh (dom (<[l := fr]> h))).
  rewrite Heq at 1. apply elem_of_dom. by rewrite lookup_insert_eq.
Qed.

Lemma fresh_insert_lookup (h : heap) l fr : h !! fresh (dom (<[l := fr]> h)) = None.
Proof.
  apply not_elem_of_dom. intros Hin.
  apply (is_fresh (dom (<[l := fr]> h))).
  set (x := fresh _) in *. rewrite dom_insert_L. apply elem_of_union. by right.
Qed.

Lemma create_observation_timeline_run (h : heap) (obs meds : loc) :
  ∃ h' tl,
    create_observation_timeline obs meds h
      = (h', match build (h !! obs) (h !! meds) with
             | Ok _ => Ok tl
             | Raise e => Raise e
             end)
    ∧ h !! tl = None
    ∧ (∀ l, l ≠ obs → l ≠ tl → h' !! l = h !! l)
    ∧ (∀ recs, build (h !! obs) (h !! meds) = Ok recs →
         h' !! tl = Some (Timeline recs))
    ∧ (h' !! obs = h !! obs
       ∨ ∃ os os', h !! obs = Some (Observations os) ∧ coerce os = Ok os'
           ∧ h' !! obs = Some (Observations os')).
Proof.
  unfold create_observation_timeline, assign_observations.
  assert (Hfail : ∀ e r, r = (h, Raise e) → build (h !! obs) (h !! meds) = Raise e →
    ∃ h' tl, r = (h', match build (h !! obs) (h !! meds) with
                      | Ok _ => Ok tl | Raise e => Raise e end)
      ∧ h !! tl = None
      ∧ (∀ l, l ≠ obs → l ≠ tl → h' !! l = h !! l)
      ∧ (∀ recs, build (h !! obs) (h !! meds) = Ok recs →
           h' !! tl = Some (Timeline recs))
      ∧ (h' !! obs = h !! obs
         ∨ ∃ os os', h !! obs = Some (Observations os) ∧ coerce os = Ok os'
             ∧ h' !! obs = Some (Observations os'))).
  { intros e r -> Hb. exists h, (fresh (dom h)). rewrite Hb.
    split; [done|]. split; [apply fresh_lookup|]. split; [done|]. split; [done|by left]. }
  destruct (h !! obs) as [fo|] eqn:Hobs.
  2: { apply (Hfail KeyError); [|done].
       unfold mbind, M_bind, read_observations. by rewrite Hobs. }
  destruct fo as [|os| |];
    try (apply (Hfail KeyError); [|done];
         unfold mbind, M_bind, read_observations; by rewrite Hobs).
  rewrite (bind_read_observations obs os) by done.
  destruct (h !! meds) as [fm|] eqn:Hmeds.
  2: { apply (Hfail KeyError); [|done].
       unfold mbind, M_bind, read_medications. by rewrite Hmeds. }
  destruct fm as [ms| | |];
    try (apply (Hfail KeyError); [|done];
         unfold mbind, M_bind, read_medications; by rewrite Hmeds).
  rewrite (bind_read_medications meds ms) by done.
  assert (Hne : meds ≠ obs) by congruence.
  simpl build. case_decide as Hempty.
  { exists (<[fresh (dom h) := Timeline []]> h), (fresh (dom h)).
    split; [done|]. split; [apply fresh_lookup|]. split.
    { intros l _ Hl. by rewrite lookup_insert_ne. }
    split; [intros recs [= <-]; apply lookup_insert_eq|].
    left. rewrite lookup_insert_ne; [done|].
    intros Heq. pose proof (fresh_lookup h) as Hf. rewrite Heq in Hf. congruence. }
  unfold coerce.
  destruct (to_datetime (observation.date <$> os)) as [dates|e] eqn:Hdates.
  2: { exists h, (fresh (dom h)). rewrite bind_lift_Raise.
       split; [done|]. split; [apply fresh_lookup|]. split; [done|]. split; [done|by left]. }
  rewrite bind_lift_Ok, bind_assoc_M, (bind_read_observations obs os) by done.
  rewrite bind_store. cbn [mbind result_bind mret result_ret].
  set (os1 := zip_with observation.with_date os dates).
  rewrite (bind_read_observations obs os1) by apply lookup_insert_eq.
  rewrite bind_assoc_M, (bind_read_observations obs os1) by apply lookup_insert_eq.
  rewrite bind_store, insert_insert_eq.
  set (os2 := zip_with observation.with_value os1 _).
  rewrite (bind_read_observations obs os2) by apply lookup_insert_eq.
  rewrite (bind_read_medications meds ms) by by rewrite lookup_insert_ne.
  set (h2 := <[obs := Observations os2]> h).
  destruct (timeline_records os2 ms) as [recs|e].
  - rewrite bind_lift_Ok.
    exists (<[fresh (dom h2) := Timeline recs]> h2), (fresh (dom h2)).
    split; [reflexivity|]. split; [apply fresh_insert_lookup|]. split.
    { intros l Hl Hl'. unfold h2. by rewrite !lookup_insert_ne. }
    split; [intros recs' [= <-]; apply lookup_insert_eq|].
    right. exists os, os2. split; [done|].
    split; [unfold coerce; by rewrite Hdates|].
    rewrite lookup_insert_ne; [apply lookup_insert_eq|]. apply fresh_insert_ne.
  - rewrite bind_lift_Raise. exists h2, (fresh (dom h2)).
    split; [reflexivity|]. split; [apply fresh_insert_lookup|]. split.
    { intros l Hl Hl'. unfold h2. by rewrite lookup_insert_ne. }
    split; [done|]. right. exists os, os2. split; [done|].
    split; [unfold coerce; by rewrite Hdates|].
    apply lookup_insert_eq.
Qed.
End stage_runs.

Section closed_forms.
Context `{Parsers} `{Argsort}.

Lemma numeric_fmap (rows : list timeline.t) : numeric rows = numeric_row <$> rows.
Proof. unfold numeric, to_numeric. by rewrite <- list_fmap_compose, zip_with_fmap_same. Qed.

Lemma zip_with_fmap_fmap {A B C D} (f : A → C → D) (g : B → C) (k : A → B)
    (l : list A) :
  zip_with f l (g <$> (k <$> l)) = (λ x, f x (g (k x))) <$> l.
Proof. induction l as [|x l IH]; [done|]. simpl. f_equal. exact IH. Qed.


Lemma normalize_Ok (rows periods : list medication.t) :
  normalize (Some (Medications rows)) = Ok periods ↔
  Forall (λ m, (∃ c, converts_to (medication.start m) c)
               ∧ (∃ c, converts_to (medication.stop m) c)) rows
  ∧ periods = normalized_row <$> rows.
Proof.
  unfold normalize.
  assert (Hrow : ∀ m, filled (stopped (started m)) = normalized_row m).
  { by intros [p c d s e r]. }
  assert (Hfill : ∀ l, zip_with medication.with_stop l
                         (fillna Timestamp_max (medication.stop <$> l)) = filled <$> l).
  { intros l. unfold fillna.
    exact (zip_with_fmap_fmap medication.with_stop
             (fillna_cell Timestamp_max) medication.stop l). }
  split.
  - intros Hn.
    destruct (to_datetime (medication.start <$> rows)) as [starts|] eqn:Hs; [|done].
    apply to_datetime_Ok in Hs as [Hs ->].
    cbn [mbind result_bind] in Hn. cbv zeta in Hn.
    rewrite (zip_with_fmap_fmap medication.with_start converted medication.start) in Hn.
    fold started in Hn.
    destruct (to_datetime (medication.stop <$> (started <$> rows)))
      as [stops|] eqn:He; [|done].
    apply to_datetime_Ok in He as [He ->].
    cbn [mbind result_bind mret result_ret] in Hn.
    rewrite (zip_with_fmap_fmap medication.with_stop converted medication.stop) in Hn.
    fold stopped in Hn. rewrite Hfill in Hn. injection Hn as <-.
    rewrite <- !list_fmap_compose.
    rewrite Forall_fmap in Hs. rewrite <- list_fmap_compose, Forall_fmap in He.
    split.
    + apply Forall_forall. intros m Hm.
      eapply Forall_forall in Hs, He; [|done..]. done.
    + apply list_fmap_ext. intros _ m _. apply Hrow.
  - intros [Hall ->].
    assert (Hs : to_datetime (medication.start <$> rows)
                 = Ok (converted <$> (medication.start <$> rows))).
    { apply to_datetime_Ok. split; [|done]. rewrite Forall_fmap.
      eapply Forall_impl; [exact Hall|]. by intros m [? _]. }
    rewrite Hs. cbn [mbind result_bind]. cbv zeta.
    rewrite (zip_with_fmap_fmap medication.with_start converted medication.start).
    fold started.
    assert (He : to_datetime (medication.stop <$> (started <$> rows))
                 = Ok (converted <$> (medication.stop <$> (started <$> rows)))).
    { apply to_datetime_Ok. split; [|done]. rewrite <- list_fmap_compose, Forall_fmap.
      eapply Forall_impl; [exact Hall|]. by intros m [_ ?]. }
    rewrite He. cbn [mbind result_bind mret result_ret].
    rewrite (zip_with_fmap_fmap medication.with_stop converted medication.stop).
    fold stopped. rewrite Hfill. rewrite <- !list_fmap_compose. f_equal.
Qed.

Lemma coerce_Ok (os os' : list observation.t) :
  coerce os = Ok os' ↔
  Forall (λ o, ∃ c, converts_to (observation.date o) c) os
  ∧ os' = coerced_row <$> os.
Proof.
  unfold coerce.
  assert (Hnum : ∀ l, zip_with observation.with_value l
                        (to_numeric (observation.value <$> l))
                      = (λ o, observation.with_value o
                                (to_numeric_cell (observation.value o))) <$> l).
  { intros l. unfold to_numeric.
    exact (zip_with_fmap_fmap observation.with_value to_numeric_cell
             observation.value l). }
  split.
  - intros Hc.
    destruct (to_datetime (observation.date <$> os)) as [dates|] eqn:Hd; [|done].
    apply to_datetime_Ok in Hd as [Hd ->].
    cbn [mbind result_bind mret result_ret] in Hc. cbv zeta in Hc.
    rewrite (zip_with_fmap_fmap observation.with_date converted observation.date) in Hc.
    rewrite Hnum in Hc. injection Hc as <-.
    rewrite Forall_fmap in Hd. split; [done|].
    by rewrite <- list_fmap_compose.
  - intros [Hall ->].
    assert (Hd : to_datetime (observation.date <$> os)
                 = Ok (converted <$> (observation.date <$> os))).
    { apply to_datetime_Ok. split; [|done]. by rewrite Forall_fmap. }
    rewrite Hd. cbn [mbind result_bind mret result_ret]. cbv zeta.
    rewrite (zip_with_fmap_fmap observation.with_date converted observation.date).
    rewrite Hnum. by rewrite <- list_fmap_compose.
Qed.

Lemma create_patient_medication_outcomes_run (h : heap) (tdf : loc) :
  ∃ h' out,
    create_patient_medication_outcomes tdf h
      = (h', match resolve (h !! tdf) with Ok _ => Ok out | Raise e => Raise e end)
    ∧ h !! out = None
    ∧ (∀ l, l ≠ tdf → l ≠ out → h' !! l = h !! l)
    ∧ (∀ outs, resolve (h !! tdf) = Ok outs → h' !! out = Some (Outcomes outs))
    ∧ (∀ rows, h !! tdf = Some (Timeline rows) →
         h' !! tdf = Some (Timeline (numeric rows))).
Proof.
  unfold create_patient_medication_outcomes, assign_timeline.
  destruct (h !! tdf) as [ft|] eqn:Htdf.
  2: { exists h, (fresh (dom h)). unfold mbind, M_bind, read_timeline. rewrite Htdf.
       split; [done|]. split; [apply fresh_lookup|]. by repeat split. }
  destruct ft as [| |rows|];
    try (exists h, (fresh (dom h)); unfold mbind, M_bind, read_timeline; rewrite Htdf;
         split; [done|]; split; [apply fresh_lookup|]; by repeat split).
  rewrite (bind_read_timeline tdf rows) by done. simpl resolve.
  case_decide as Hempty.
  { subst rows. exists (<[fresh (dom h) := Outcomes []]> h), (fresh (dom h)).
    split; [done|]. split; [apply fresh_lookup|]. split.
    { intros l _ Hl. by rewrite lookup_insert_ne. }
    split; [intros outs [= <-]; apply lookup_insert_eq|].
    intros rows [= <-]. rewrite lookup_insert_ne; [done|].
    intros Heq. pose proof (fresh_lookup h) as Hf. rewrite Heq in Hf. congruence. }
  rewrite bind_assoc_M, (bind_read_timeline tdf rows) by done.
  rewrite bind_store. fold (numeric rows).
  rewrite (bind_read_timeline tdf (numeric rows)) by apply lookup_insert_eq.
  set (h1 := <[tdf := Timeline (numeric rows)]> h).
  destruct (outcome_records (numeric rows)) as [outs|e].
  - rewrite bind_lift_Ok.
    exists (<[fresh (dom h1) := Outcomes outs]> h1), (fresh (dom h1)).
    split; [reflexivity|]. split; [apply fresh_insert_lookup|]. split.
    { intros l Hl Hl'. unfold h1. by rewrite !lookup_insert_ne. }
    split; [intros outs' [= <-]; apply lookup_insert_eq|].
    intros rows' [= <-].
    rewrite lookup_insert_ne; [apply lookup_insert_eq|]. apply fresh_insert_ne.
  - rewrite bind_lift_Raise. exists h1, (fresh (dom h1)).
    split; [reflexivity|]. split; [apply fresh_insert_lookup|]. split.
    { intros l Hl Hl'. unfold h1. by rewrite lookup_insert_ne. }
    split; [done|]. intros rows' [= <-]. apply lookup_insert_eq.
Qed.

(** The run of the builder, step by step. *)
Lemma create_observation_timeline_steps (h : heap) (obs meds : loc)
    (os : list observation.t) (ms : list medication.t) :
  h !! obs = Some (Observations os) →
  h !! meds = Some (Medications ms) →
  create_observation_timeline obs meds h =
    if decide (os = [] ∨ ms = []) then
      (<[fresh (dom h) := Timeline []]> h, Ok (fresh (dom h)))
    else
      match coerce os with
      | Raise e => (h, Raise e)
      | Ok os' =>
          let h1 := <[obs := Observations os']> h in
          match timeline_records os' ms with
          | Ok records =>
              (<[fresh (dom h1) := Timeline records]> h1, Ok (fresh (dom h1)))
          | Raise e => (h1, Raise e)
          end
      end.
Proof.
  intros Hobs Hmeds.
  assert (Hne : obs ≠ meds) by (intros ->; congruence).
  unfold create_observation_timeline, assign_observations.
  rewrite (bind_read_observations obs os), (bind_read_medications meds ms) by done.
  case_decide as Hempty; [done|].
  unfold coerce.
  destruct (to_datetime (observation.date <$> os)) as [dates|e].
  2: { by rewrite bind_lift_Raise. }
  cbn [mbind result_bind mret result_ret].
  rewrite bind_lift_Ok, bind_assoc_M, (bind_read_observations obs os) by done.
  rewrite bind_store.
  set (os1 := zip_with observation.with_date os _).
  rewrite (bind_read_observations obs os1) by apply lookup_insert_eq.
  rewrite bind_assoc_M, (bind_read_observations obs os1) by apply lookup_insert_eq.
  rewrite bind_store, insert_insert_eq.
  set (os2 := zip_with observation.with_value os1 _).
  rewrite (bind_read_observations obs os2) by apply lookup_insert_eq.
  rewrite (bind_read_medications meds ms) by (by rewrite lookup_insert_ne).
  destruct (timeline_records os2 ms) as [recs|e'] eqn:Hrec.
  - by rewrite bind_lift_Ok.
  - by rewrite bind_lift_Raise.
Qed.

(** The resolver stage returns normally on every timeline, with a new frame
    holding the records of the two loops on the coerced rows. *)
Lemma create_patient_medication_outcomes_returns (h : heap) (tdf : loc)
    (rows : list timeline.t) :
  h !! tdf = Some (Timeline rows) →
  ∃ h' out outs,
    create_patient_medication_outcomes tdf h = (h', Ok out)
    ∧ h' !! out = Some (Outcomes outs)
    ∧ outcome_records (numeric rows) = Ok outs.
Proof.
  intros Htdf.
  destruct (create_patient_medication_outcomes_run h tdf)
    as (h' & out & Hrun & _ & _ & Hpost & _).
  destruct (outcome_records_spec (numeric rows)) as (outs & Houts & _).
  assert (Hr : resolve (h !! tdf) = Ok outs).
  { rewrite Htdf. simpl. case_decide as Hempty; [|done].
    subst rows. by injection Houts as <-. }
  rewrite Hr in Hrun. exists h', out, outs. split; [done|]. split; [by apply Hpost|done].
Qed.
End closed_forms.

Section normalizer_claim.
Context `{Parsers}.

Lemma period_of_normalized_row (m : medication.t) :
  (∃ c, converts_to (medication.start m) c) →
  (∃ c, converts_to (medication.stop m) c) →
  period_of m (normalized_row m).
Proof.
  intros [s Hs] [e He]. unfold period_of, normalized_row, converted, converts_to in *.
  simpl. rewrite Hs, He. do 5 (split; [done|]). split; [|split].
  - intros [= ->]. done.
  - intros Hne. apply converted_is_datetime in He. by destruct e.
  - intros ns Hns. rewrite Hns in He. simpl in He. by simplify_eq.
Qed.

(** C5. The Medication Period Normalizer yields one period per medication
    record, in order: the result has the rows of its input, each with the
    other columns unchanged, the start date converted, and as stop date the
    sentinel [pd.Timestamp.max] where the source stop date is missing and
    the (converted) source stop date otherwise. The stage returns normally
    on every table whose date cells [pd.to_datetime] accepts. *)
Theorem medication_periods_normalized (h : heap) (df : loc)
    (rows : list medication.t) :
  h !! df = Some (Medications rows) →
  Forall (λ m, (∃ c, converts_to (medication.start m) c)
               ∧ (∃ c, converts_to (medication.stop m) c)) rows →
  ∃ h' periods,
    create_medication_periods df h = (h', Ok df)
    ∧ h' !! df = Some (Medications periods)
    ∧ Forall2 period_of rows periods.
Proof.
  intros Hdf Hall.
  destruct (create_medication_periods_run h df) as (h' & Hrun & _ & Hpost).
  assert (Hn : normalize (h !! df) = Ok (normalized_row <$> rows)).
  { rewrite Hdf. by apply normalize_Ok. }
  rewrite Hn in Hrun. exists h', (normalized_row <$> rows).
  split; [done|]. split; [by apply Hpost|].
  apply Forall2_fmap_r, Forall_Forall2_diag.
  eapply Forall_impl; [exact Hall|]. intros m [? ?]. by apply period_of_normalized_row.
Qed.
End normalizer_claim.

(** The normalizer on the sample medications. *)
Lemma medication_periods_normalized_witness :
  ∃ h' periods,
    create_medication_periods 1%positive {[1%positive := Medications sample_medications]}
      = (h', Ok 1%positive)
    ∧ h' !! 1%positive = Some (Medications periods)
    ∧ Forall2 period_of sample_medications periods.
Proof.
  apply (medication_periods_normalized
           {[1%positive := Medications sample_medications]} 1%positive
           sample_medications).
  - reflexivity.
  - repeat constructor; eexists; reflexivity.
Defined.

(** ** The order of the loops of the timeline builder *)

Lemma bind_nil_const {A B} (l : list A) : l ≫= (λ _, @nil B) = [].
Proof. induction l as [|x l IH]; [done|]. by rewrite bind_cons, IH. Qed.

Lemma bind_ext_in {A B} (f g : A → list B) (l : list A) :
  (∀ x, x ∈ l → f x = g x) → l ≫= f = l ≫= g.
Proof.
  induction l as [|x l IH]; intros Hfg; [done|].
  rewrite !bind_cons, Hfg by left. f_equal. apply IH. intros; apply Hfg; by right.
Qed.

Lemma bind_perm_in {A B} (f g : A → list B) (l : list A) :
  (∀ x, x ∈ l → f x ≡ₚ g x) → l ≫= f ≡ₚ l ≫= g.
Proof.
  induction l as [|x l IH]; intros Hfg; [done|].
  rewrite !bind_cons. f_equiv; [apply Hfg; by left|].
  apply IH. intros; apply Hfg; by right.
Qed.

Lemma bind_app_perm {A B} (f g : A → list B) (l : list A) :
  l ≫= (λ x, f x ++ g x) ≡ₚ (l ≫= f) ++ (l ≫= g).
Proof.
  induction l as [|x l IH]; [done|].
  rewrite !bind_cons, IH.
  rewrite <- !(assoc_L (++)). f_equiv.
  rewrite !(assoc_L (++)). f_equiv. apply Permutation_app_comm.
Qed.

Lemma bind_swap {A B C} (f : A → B → list C) (l1 : list A) (l2 : list B) :
  l1 ≫= (λ x, l2 ≫= f x) ≡ₚ l2 ≫= (λ y, l1 ≫= (λ x, f x y)).
Proof.
  induction l1 as [|x l1 IH].
  - simpl. by rewrite bind_nil_const.
  - rewrite bind_cons, IH.
    rewrite <- bind_app_perm. apply bind_perm_in. intros y _. by rewrite bind_cons.
Qed.

Lemma bind_filter {A B} (P : A → Prop) `{∀ x, Decision (P x)} (f : A → list B)
    (l : list A) :
  filter P l ≫= f = l ≫= (λ x, if decide (P x) then f x else []).
Proof.
  induction l as [|x l IH]; [done|].
  rewrite filter_cons, bind_cons. destruct (decide (P x)); [rewrite bind_cons|]; by rewrite IH.
Qed.

Lemma bind_select {K B} `{EqDecision K} (k : K) (g : K → list B) (U : list K) :
  NoDup U →
  U ≫= (λ p, if decide (k = p) then g p else [])
  = if decide (k ∈ U) then g k else [].
Proof.
  induction 1 as [|p U Hp _ IH]; [done|].
  rewrite bind_cons, IH. destruct (decide (k = p)) as [->|Hne].
  - destruct (decide (p ∈ U)); [done|]. rewrite app_nil_r.
    destruct (decide (p ∈ p :: U)) as [|Hn]; [done|]. destruct Hn. by left.
  - destruct (decide (k ∈ U)), (decide (k ∈ p :: U)) as [Hin|Hn]; try done.
    + destruct Hn. by right.
    + by apply elem_of_cons in Hin as [?|?].
Qed.


Lemma loop_pairs_Permutation observations periods :
  loop_pairs observations periods ≡ₚ patient_pairs periods observations.
Proof.
  unfold loop_pairs, patient_pairs.
  set (U := unique (observation.patient <$> observations)).
  set (row := λ (p : string) (m : medication.t),
    filter (λ o, observation.patient o = p) observations ≫= λ o, [(m, o)]).
  etrans.
  { apply (bind_perm_in _ (λ p, periods ≫= λ m,
             if decide (medication.patient m = p) then row p m else [])).
    intros p _. by rewrite (bind_filter (λ m, medication.patient m = p)). }
  etrans; [apply (bind_swap (λ p m, if decide (medication.patient m = p)
                                     then row p m else []))|].
  apply reflexive_eq, bind_ext_in. intros m _.
  rewrite (bind_select (medication.patient m) (λ p, row p m)) by apply NoDup_unique.
  unfold row. rewrite (bind_filter (λ o, observation.patient o = medication.patient m)).
  case_decide as HU; [done|].
  symmetry. etrans; [|apply (bind_nil_const observations)].
  apply bind_ext_in. intros o Ho. rewrite decide_False; [done|].
  intros Heq. apply HU. unfold U. rewrite elem_of_unique, <- Heq.
  by apply list_elem_of_fmap_2.
Qed.

Lemma timedelta_days_Ok (a b : date_cell) :
  is_datetime a → is_datetime b → in_era a → in_era b →
  timedelta_days a b = Ok (day_difference a b).
Proof.
  destruct a as [?| |x|], b as [?| |y|]; simpl; try done.
  intros _ _ Ha Hb. rewrite bool_decide_eq_true_2; [done|]. lia.
Qed.

Lemma fmap_bind_list {A B C} (f : B → C) (g : A → list B) (l : list A) :
  f <$> (l ≫= g) = l ≫= (λ x, f <$> g x).
Proof.
  induction l as [|x l IH]; [done|]. by rewrite !bind_cons, fmap_app, IH.
Qed.

Lemma elem_of_patient_pairs periods observations m o :
  (m, o) ∈ patient_pairs periods observations ↔
  m ∈ periods ∧ o ∈ observations
  ∧ observation.patient o = medication.patient m.
Proof.
  unfold patient_pairs. rewrite list_elem_of_bind. split.
  - intros (m' & (o' & Hin & Ho')%list_elem_of_bind & Hm').
    case_decide; [|by apply elem_of_nil in Hin].
    apply list_elem_of_singleton in Hin as [= -> ->]. done.
  - intros (Hm & Ho & Hp). exists m. split; [|done].
    apply list_elem_of_bind. exists o. split; [|done].
    rewrite decide_True by done. by left.
Qed.

Lemma loop_pairs_empty observations periods :
  observations = [] ∨ periods = [] → loop_pairs observations periods = [].
Proof.
  intros [-> | ->]; [done|]. unfold loop_pairs.
  exact (bind_nil_const _).
Qed.

Lemma loop_pairs_fmap (f : observation.t → observation.t) observations periods :
  (∀ o, observation.patient (f o) = observation.patient o) →
  loop_pairs (f <$> observations) periods
  = (λ mo, (mo.1, f mo.2)) <$> loop_pairs observations periods.
Proof.
  intros Hf. unfold loop_pairs.
  rewrite <- list_fmap_compose.
  rewrite (list_fmap_ext (observation.patient ∘ f) observation.patient)
    by (intros; apply Hf).
  rewrite fmap_bind_list. apply bind_ext_in. intros p _.
  rewrite fmap_bind_list. apply bind_ext_in. intros m _.
  rewrite (filter_fmap_comm f _ (λ o, observation.patient o = p))
    by (intros o; by rewrite Hf).
  rewrite fmap_bind_list, list_fmap_bind. done.
Qed.

Section builder.
Context `{Parsers}.

Lemma timeline_records_Ok observations periods :
  Forall (λ o, is_datetime (observation.date o) ∧ in_era (observation.date o))
    observations →
  Forall (λ m, is_datetime (medication.start m) ∧ in_era (medication.start m))
    periods →
  timeline_records observations periods
  = Ok (record_of <$> loop_pairs observations periods).
Proof.
  intros Hobs Hmeds. unfold timeline_records, loop_pairs.
  rewrite fmap_bind_list. apply for_each_bind. intros p _.
  set (meds_p := filter _ periods). set (obs_p := filter _ observations).
  case_decide as Hlen.
  { apply nil_length_inv in Hlen. by rewrite Hlen. }
  rewrite fmap_bind_list. apply for_each_bind. intros m [_ Hm]%list_elem_of_filter.
  rewrite fmap_bind_list. apply for_each_bind. intros o [Hp Ho]%list_elem_of_filter.
  eapply Forall_forall in Hobs, Hmeds; [|done..].
  destruct Hobs, Hmeds.
  unfold timeline_record. rewrite timedelta_days_Ok by done.
  unfold record_of. simpl. by rewrite Hp.
Qed.
End builder.

Section builder_claim.
Context `{Parsers}.

Lemma timeline_of_record_of (m : medication.t) (o : observation.t) c :
  converts_to (observation.date o) c →
  timeline_of (m, o) (record_of (m, coerced_row o)).
Proof.
  intros Hc. unfold timeline_of, record_of, coerced_row, converted. simpl.
  unfold converts_to in *. rewrite Hc. by repeat split.
Qed.

(** C1. The Observation Timeline Builder emits exactly one timeline record
    for every pair of a medication period and an observation of the same
    patient (the records are, up to their order, in one-to-one
    correspondence with those pairs, duplicates counted), with
    [days_relative] the signed day difference between the observation date
    and the period's start date; and it emits no record for a patient
    without a medication period. The stage returns normally on tables
    whose observation dates [pd.to_datetime] accepts, whose period starts
    are converted already, and whose dates lie between 1824 and 2116. *)
Theorem timeline_is_cross_product (h : heap) (obs meds : loc)
    (observations : list observation.t) (periods : list medication.t) :
  h !! obs = Some (Observations observations) →
  h !! meds = Some (Medications periods) →
  Forall (λ o, ∃ c, converts_to (observation.date o) c ∧ in_era c)
    observations →
  Forall (λ m, is_datetime (medication.start m) ∧ in_era (medication.start m))
    periods →
  ∃ h' tl records pairs,
    create_observation_timeline obs meds h = (h', Ok tl)
    ∧ h' !! tl = Some (Timeline records)
    ∧ pairs ≡ₚ patient_pairs periods observations
    ∧ Forall2 timeline_of pairs records
    ∧ ∀ r, r ∈ records →
        timeline.patient r ∈ medication.patient <$> periods.
Proof.
  intros Hobs Hmeds Hwf_o Hwf_m.
  set (pairs := loop_pairs observations periods).
  set (records := (λ mo, record_of (mo.1, coerced_row mo.2)) <$> pairs).
  assert (Hperm : pairs ≡ₚ patient_pairs periods observations)
    by apply loop_pairs_Permutation.
  assert (Hbuild : build (h !! obs) (h !! meds) = Ok records).
  { rewrite Hobs, Hmeds. simpl. case_decide as Hempty.
    - unfold records, pairs. by rewrite loop_pairs_empty.
    - assert (Hc : coerce observations = Ok (coerced_row <$> observations)).
      { apply coerce_Ok. split; [|done].
        eapply Forall_impl; [exact Hwf_o|]. intros o (c & ? & _). by exists c. }
      rewrite Hc. cbn [mbind result_bind].
      rewrite timeline_records_Ok; [| |done].
      + unfold records, pairs. rewrite (loop_pairs_fmap coerced_row) by done.
        by rewrite <- list_fmap_compose.
      + rewrite Forall_fmap. eapply Forall_impl; [exact Hwf_o|].
        intros o (c & Hc' & Hera). simpl. unfold converted.
        unfold converts_to in Hc'. rewrite Hc'.
        split; [by eapply converted_is_datetime|done]. }
  destruct (create_observation_timeline_run h obs meds)
    as (h' & tl & Hrun & _ & _ & Hpost & _).
  rewrite Hbuild in Hrun. exists h', tl, records, pairs.
  split; [done|]. split; [by apply Hpost|]. split; [done|].
  assert (Hpairs : ∀ m o, (m, o) ∈ pairs →
    m ∈ periods ∧ o ∈ observations
    ∧ observation.patient o = medication.patient m).
  { intros m o Hin. rewrite Hperm in Hin. by apply elem_of_patient_pairs. }
  split.
  - apply Forall2_fmap_r, Forall_Forall2_diag, Forall_forall.
    intros [m o] (_ & Ho & _)%Hpairs.
    eapply Forall_forall in Hwf_o as (c & Hc & _); [|done].
    by eapply timeline_of_record_of.
  - intros r ([m o] & -> & (Hm & _ & Hp)%Hpairs)%list_elem_of_fmap.
    simpl. rewrite Hp. by apply list_elem_of_fmap_2.
Qed.
End builder_claim.

(** The builder on the sample tables. *)
Lemma timeline_is_cross_product_witness :
  ∃ h' tl records pairs,
    create_observation_timeline 2%positive 1%positive sample_heap = (h', Ok tl)
    ∧ h' !! tl = Some (Timeline records)
    ∧ pairs ≡ₚ patient_pairs sample_periods sample_observations
    ∧ Forall2 timeline_of pairs records
    ∧ ∀ r, r ∈ records →
        timeline.patient r ∈ medication.patient <$> sample_periods.
Proof.
  apply (timeline_is_cross_product sample_heap 2%positive 1%positive
           sample_observations sample_periods).
  - reflexivity.
  - reflexivity.
  - unfold sample_observations.
    repeat (apply List.Forall_cons;
              [eexists; split; [vm_compute; reflexivity|vm_compute; by split]|]).
    apply List.Forall_nil.
  - unfold sample_periods.
    repeat (apply List.Forall_cons; [simpl; split; [tauto|lia]|]).
    apply List.Forall_nil.
Defined.

Section main_runs.
Context `{Parsers} `{Argsort}.

Lemma converted_converts (c : date_cell) :
  (∃ c', converts_to c c') → converts_to (converted c) (converted c).
Proof. apply converted_idemp. Qed.

Lemma converted_converted (c : date_cell) :
  (∃ c', converts_to c c') → converted (converted c) = converted c.
Proof.
  intros Hc. apply converted_idemp in Hc. unfold converted at 1. by rewrite Hc.
Qed.

Lemma to_numeric_cell_idemp (v : value_cell) :
  to_numeric_cell (to_numeric_cell v) = to_numeric_cell v.
Proof. destruct v as [s|f]; simpl; [|done]. by destruct (parse_numeric s). Qed.

Lemma normalize_idemp (rows periods : list medication.t) :
  normalize (Some (Medications rows)) = Ok periods →
  normalize (Some (Medications periods)) = Ok periods.
Proof.
  intros [Hall ->]%normalize_Ok. apply normalize_Ok. split.
  - rewrite Forall_fmap. eapply Forall_impl; [exact Hall|].
    intros m [Hs He]. simpl. split; [eexists; by apply converted_converts|].
    pose proof (converted_converts _ He) as He'.
    destruct (converted (medication.stop m)); simpl; eauto; by eexists.
  - rewrite <- list_fmap_compose. apply Forall_fmap_ext_1.
    eapply Forall_impl; [exact Hall|]. intros m [Hs He].
    unfold normalized_row. simpl. rewrite converted_converted by done.
    f_equal. pose proof (converted_converted _ He) as He'.
    destruct (converted (medication.stop m)); simpl in *; by rewrite ?He'.
Qed.

Lemma coerce_idemp (os os' : list observation.t) :
  coerce os = Ok os' → coerce os' = Ok os'.
Proof.
  intros [Hall ->]%coerce_Ok. apply coerce_Ok. split.
  - rewrite Forall_fmap. eapply Forall_impl; [exact Hall|].
    intros o Hd. simpl. eexists. by apply converted_converts.
  - rewrite <- list_fmap_compose. apply Forall_fmap_ext_1.
    eapply Forall_impl; [exact Hall|]. intros o Hd.
    unfold coerced_row. simpl.
    by rewrite converted_converted, to_numeric_cell_idemp.
Qed.

Lemma build_coerced (os os' : list observation.t) (fm : option frame) :
  coerce os = Ok os' →
  build (Some (Observations os')) fm = build (Some (Observations os)) fm.
Proof.
  intros Hc. pose proof (coerce_idemp _ _ Hc) as Hc'.
  apply coerce_Ok in Hc as [_ ->].
  unfold build. destruct fm as [[ms| | |]|]; try done.
  destruct (decide (os = [])) as [->|Hne]; [done|].
  assert (coerced_row <$> os ≠ []) by by intros ?%fmap_nil_inv.
  do 2 case_decide; try done; try tauto.
  rewrite Hc'. symmetry.
  assert (coerce os = Ok (coerced_row <$> os)) as ->; [|done].
  apply coerce_Ok. split; [|done].
  apply coerce_Ok in Hc' as [Hall _]. rewrite Forall_fmap in Hall.
  eapply Forall_impl; [exact Hall|]. intros o [c Hc]. simpl in Hc.
  unfold converted, converts_to in *.
  destruct (to_datetime_cell (observation.date o)) eqn:Ho; [eauto|].
  rewrite Hc in Ho. done.
Qed.
End main_runs.

Section main_claims.
Context `{Parsers} `{Argsort}.

Lemma main_unfold (m o : loc) (h : heap) :
  main m o h =
    match create_medication_periods m h with
    | (h1, Ok periods) =>
        match create_observation_timeline o periods h1 with
        | (h2, Ok tl) =>
            match create_patient_medication_outcomes tl h2 with
            | (h3, Ok out) => (h3, Ok (tl, out))
            | (h3, Raise e) => (h3, Raise e)
            end
        | (h2, Raise e) => (h2, Raise e)
        end
    | (h1, Raise e) => (h1, Raise e)
    end.
Proof.
  unfold main, mbind, M_bind.
  destruct (create_medication_periods m h) as [h1 [mp|e]]; [|done].
  destruct (create_observation_timeline o mp h1) as [h2 [tl|e]]; [|done].
  by destruct (create_patient_medication_outcomes tl h2) as [h3 [out|e]].
Qed.

Lemma build_KeyError rows fm : build (Some (Medications rows)) fm = Raise KeyError.
Proof. done. Qed.

(** The run of [main]: its outputs are [pipeline] of the contents of the
    two input frames, and after a run that returns, the two input frames
    hold contents on which [pipeline] gives the same. *)
Lemma main_run (m o : loc) (h : heap) :
  outputs (main m o h) = pipeline (h !! m) (h !! o)
  ∧ (∀ x, outputs (main m o h) = Ok x →
       pipeline ((main m o h).1 !! m) ((main m o h).1 !! o) = Ok x).
Proof.
  rewrite main_unfold. unfold pipeline.
  destruct (create_medication_periods_run h m) as (h1 & -> & Hf1 & Hp1).
  destruct (normalize (h !! m)) as [periods|e] eqn:Hn; [|done].
  specialize (Hp1 periods eq_refl). cbn [mbind result_bind].
  assert (Hm : ∃ rows, h !! m = Some (Medications rows)).
  { destruct (h !! m) as [[rows| | |]|]; try done. eauto. }
  destruct Hm as [rows Hm].
  assert (Hb : build (h1 !! o) (h1 !! m)
               = build (h !! o) (Some (Medications periods))).
  { rewrite Hp1. destruct (decide (o = m)) as [->|Hne].
    - by rewrite Hp1, Hm.
    - by rewrite Hf1. }
  destruct (create_observation_timeline_run h1 o m)
    as (h2 & tl & -> & Htl & Hf2 & Hp2 & Ho2).
  rewrite Hb in *.
  destruct (build (h !! o) (Some (Medications periods))) as [records|e] eqn:Hbuild;
    [|done].
  specialize (Hp2 records eq_refl). cbn [mbind result_bind].
  assert (Hom : o ≠ m).
  { intros ->. by rewrite Hm in Hbuild. }
  assert (Ho : ∃ os, h !! o = Some (Observations os)).
  { destruct (h !! o) as [[|os| |]|]; try done. eauto. }
  destruct Ho as [os Ho].
  destruct (create_patient_medication_outcomes_run h2 tl)
    as (h3 & out & -> & Hout & Hf3 & Hp3 & Ht3).
  rewrite Hp2 in *.
  destruct (resolve (Some (Timeline records))) as [outs|e] eqn:Hres; [|done].
  specialize (Hp3 outs eq_refl). specialize (Ht3 records eq_refl).
  unfold outputs. cbn [fst snd mbind result_bind mret result_ret].
  rewrite Ht3, Hp3. split; [done|]. intros x [= <-].
  assert (Hmtl : m ≠ tl) by (intros ->; congruence).
  assert (Hotl : o ≠ tl) by (intros ->; rewrite Hf1 in Htl by done; congruence).
  assert (Hh2m : h2 !! m = Some (Medications periods)) by by rewrite Hf2.
  assert (Hmout : m ≠ out) by (intros ->; congruence).
  assert (Hh2o : ∃ os', h2 !! o = Some (Observations os')
            ∧ build (Some (Observations os')) (Some (Medications periods))
              = Ok records).
  { rewrite Hf1 in Ho2 by done. rewrite Ho in Ho2.
    destruct Ho2 as [Ho2|(os0 & os' & [= <-] & Hc & Ho2)].
    - exists os. split; [done|]. by rewrite <- Ho.
    - exists os'. split; [done|]. rewrite (build_coerced os os') by done.
      by rewrite <- Ho. }
  destruct Hh2o as (os' & Hh2o & Hbuild').
  assert (Hoout : o ≠ out) by (intros ->; congruence).
  rewrite !Hf3, Hh2m, Hh2o by done.
  rewrite (normalize_idemp rows periods) by by rewrite <- Hm.
  cbn [mbind result_bind]. rewrite Hbuild'. cbn [mbind result_bind].
  by rewrite Hres.
Qed.
End main_claims.

Section frame_claims.
Context `{Parsers} `{Argsort}.

(** C8. The pipeline is deterministic: two runs of the three stages on
    input collections with equal contents, wherever the collections live
    and whatever else the heap holds, give equal timeline and outcome
    collections (or raise the same exception); and running the stages again
    on the same collections, as the first run has left them, reproduces the
    output of the first run. *)
Theorem main_is_deterministic (h1 h2 : heap) (m1 o1 m2 o2 : loc) :
  h1 !! m1 = h2 !! m2 →
  h1 !! o1 = h2 !! o2 →
  outputs (main m1 o1 h1) = outputs (main m2 o2 h2)
  ∧ ∀ x, outputs (main m1 o1 h1) = Ok x →
      outputs (main m1 o1 (main m1 o1 h1).1) = Ok x.
Proof.
  intros Hm Ho.
  destruct (main_run m1 o1 h1) as [Hout1 Hagain].
  destruct (main_run m2 o2 h2) as [Hout2 _].
  split; [by rewrite Hout1, Hout2, Hm, Ho|].
  intros x Hx. destruct (main_run m1 o1 (main m1 o1 h1).1) as [-> _]. by apply Hagain.
Qed.

(** C7, as the stages are written. The Medication Period Normalizer
    converts the start and stop columns of the collection it is given in
    place (a missing stop becomes [pd.Timestamp.max]) and returns that same
    collection; the Observation Timeline Builder and the Outcome Resolver
    each return a newly created collection. The builder leaves the
    medication periods unchanged; it leaves the observations unchanged when
    one of its two inputs is empty, and otherwise converts their date and
    value columns in place. The resolver coerces the value column of the
    timeline in place, which changes nothing in a timeline whose values are
    numbers already. No stage changes any other collection. *)
Theorem stages_update_in_place (h : heap) :
  (∀ df h' r, create_medication_periods df h = (h', Ok r) →
     r = df
     ∧ (∃ rows, h !! df = Some (Medications rows)
          ∧ h' !! df = Some (Medications (normalized_row <$> rows)))
     ∧ ∀ l, l ≠ df → h' !! l = h !! l)
  ∧ (∀ obs meds h' tl, create_observation_timeline obs meds h = (h', Ok tl) →
       h !! tl = None
       ∧ (∃ records, h' !! tl = Some (Timeline records))
       ∧ (∀ l, l ≠ obs → l ≠ tl → h' !! l = h !! l)
       ∧ h' !! meds = h !! meds
       ∧ ∃ os ms, h !! obs = Some (Observations os)
           ∧ h !! meds = Some (Medications ms)
           ∧ (os = [] ∨ ms = [] → h' !! obs = Some (Observations os))
           ∧ (os ≠ [] → ms ≠ [] →
              h' !! obs = Some (Observations (coerced_row <$> os))))
  ∧ (∀ tdf h' out, create_patient_medication_outcomes tdf h = (h', Ok out) →
       h !! out = None
       ∧ (∃ outs, h' !! out = Some (Outcomes outs))
       ∧ (∀ l, l ≠ tdf → l ≠ out → h' !! l = h !! l)
       ∧ ∃ rows, h !! tdf = Some (Timeline rows)
           ∧ h' !! tdf = Some (Timeline (numeric_row <$> rows))
           ∧ (Forall (λ r, ∃ f, timeline.value r = VNum f) rows →
              h' !! tdf = h !! tdf)).
Proof.
  split; [|split].
  - intros df h' r Hrun.
    destruct (create_medication_periods_run h df) as (h0 & Hrun0 & Hframe & Hpost).
    rewrite Hrun in Hrun0.
    destruct (normalize (h !! df)) as [periods|] eqn:Hn; [|done].
    injection Hrun0 as -> ->. split; [done|]. split; [|done].
    assert (Hk : ∃ rows, h !! df = Some (Medications rows)).
    { destruct (h !! df) as [[rows| | |]|]; try done. eauto. }
    destruct Hk as [rows Hk]. exists rows. split; [done|].
    rewrite Hk in Hn. apply normalize_Ok in Hn as [_ ->]. by apply Hpost.
  - intros obs meds h' tl Hrun.
    destruct (create_observation_timeline_run h obs meds)
      as (h0 & tl0 & Hrun0 & Htl & Hframe & Hpost & _).
    rewrite Hrun in Hrun0.
    destruct (build (h !! obs) (h !! meds)) as [records|] eqn:Hb; [|done].
    injection Hrun0 as -> ->.
    assert (Hk : ∃ os ms, h !! obs = Some (Observations os)
                  ∧ h !! meds = Some (Medications ms)).
    { destruct (h !! obs) as [[|os| |]|]; try done.
      destruct (h !! meds) as [[ms| | |]|]; try done. eauto. }
    destruct Hk as (os & ms & Ho & Hm).
    split; [done|]. split; [eauto|]. split; [done|]. split.
    { apply Hframe; intros ->; congruence. }
    exists os, ms. split; [done|]. split; [done|].
    rewrite (create_observation_timeline_steps h obs meds os ms) in Hrun by done.
    assert (Hfresh : ∀ g : heap, is_Some (g !! obs) → obs ≠ fresh (dom g)).
    { intros g Hs Heq. rewrite Heq, fresh_lookup in Hs. by destruct Hs. }
    case_decide as Hempty.
    + injection Hrun as <- <-. split; [|tauto]. intros _.
      rewrite lookup_insert_ne; [done|]. symmetry. apply Hfresh. by rewrite Ho.
    + split; [tauto|]. intros _ _.
      destruct (coerce os) as [os'|] eqn:Hc; [|done].
      apply coerce_Ok in Hc as [_ ->]. cbn zeta in Hrun.
      destruct (timeline_records _ ms); [|done]. injection Hrun as <- <-.
      rewrite lookup_insert_ne; [apply lookup_insert_eq|].
      symmetry. apply Hfresh. rewrite lookup_insert_eq. by eexists.
  - intros tdf h' out Hrun.
    destruct (create_patient_medication_outcomes_run h tdf)
      as (h0 & out0 & Hrun0 & Hout & Hframe & Hpost & Htdf).
    rewrite Hrun in Hrun0.
    destruct (resolve (h !! tdf)) as [outs|] eqn:Hr; [|done].
    injection Hrun0 as -> ->.
    assert (Hk : ∃ rows, h !! tdf = Some (Timeline rows)).
    { destruct (h !! tdf) as [[| |rows|]|]; try done. eauto. }
    destruct Hk as [rows Hk].
    split; [done|]. split; [eauto|]. split; [done|].
    exists rows. split; [done|]. rewrite <- numeric_fmap.
    split; [by apply Htdf|].
    intros Hnum. rewrite (Htdf rows Hk), Hk. do 2 f_equal.
    rewrite numeric_fmap. apply list_eq. intros i. rewrite list_lookup_fmap.
    destruct (rows !! i) as [r|] eqn:Hi; [|done]. simpl. f_equal.
    eapply Forall_lookup_1 in Hnum as [f Hf]; [|done].
    destruct r. simpl in *. by subst.
Qed.
End frame_claims.

(** The same tables at other places of a larger heap, and a second run. *)
Lemma main_is_deterministic_witness :
  outputs (main 1%positive 2%positive sample_tables)
  = outputs (main 5%positive 7%positive sample_tables_elsewhere)
  ∧ ∀ x, outputs (main 1%positive 2%positive sample_tables) = Ok x →
      outputs (main 1%positive 2%positive
                 (main 1%positive 2%positive sample_tables).1) = Ok x.
Proof.
  apply (main_is_deterministic sample_tables sample_tables_elsewhere
           1%positive 2%positive 5%positive 7%positive); reflexivity.
Defined.

(** C7, as claimed, fails: the normalizer hands back the very collection it
    was given, with its date columns overwritten, and the timeline builder
    overwrites the date and value columns of the observations it was
    given. *)
Lemma stages_mutate_their_inputs :
  (∃ h', create_medication_periods 1%positive sample_tables = (h', Ok 1%positive)
         ∧ h' !! 1%positive ≠ sample_tables !! 1%positive)
  ∧ (∃ h' tl, create_observation_timeline 2%positive 1%positive sample_heap
                = (h', Ok tl)
              ∧ h' !! 2%positive ≠ sample_heap !! 2%positive).
Proof.
  split.
  - eexists. split; [vm_compute; reflexivity|]. vm_compute. discriminate.
  - eexists _, _. split; [vm_compute; reflexivity|]. vm_compute. discriminate.
Qed.

(** The three stages in a row on the sample tables. *)
Lemma stages_update_in_place_witness :
  ∃ h1 h2 tl h3 out,
    create_medication_periods 1%positive sample_tables = (h1, Ok 1%positive)
    ∧ h1 !! 1%positive = Some (Medications (normalized_row <$> sample_medications))
    ∧ (∀ l, l ≠ 1%positive → h1 !! l = sample_tables !! l)
    ∧ create_observation_timeline 2%positive 1%positive h1 = (h2, Ok tl)
    ∧ h1 !! tl = None
    ∧ h2 !! 1%positive = h1 !! 1%positive
    ∧ h2 !! 2%positive = Some (Observations (coerced_row <$> sample_observations))
    ∧ create_patient_medication_outcomes tl h2 = (h3, Ok out)
    ∧ h2 !! out = None
    ∧ ∀ l, l ≠ tl → l ≠ out → h3 !! l = h2 !! l.
Proof.
  eexists _, _, _, _, _.
  split; [vm_compute; reflexivity|].
  match goal with
  | |- ?h1 !! _ = _ ∧ _ =>
      destruct (stages_update_in_place sample_tables) as (Hn & _ & _);
      destruct (Hn 1%positive h1 1%positive)
        as (_ & (rows & Hrows & Hperiods) & Hframe1);
        [vm_compute; reflexivity|]
  end.
  injection Hrows as <-.
  split; [exact Hperiods|]. split; [exact Hframe1|].
  split; [vm_compute; reflexivity|].
  match goal with
  | |- ?h1 !! ?tl = None ∧ ?h2 !! _ = _ ∧ _ =>
      destruct (stages_update_in_place h1) as (_ & Hb & _);
      destruct (Hb 2%positive 1%positive h2 tl)
        as (Hnew & _ & _ & Hmeds & os & ms & Hos & Hms & _ & Hconv);
        [vm_compute; reflexivity|]
  end.
  split; [exact Hnew|]. split; [exact Hmeds|].
  split.
  { vm_compute in Hos. injection Hos as <-.
    vm_compute in Hms. injection Hms as <-.
    apply Hconv; discriminate. }
  split; [vm_compute; reflexivity|].
  match goal with
  | |- ?h2 !! ?out = None ∧ (∀ l, l ≠ ?tl → _ → ?h3 !! l = _) =>
      destruct (stages_update_in_place h2) as (_ & _ & Hr);
      destruct (Hr tl h3 out) as (Hnew' & _ & Hframe & _);
        [vm_compute; reflexivity|]
  end.
  split; [exact Hnew'|exact Hframe].
Defined.

(** * More of the stages: failures, repetition, order *)

Lemma for_each_Raise {A B} (xs : list A) (body : A → result (list B)) e :
  for_each xs body = Raise e → ∃ x, x ∈ xs ∧ body x = Raise e.
Proof.
  induction xs as [|x xs IH]; [done|]. simpl.
  destruct (body x) as [l|e'] eqn:Hx.
  - cbn [mbind result_bind]. destruct (for_each xs body) as [l'|e'] eqn:Hxs; [done|].
    cbn [mbind result_bind]. intros [= ->]. destruct IH as (y & Hy & Hby); [done|].
    exists y. split; [by right|done].
  - cbn [mbind result_bind]. intros [= ->]. exists x. split; [by left|done].
Qed.

Lemma for_each_Ok_inv {A B} (xs : list A) (body : A → result (list B)) outs :
  for_each xs body = Ok outs →
  ∃ ls, Forall2 (λ x l, body x = Ok l) xs ls ∧ outs = mjoin ls.
Proof.
  revert outs. induction xs as [|x xs IH]; intros outs; simpl.
  - intros [= <-]. exists []. by split.
  - destruct (body x) as [l|] eqn:Hx; [|done]. cbn [mbind result_bind].
    destruct (for_each xs body) as [rest|] eqn:Hxs; [|done].
    cbn [mbind result_bind]. intros [= <-].
    destruct (IH rest eq_refl) as (ls & Hls & ->).
    exists (l :: ls). split; [by constructor|done].
Qed.

Lemma for_each_Ok_elem_of {A B} (xs : list A) (body : A → result (list B)) outs b :
  for_each xs body = Ok outs → b ∈ outs →
  ∃ x l, x ∈ xs ∧ body x = Ok l ∧ b ∈ l.
Proof.
  intros (ls & Hls & ->)%for_each_Ok_inv (l & Hb & Hl)%list_elem_of_join.
  apply list_elem_of_lookup in Hl as [i Hi].
  destruct (Forall2_lookup_r _ _ _ _ _ Hls Hi) as (x & Hx & Hbody).
  exists x, l. split; [by eapply list_elem_of_lookup_2|done].
Qed.

(** The records of a loop over sorted items come out sorted, when the
    records of each item are and those of a later item come later. *)
Lemma for_each_StronglySorted {A B} (S : relation A) (R : relation B)
    (xs : list A) (body : A → result (list B)) outs :
  for_each xs body = Ok outs →
  StronglySorted S xs →
  (∀ x l, x ∈ xs → body x = Ok l → StronglySorted R l) →
  (∀ x y lx ly a b, S x y → body x = Ok lx → body y = Ok ly →
     a ∈ lx → b ∈ ly → R a b) →
  StronglySorted R outs.
Proof.
  intros Hf Hs Hin Hout. revert outs Hf.
  induction Hs as [|x xs Hs IH Hx]; intros outs; simpl.
  - intros [= <-]. constructor.
  - destruct (body x) as [l|] eqn:Hbx; [|done]. cbn [mbind result_bind].
    destruct (for_each xs body) as [rest|] eqn:Hxs; [|done].
    cbn [mbind result_bind]. intros [= <-].
    apply StronglySorted_app_2.
    + intros a b Ha Hb.
      destruct (for_each_Ok_elem_of _ _ _ _ Hxs Hb) as (y & ly & Hy & Hby & Hbl).
      eapply Forall_forall in Hx; [|exact Hy]. eauto.
    + apply (Hin x); [by left|done].
    + apply IH; [|done]. intros y ly Hy. apply Hin. by right.
Qed.

Lemma Exists_not_Forall_fmap {A B} (f : A → B) (P : B → Prop) (l : list A) :
  Exists (λ c, ¬ P c) (f <$> l) → ¬ Forall (λ m, P (f m)) l.
Proof.
  intros Hex Hall. apply Exists_exists in Hex as (c & Hc & Hn).
  apply list_elem_of_fmap in Hc as (m & -> & Hm).
  eapply Forall_forall in Hall; [|done]. done.
Qed.

Lemma bind_new_frame {B} (fr : frame) (f : loc → M B) (h : heap) :
  (new_frame fr ≫= f) h = f (fresh (dom h)) (<[fresh (dom h) := fr]> h).
Proof. reflexivity. Qed.

Lemma bind_mret_M {A B} (a : A) (f : A → M B) (h : heap) : (mret a ≫= f) h = f a h.
Proof. reflexivity. Qed.

Lemma bind_read_outcomes {B} df rows (f : list outcome.t → M B) (h : heap) :
  h !! df = Some (Outcomes rows) → (read_outcomes df ≫= f) h = f rows h.
Proof. intros Hdf. unfold mbind, M_bind, read_outcomes. by rewrite Hdf. Qed.

(** ** What [pd.to_datetime] and the subtraction of dates raise *)

Section conversions.
Context `{Parsers}.

Lemma to_datetime_cell_Raise (c : date_cell) e :
  to_datetime_cell c = Raise e → e = ValueError ∧ ¬ ∃ c', converts_to c c'.
Proof.
  unfold converts_to. destruct c as [s| | |]; simpl; [|done..].
  destruct (parse_datetime s) as [[?|]|]; [done..|].
  intros [= <-]. split; [done|]. by intros [? ?].
Qed.

Lemma to_datetime_Raise (col : list date_cell) e :
  to_datetime col = Raise e →
  e = ValueError ∧ Exists (λ c, ¬ ∃ c', converts_to c c') col.
Proof.
  unfold to_datetime. induction col as [|c col IH]; [done|].
  change (mapM to_datetime_cell (c :: col))
    with (y ← to_datetime_cell c; k ← mapM to_datetime_cell col; mret (y :: k)).
  destruct (to_datetime_cell c) as [y|e'] eqn:Hc.
  - cbn [mbind result_bind].
    destruct (mapM to_datetime_cell col) as [k|e'] eqn:Hcol; [done|].
    cbn [mbind result_bind]. intros [= ->]. destruct IH as [-> Hex]; [done|].
    split; [done|]. by right.
  - cbn [mbind result_bind]. intros [= ->].
    apply to_datetime_cell_Raise in Hc as [-> Hc]. split; [done|]. by left.
Qed.

(** [pd.to_datetime] converts a column whose cells all convert, and raises
    [ValueError] on any other. *)
Lemma to_datetime_result (col : list date_cell) :
  (Forall (λ c, ∃ c', converts_to c c') col ∧ to_datetime col = Ok (converted <$> col))
  ∨ (Exists (λ c, ¬ ∃ c', converts_to c c') col ∧ to_datetime col = Raise ValueError).
Proof.
  destruct (to_datetime col) as [col'|e] eqn:Hc.
  - left. apply to_datetime_Ok in Hc as [? ->]. done.
  - right. apply to_datetime_Raise in Hc as [-> ?]. done.
Qed.
End conversions.

Lemma timedelta_days_Raise (a b : date_cell) e :
  timedelta_days a b = Raise e →
  (e = TypeError ∧ (¬ is_datetime a ∨ ¬ is_datetime b))
  ∨ (e = AttributeError ∧ a = DNaN ∧ b = DNaN)
  ∨ (e = ValueError
     ∧ ∃ x y, a = DTime x ∧ b = DTime y ∧ ¬ (- 2 ^ 63 < x - y < 2 ^ 63)%Z).
Proof.
  destruct a as [s| |x|], b as [t| |y|]; simpl; try done;
    try (intros [= <-]; left; split; [done|]; simpl; tauto);
    try (intros [= <-]; right; left; done).
  case_bool_decide as Hd; [done|]. intros [= <-]. right; right.
  split; [done|]. by exists x, y.
Qed.

Lemma timedelta_days_Ok_inv (a b : date_cell) d :
  timedelta_days a b = Ok d → d = day_difference a b.
Proof.
  destruct a as [s| |x|], b as [t| |y|]; simpl; try done; try (by intros [= <-]).
  case_bool_decide; [|done]. by intros [= <-].
Qed.

Lemma day_difference_Some (a b : date_cell) d :
  day_difference a b = Some d →
  ∃ x y, a = DTime x ∧ b = DTime y ∧ d = ((x - y) `div` ns_per_day)%Z.
Proof.
  destruct a as [| |x|], b as [| |y|]; simpl; try done. intros [= <-]. eauto.
Qed.

(** The day count is at most 0 up to (and excluding) 24 hours after the
    start. *)
Lemma floor_days_nonpos (x y : Z) :
  ((x - y) `div` ns_per_day ≤ 0 ↔ x < y + ns_per_day)%Z.
Proof.
  assert (0 < ns_per_day)%Z by done.
  pose proof (Z.div_mod (x - y) ns_per_day) as Hdm.
  pose proof (Z.mod_pos_bound (x - y) ns_per_day) as Hb.
  split; intros; nia.
Qed.

(** ** The normalizer *)

Section normalizer_runs.
Context `{Parsers}.

(** X1. The Medication Period Normalizer returns exactly when every start
    and stop cell is one that [pd.to_datetime] accepts. When a start cell is
    not, it raises [ValueError] and the table is as it was; when the start
    cells are and a stop cell is not, it raises [ValueError] after the start
    column has been converted in place, and the table is left that way. *)
Theorem normalizer_fails_on_unparsed_dates (h : heap) (df : loc)
    (rows : list medication.t) :
  h !! df = Some (Medications rows) →
  let starts_ok := Forall (λ m, ∃ c, converts_to (medication.start m) c) rows in
  let stops_ok := Forall (λ m, ∃ c, converts_to (medication.stop m) c) rows in
  (starts_ok ∧ stops_ok ∧ ∃ h', create_medication_periods df h = (h', Ok df))
  ∨ (¬ starts_ok ∧ create_medication_periods df h = (h, Raise ValueError))
  ∨ (starts_ok ∧ ¬ stops_ok
     ∧ create_medication_periods df h
       = (<[df := Medications (started <$> rows)]> h, Raise ValueError)).
Proof.
  intros Hdf starts_ok stops_ok.
  unfold create_medication_periods, assign_medications.
  rewrite (bind_read_medications df rows) by done.
  destruct (to_datetime_result (medication.start <$> rows)) as [[Hs ->]|[Hs ->]].
  2: { right; left. rewrite bind_lift_Raise. split; [|done].
       exact (Exists_not_Forall_fmap medication.start
                (λ c, ∃ c', converts_to c c') rows Hs). }
  rewrite Forall_fmap in Hs.
  rewrite bind_lift_Ok, bind_assoc_M, (bind_read_medications df rows) by done.
  rewrite bind_store.
  set (rows1 := zip_with medication.with_start rows _).
  assert (Hrows1 : rows1 = started <$> rows).
  { unfold rows1. rewrite <- list_fmap_compose. apply zip_with_fmap_same. }
  set (h1 := <[df := Medications rows1]> h).
  rewrite (bind_read_medications df rows1) by apply lookup_insert_eq.
  assert (Hstop : medication.stop <$> rows1 = medication.stop <$> rows).
  { rewrite Hrows1, <- list_fmap_compose. done. }
  rewrite Hstop.
  destruct (to_datetime_result (medication.stop <$> rows)) as [[He ->]|[He ->]].
  2: { right; right. rewrite bind_lift_Raise. split; [done|]. split; [|by rewrite <- Hrows1].
       exact (Exists_not_Forall_fmap medication.stop
                (λ c, ∃ c', converts_to c c') rows He). }
  rewrite Forall_fmap in He.
  left. split; [done|]. split; [done|].
  rewrite bind_lift_Ok, bind_assoc_M, (bind_read_medications df rows1) by apply lookup_insert_eq.
  rewrite bind_store.
  erewrite bind_read_medications by apply lookup_insert_eq.
  rewrite bind_assoc_M.
  erewrite bind_read_medications by apply lookup_insert_eq.
  rewrite bind_store. eexists. reflexivity.
Qed.

(** X2. The Medication Period Normalizer is idempotent: run again on the
    table it has returned, it returns that table and changes nothing. *)
Theorem normalizer_is_idempotent (h h1 : heap) (df r : loc) :
  create_medication_periods df h = (h1, Ok r) →
  create_medication_periods df h1 = (h1, Ok df).
Proof.
  intros Hrun.
  destruct (create_medication_periods_run h df) as (h' & Hrun' & Hframe & Hpost).
  rewrite Hrun in Hrun'.
  destruct (normalize (h !! df)) as [periods|] eqn:Hn; [|done].
  injection Hrun' as <- ->. specialize (Hpost periods eq_refl).
  assert (Hrows : ∃ rows, h !! df = Some (Medications rows)).
  { destruct (h !! df) as [[rows| | |]|]; try done. eauto. }
  destruct Hrows as [rows Hrows]. rewrite Hrows in Hn.
  apply normalize_idemp in Hn.
  destruct (create_medication_periods_run h1 df) as (h2 & Hrun2 & Hframe2 & Hpost2).
  rewrite Hpost, Hn in Hrun2. rewrite Hrun2. f_equal.
  apply map_eq. intros l. destruct (decide (l = df)) as [->|Hne].
  - rewrite Hpost. apply Hpost2. by rewrite Hpost.
  - by apply Hframe2.
Qed.
End normalizer_runs.

(** The normalizer on a table with a stop date that is not a date. *)
Lemma normalizer_fails_on_unparsed_dates_witness :
  let h : heap := {[1%positive := Medications unparsed_stops]} in
  let starts_ok :=
    Forall (λ m, ∃ c, converts_to (medication.start m) c) unparsed_stops in
  let stops_ok :=
    Forall (λ m, ∃ c, converts_to (medication.stop m) c) unparsed_stops in
  (starts_ok ∧ stops_ok
   ∧ ∃ h', create_medication_periods 1%positive h = (h', Ok 1%positive))
  ∨ (¬ starts_ok ∧ create_medication_periods 1%positive h = (h, Raise ValueError))
  ∨ (starts_ok ∧ ¬ stops_ok
     ∧ create_medication_periods 1%positive h
       = (<[1%positive := Medications (started <$> unparsed_stops)]> h,
          Raise ValueError)).
Proof.
  apply (normalizer_fails_on_unparsed_dates
           {[1%positive := Medications unparsed_stops]} 1%positive unparsed_stops).
  reflexivity.
Defined.

(** The normalizer twice on the sample medications. *)
Lemma normalizer_is_idempotent_witness :
  create_medication_periods 1%positive
    (create_medication_periods 1%positive sample_tables).1
  = ((create_medication_periods 1%positive sample_tables).1, Ok 1%positive).
Proof.
  apply (normalizer_is_idempotent sample_tables _ 1%positive 1%positive).
  vm_compute. reflexivity.
Defined.

(** ** The builder *)

Section builder_runs.
Context `{Parsers}.

Lemma timeline_records_Raise observations periods e :
  timeline_records observations periods = Raise e →
  ∃ m o, (m, o) ∈ patient_pairs periods observations
    ∧ timedelta_days (observation.date o) (medication.start m) = Raise e.
Proof.
  unfold timeline_records. intros (p & Hp & Hbody)%for_each_Raise.
  case_decide as Hlen; [done|].
  apply for_each_Raise in Hbody as (m & [Hmp Hm]%list_elem_of_filter & Hbody).
  apply for_each_Raise in Hbody as (o & [Hop Ho]%list_elem_of_filter & Hbody).
  exists m, o. split.
  - apply elem_of_patient_pairs. split; [done|]. split; [done|]. congruence.
  - unfold timeline_record in Hbody.
    destruct (timedelta_days _ _); [done|]. simpl in Hbody. congruence.
Qed.

Lemma timeline_record_Ok_inv (m : medication.t) (o : observation.t) r :
  timeline_record (observation.patient o) m o = Ok r → r = record_of (m, o).
Proof.
  unfold timeline_record, record_of.
  destruct (timedelta_days _ _) as [d|] eqn:Hd; [|done].
  apply timedelta_days_Ok_inv in Hd as ->. by intros [= <-].
Qed.

Lemma timeline_records_Ok_inv observations periods records r :
  timeline_records observations periods = Ok records → r ∈ records →
  ∃ m o, m ∈ periods ∧ o ∈ observations
    ∧ observation.patient o = medication.patient m
    ∧ r = record_of (m, o).
Proof.
  unfold timeline_records. intros Hf Hr.
  destruct (for_each_Ok_elem_of _ _ _ _ Hf Hr) as (p & l & Hp & Hbody & Hrl).
  case_decide as Hlen; [injection Hbody as <-; by apply elem_of_nil in Hrl|].
  destruct (for_each_Ok_elem_of _ _ _ _ Hbody Hrl)
    as (m & l' & [Hmp Hm]%list_elem_of_filter & Hbody' & Hrl').
  destruct (for_each_Ok_elem_of _ _ _ _ Hbody' Hrl')
    as (o & l'' & [Hop Ho]%list_elem_of_filter & Hrec & Hrl'').
  exists m, o. split; [done|]. split; [done|]. split; [congruence|].
  rewrite <- Hop in Hrec.
  destruct (timeline_record _ m o) as [r'|] eqn:Hr'; [|done].
  cbn [mbind result_bind mret result_ret] in Hrec. injection Hrec as <-.
  apply list_elem_of_singleton in Hrl'' as ->.
  by apply timeline_record_Ok_inv.
Qed.

(** X3. When the Observation Timeline Builder raises, neither table is
    empty, and either an observation date is not one that [pd.to_datetime]
    accepts (the exception is [ValueError] and nothing has changed), or the
    date and value columns of the observations have been converted in place
    already and, for some medication and observation of one patient, the
    medication start is not a timestamp or NaT but text or a float NaN, as
    it was read (the exception is [TypeError]: the table has not been
    through the normalizer), or the two dates are too far apart for a
    [Timedelta] (the exception is [ValueError]). *)
Theorem builder_failure_leaves_observations_converted (h h' : heap)
    (obs meds : loc) (os : list observation.t) (ms : list medication.t) (e : exn) :
  h !! obs = Some (Observations os) →
  h !! meds = Some (Medications ms) →
  create_observation_timeline obs meds h = (h', Raise e) →
  os ≠ [] ∧ ms ≠ []
  ∧ ((e = ValueError ∧ h' = h
      ∧ Exists (λ o, ¬ ∃ c, converts_to (observation.date o) c) os)
     ∨ (h' = <[obs := Observations (coerced_row <$> os)]> h
        ∧ ∃ m o, (m, o) ∈ patient_pairs ms os
            ∧ ((e = TypeError ∧ ¬ is_datetime (medication.start m))
               ∨ (e = ValueError
                  ∧ ∃ a s, converted (observation.date o) = DTime a
                      ∧ medication.start m = DTime s
                      ∧ ¬ (- 2 ^ 63 < a - s < 2 ^ 63)%Z)))).
Proof.
  intros Hobs Hmeds. rewrite (create_observation_timeline_steps h obs meds os ms) by done.
  case_decide as Hempty; [done|].
  assert (Hos : os ≠ []) by tauto. assert (Hms : ms ≠ []) by tauto.
  intros Hrun. split; [done|]. split; [done|]. revert Hrun.
  destruct (coerce os) as [os'|e'] eqn:Hc.
  2: { intros [= <- <-]. left. unfold coerce in Hc.
       destruct (to_datetime_result (observation.date <$> os)) as [[_ Hd]|[Hd Hd']].
       { by rewrite Hd in Hc. }
       rewrite Hd' in Hc. injection Hc as <-. split; [done|]. split; [done|].
       apply Exists_exists in Hd as (c & (o & -> & Ho)%list_elem_of_fmap & Hc).
       apply Exists_exists. eauto. }
  apply coerce_Ok in Hc as [Hd ->]. cbn zeta.
  destruct (timeline_records _ ms) as [recs|e'] eqn:Hrec; [done|].
  intros [= <- <-]. right. split; [done|].
  apply timeline_records_Raise in Hrec as (m & o2 & Hin & Hraise).
  apply elem_of_patient_pairs in Hin as (Hm & Ho2 & Hp).
  apply list_elem_of_fmap in Ho2 as (o & -> & Ho).
  exists m, o. split.
  { apply elem_of_patient_pairs. done. }
  simpl in Hraise.
  eapply Forall_forall in Hd as [c Hdc]; [|done]. simpl in Hdc.
  assert (Hdt : is_datetime (converted (observation.date o))).
  { unfold converted. unfold converts_to in Hdc. rewrite Hdc.
    by apply (converted_is_datetime (observation.date o)). }
  apply timedelta_days_Raise in Hraise
    as [[-> [Ht|Ht]]|[(_ & Ha & _)|(-> & a & s & Ha & Hs & Hov)]].
  - exfalso. apply Ht. exact Hdt.
  - left. done.
  - simpl in Ha. rewrite Ha in Hdt. done.
  - right. split; [done|]. by exists a, s.
Qed.
End builder_runs.

(** The builder on the sample tables as they are read: the starts are
    text. *)
Lemma builder_failure_leaves_observations_converted_witness :
  sample_observations ≠ [] ∧ sample_medications ≠ []
  ∧ ((TypeError = ValueError
      ∧ (create_observation_timeline 2%positive 1%positive raw_tables).1 = raw_tables
      ∧ Exists (λ o, ¬ ∃ c, converts_to (observation.date o) c) sample_observations)
     ∨ ((create_observation_timeline 2%positive 1%positive raw_tables).1
        = <[2%positive := Observations (coerced_row <$> sample_observations)]> raw_tables
        ∧ ∃ m o, (m, o) ∈ patient_pairs sample_medications sample_observations
            ∧ ((TypeError = TypeError ∧ ¬ is_datetime (medication.start m))
               ∨ (TypeError = ValueError
                  ∧ ∃ a s, converted (observation.date o) = DTime a
                      ∧ medication.start m = DTime s
                      ∧ ¬ (- 2 ^ 63 < a - s < 2 ^ 63)%Z)))).
Proof.
  apply (builder_failure_leaves_observations_converted raw_tables _
           2%positive 1%positive sample_observations sample_medications TypeError).
  - reflexivity.
  - reflexivity.
  - vm_compute. reflexivity.
Defined.

(** ** The order of the resolver's records *)

Lemma ascii_compare_refl (a : ascii) : Ascii.compare a a = Eq.
Proof. unfold Ascii.compare. apply N.compare_refl. Qed.

Lemma ascii_compare_trans (a b c : ascii) :
  Ascii.compare a b = Lt → Ascii.compare b c = Lt → Ascii.compare a c = Lt.
Proof.
  unfold Ascii.compare. rewrite !N.compare_lt_iff. apply N.lt_trans.
Qed.

Lemma string_compare_refl (s : string) : String.compare s s = Eq.
Proof. induction s as [|a s IH]; [done|]. simpl. by rewrite ascii_compare_refl. Qed.

Lemma string_compare_trans (s1 s2 s3 : string) :
  String.compare s1 s2 ≠ Gt → String.compare s2 s3 ≠ Gt → String.compare s1 s3 ≠ Gt.
Proof.
  revert s2 s3. induction s1 as [|a s1 IH]; intros [|b s2] [|c s3]; simpl; try done.
  destruct (Ascii.compare a b) eqn:Hab; [|  |done].
  - apply Ascii.compare_eq_iff in Hab as ->.
    destruct (Ascii.compare b c) eqn:Hbc; [apply IH|done|done].
  - intros _. destruct (Ascii.compare b c) eqn:Hbc; [| |done].
    + apply Ascii.compare_eq_iff in Hbc as ->. by rewrite Hab.
    + by rewrite (ascii_compare_trans a b c).
Qed.

#[global] Instance str_le_refl : Reflexive str_le.
Proof. intros s. unfold str_le, String.leb. by rewrite string_compare_refl. Qed.
#[global] Instance str_le_trans : Transitive str_le.
Proof.
  intros s1 s2 s3. unfold str_le, String.leb.
  pose proof (string_compare_trans s1 s2 s3).
  destruct (String.compare s1 s2), (String.compare s2 s3), (String.compare s1 s3);
    naive_solver.
Qed.
#[global] Instance str_le_total : Total str_le.
Proof. intros s1 s2. apply String.leb_total. Qed.
#[global] Instance str_le_antisym : AntiSymm (=) str_le.
Proof. intros s1 s2 H1 H2. apply String.leb_antisym; done. Qed.

#[global] Instance code_le_trans : Transitive code_le.
Proof.
  intros [x|s] [y|t] [z|u]; simpl; try done; [lia|apply (transitivity (R := str_le))].
Qed.
#[global] Instance code_le_total : Total code_le.
Proof.
  intros [x|s] [y|t]; simpl; [lia|by left|by right|apply (total str_le)].
Qed.
#[global] Instance code_le_antisym : AntiSymm (=) code_le.
Proof.
  intros [x|s] [y|t]; simpl; try done.
  - intros ??. f_equal. lia.
  - intros ??. f_equal. by apply (anti_symm str_le).
Qed.

Section lexicographic.
Context {K : Type} `{EqDecision K} (S : relation K).

Lemma lex_trans `{!Transitive S} `{!AntiSymm (=) S} (a1 b1 c1 : K) (P Q R : Prop) :
  (P → Q → R) →
  (if decide (a1 = b1) then P else S a1 b1) →
  (if decide (b1 = c1) then Q else S b1 c1) →
  (if decide (a1 = c1) then R else S a1 c1).
Proof.
  intros HPQ Hab Hbc.
  destruct (decide (a1 = b1)) as [->|Hab1].
  - destruct (decide (b1 = c1)) as [->|Hbc1]; [by apply HPQ|done].
  - destruct (decide (b1 = c1)) as [->|Hbc1].
    + by rewrite decide_False.
    + rewrite decide_False; [by etrans|].
      intros ->. apply Hab1. by apply (anti_symm S).
Qed.

Lemma lex_total `{!Total S} (a b : K) (P Q : Prop) :
  P ∨ Q →
  (if decide (a = b) then P else S a b)
  ∨ (if decide (b = a) then Q else S b a).
Proof.
  intros HPQ. destruct (decide (a = b)) as [->|Hne].
  - by rewrite (decide_True (P := b = b)).
  - rewrite (decide_False (P := b = a)) by done. apply (total S).
Qed.

Lemma lex_antisym `{!AntiSymm (=) S} (a b : K) (P Q R : Prop) :
  (P → Q → R) →
  (if decide (a = b) then P else S a b) →
  (if decide (b = a) then Q else S b a) →
  a = b ∧ R.
Proof.
  intros HPQ. destruct (decide (a = b)) as [->|Hne].
  - rewrite (decide_True (P := b = b)) by done. auto.
  - rewrite (decide_False (P := b = a)) by done. intros ??.
    destruct Hne. by apply (anti_symm S).
Qed.
End lexicographic.

#[global] Instance tuple3_le_trans : Transitive tuple3_le.
Proof.
  intros [[a1 a2] a3] [[b1 b2] b3] [[c1 c2] c3]. unfold tuple3_le.
  apply (lex_trans str_le). apply (lex_trans code_le). by etrans.
Qed.

#[global] Instance tuple3_le_total : Total tuple3_le.
Proof.
  intros [[a1 a2] a3] [[b1 b2] b3]. unfold tuple3_le.
  apply (lex_total str_le), (lex_total code_le), (total str_le).
Qed.

#[global] Instance tuple3_le_antisym : AntiSymm (=) tuple3_le.
Proof.
  intros [[a1 a2] a3] [[b1 b2] b3]. unfold tuple3_le. intros Hab Hba.
  destruct (lex_antisym str_le a1 b1 _ _ (a2 = b2 ∧ a3 = b3) (λ P Q,
    lex_antisym code_le a2 b2 _ _ (a3 = b3) (anti_symm str_le a3 b3) P Q) Hab Hba)
    as (-> & -> & ->).
  done.
Qed.

(** [groupby] iterates over distinct keys in ascending order. *)
Lemma StronglySorted_strict {A} (R : relation A) (l : list A) :
  StronglySorted R l → NoDup l → StronglySorted (λ a b, R a b ∧ a ≠ b) l.
Proof.
  induction 1 as [|x l Hs IH Hx]; intros Hnd; [constructor|].
  apply NoDup_cons in Hnd as [Hnin Hnd]. constructor; [by apply IH|].
  apply Forall_forall. intros y Hy. split.
  - by eapply Forall_forall in Hx.
  - by intros ->.
Qed.

Lemma groupby_keys_sorted {A K} `{EqDecision K} (R : relation K)
    `{∀ x y, Decision (R x y)} `{!Transitive R} `{!Total R} (by_ : A → K) (df : list A) :
  StronglySorted (λ a b, R a b ∧ a ≠ b) (groupby R by_ df).*1.
Proof.
  unfold groupby. rewrite <- list_fmap_compose.
  rewrite (list_fmap_ext _ id) by done.
  rewrite list_fmap_id. apply StronglySorted_strict.
  - by apply StronglySorted_merge_sort.
  - rewrite merge_sort_Permutation. apply NoDup_unique.
Qed.

Lemma StronglySorted_fmap_inv {A B} (f : A → B) (R : relation B) (l : list A) :
  StronglySorted R (f <$> l) → StronglySorted (λ x y, R (f x) (f y)) l.
Proof.
  induction l as [|x l IH]; [constructor|]. rewrite fmap_cons.
  intros [Hs Hx]%StronglySorted_inv. constructor; [by apply IH|].
  by rewrite Forall_fmap in Hx.
Qed.

Section sorted_outcomes.
Context `{Parsers} `{Argsort}.

Lemma group_outcome_key p mc md oc (g : list (nat * timeline.t)) l :
  group_outcome p mc md oc g = Ok l →
  l = [] ∨ ∃ out, l = [out] ∧ outcome_key out = (p, mc, md, oc).
Proof.
  rewrite group_outcome_selection.
  destruct (selection g) as [[[[first pre] post]|]|]; cbn [mbind result_bind]; [| |done].
  - destruct (outcome_of _ _ _ _ _ _ _) as [out|] eqn:Hout; [|done].
    cbn [mbind result_bind]. intros [= <-]. right. exists out. split; [done|].
    by apply outcome_of_fields in Hout as [? _].
  - intros [= <-]. by left.
Qed.

Lemma outcome_records_sorted (rows : list timeline.t) outs :
  outcome_records rows = Ok outs →
  StronglySorted group_key_lt (outcome_key <$> outs).
Proof.
  unfold outcome_records. intros Hf.
  eapply StronglySorted_fmap; [intros x y Hxy; exact Hxy|].
  assert (Hinner : ∀ p mc md group l,
    for_each (groupby str_le obs_key group)
      (λ '(oc, og), group_outcome p mc md oc og) = Ok l →
    StronglySorted (λ a b, group_key_lt (outcome_key a) (outcome_key b)) l
    ∧ ∀ out, out ∈ l → (outcome_key out).1 = (p, mc, md)).
  { intros p mc md group l Hl. split.
    - eapply (for_each_StronglySorted
        (λ x y : string * list (nat * timeline.t), str_le x.1 y.1 ∧ x.1 ≠ y.1));
        [exact Hl|..].
      + apply (StronglySorted_fmap_inv fst (λ a b, str_le a b ∧ a ≠ b)),
          (groupby_keys_sorted str_le).
      + intros [oc og] l' _ [->|(out & -> & _)]%group_outcome_key; repeat constructor.
      + intros [oc og] [oc' og'] lx ly a b [Hle Hne] Hx Hy Ha Hb. simpl in *.
        apply group_outcome_key in Hx as [->|(out & -> & Hk)];
          [by apply elem_of_nil in Ha|].
        apply group_outcome_key in Hy as [->|(out' & -> & Hk')];
          [by apply elem_of_nil in Hb|].
        apply list_elem_of_singleton in Ha as ->, Hb as ->.
        rewrite Hk, Hk'. split; [|congruence].
        unfold group_key_le. simpl. by rewrite decide_True.
    - intros out (x & l' & _ & Hx & Hout)%(for_each_Ok_elem_of _ _ _ _ Hl).
      destruct x as [oc og].
      apply group_outcome_key in Hx as [->|(out' & -> & Hk)];
        [by apply elem_of_nil in Hout|].
      apply list_elem_of_singleton in Hout as ->. by rewrite Hk. }
  eapply (for_each_StronglySorted
    (λ x y : (string * code_cell * string) * list (nat * timeline.t),
       tuple3_le x.1 y.1 ∧ x.1 ≠ y.1)); [exact Hf|..].
  - apply (StronglySorted_fmap_inv fst (λ a b, tuple3_le a b ∧ a ≠ b)),
      (groupby_keys_sorted tuple3_le).
  - intros [[[p mc] md] group] l _ Hl. by apply Hinner in Hl as [? _].
  - intros [[[p mc] md] group] [[[p' mc'] md'] group'] lx ly a b [Hle Hne] Hx Hy Ha Hb.
    simpl in Hle, Hne. apply Hinner in Hx as [_ Hx], Hy as [_ Hy].
    specialize (Hx a Ha). specialize (Hy b Hb).
    split; [|intros Heq; apply Hne; rewrite Heq in Hx; congruence].
    unfold group_key_le. rewrite Hx, Hy. by rewrite decide_False.
Qed.
End sorted_outcomes.

Lemma StronglySorted_NoDup {A} (R : relation A) (l : list A) :
  (∀ a, ¬ R a a) → StronglySorted R l → NoDup l.
Proof.
  intros Hirr. induction 1 as [|x l _ IH Hx]; constructor; [|done].
  intros Hin. eapply Forall_forall in Hx; [|done]. by eapply Hirr.
Qed.

Lemma disjoint_groups_length {A K} `{EqDecision K} (f : A → K) (n : nat)
    (ks : list K) (rows : list A) :
  NoDup ks →
  (∀ k, k ∈ ks → n ≤ length (filter (λ r, f r = k) rows)) →
  n * length ks ≤ length rows.
Proof.
  intros Hnd. revert rows. induction Hnd as [|k ks Hk Hnd IH]; intros rows Hall.
  - simpl. lia.
  - set (rest := filter (λ r, f r ≠ k) rows).
    assert (Hlen : length rows
                   = length (filter (λ r, f r = k) rows) + length rest).
    { rewrite <- length_app. apply Permutation_length. symmetry.
      apply filter_app_complement. }
    assert (Hrest : n * length ks ≤ length rest).
    { apply IH. intros k' Hk'. unfold rest. rewrite list_filter_filter.
      rewrite (list_filter_iff _ (λ r, f r = k')).
      - apply Hall. by right.
      - intros r. split; [by intros [? _]|]. intros ->. split; [done|].
        by intros ->. }
    assert (Hin : k ∈ k :: ks) by (by left). specialize (Hall k Hin). simpl. lia.
Qed.

Section one_per_group.
Context `{Parsers} `{Argsort}.

Lemma outcome_records_one_per_group (rows : list timeline.t) outs :
  outcome_records rows = Ok outs →
  StronglySorted group_key_lt (outcome_key <$> outs)
  ∧ NoDup (outcome_key <$> outs)
  ∧ 2 * length outs ≤ length rows.
Proof.
  intros Houts.
  destruct (outcome_records_groups rows) as (outs' & Houts' & Hsel & _).
  rewrite Houts in Houts'. injection Houts' as <-.
  pose proof (outcome_records_sorted rows outs Houts) as Hsorted.
  assert (Hnd : NoDup (outcome_key <$> outs)).
  { eapply StronglySorted_NoDup; [|done]. by intros a [_ ?]. }
  split; [done|]. split; [done|].
  rewrite <- (length_fmap outcome_key outs).
  apply (disjoint_groups_length group_key); [done|].
  intros k (out & -> & Hout)%list_elem_of_fmap.
  destruct (Hsel out Hout) as (? & ? & ? & Hlen & _). exact Hlen.
Qed.

(** X4. The Outcome Resolver emits at most one record per group (patient,
    medication code, medication description, metric code), and emits the
    records in the order of their keys: by patient, then by medication code
    (by value, for the codes of an integer column), then by medication
    description, then by metric code, text being ordered as Python orders
    [str]. So it emits at most half as many records as the timeline has
    rows. *)
Theorem outcomes_are_sorted_by_group (rows : list timeline.t) :
  ∃ outs, outcome_records rows = Ok outs
    ∧ StronglySorted group_key_lt (outcome_key <$> outs)
    ∧ NoDup (outcome_key <$> outs)
    ∧ 2 * length outs ≤ length rows.
Proof.
  destruct (outcome_records_groups rows) as (outs & Houts & _).
  exists outs. split; [done|]. by apply outcome_records_one_per_group.
Qed.
End one_per_group.

(** ** Where the outcome records come from *)

Section provenance.
Context `{Parsers} `{Argsort}.

Lemma resolve_outcome_records (records : list timeline.t) :
  resolve (Some (Timeline records)) = outcome_records (numeric records).
Proof. simpl. case_decide as He; [by subst|done]. Qed.

(** The records of a successful run of the three stages. *)
Lemma pipeline_Ok_inv (ms : list medication.t) (os : list observation.t) x :
  pipeline (Some (Medications ms)) (Some (Observations os)) = Ok x →
  ∃ records outs,
    x = (Some (Timeline (numeric_row <$> records)), Some (Outcomes outs))
    ∧ outcome_records (numeric_row <$> records) = Ok outs
    ∧ ∀ r, r ∈ records →
        ∃ m o, m ∈ ms ∧ o ∈ os
          ∧ observation.patient o = medication.patient m
          ∧ r = record_of (normalized_row m, coerced_row o).
Proof.
  unfold pipeline.
  destruct (normalize _) as [periods|] eqn:Hn; [|done].
  apply normalize_Ok in Hn as [_ ->]. cbn [mbind result_bind].
  destruct (build _ _) as [records|] eqn:Hb; [|done]. cbn [mbind result_bind].
  rewrite resolve_outcome_records, numeric_fmap.
  destruct (outcome_records _) as [outs|] eqn:Ho; [|done].
  cbn [mbind result_bind mret result_ret]. intros [= <-].
  exists records, outs. split; [done|]. split; [done|].
  intros r Hr. simpl in Hb. case_decide as Hempty.
  { injection Hb as <-. by apply elem_of_nil in Hr. }
  destruct (coerce os) as [os'|] eqn:Hc; [|done].
  apply coerce_Ok in Hc as [_ ->]. cbn [mbind result_bind] in Hb.
  destruct (timeline_records_Ok_inv _ _ _ _ Hb Hr)
    as (m' & o' & (m & -> & Hm)%list_elem_of_fmap & (o & -> & Ho')%list_elem_of_fmap & Hp & ->).
  exists m, o. done.
Qed.
Lemma numeric_row_record_of (m : medication.t) (o : observation.t) :
  numeric_row (record_of (normalized_row m, coerced_row o))
  = record_of (normalized_row m, coerced_row o).
Proof.
  unfold numeric_row, record_of, timeline.with_value. simpl.
  by rewrite to_numeric_cell_idemp.
Qed.

Lemma outcome_rows_of_pipeline (ms : list medication.t) (os : list observation.t)
    (tl : option frame) (outs : list outcome.t) :
  pipeline (Some (Medications ms)) (Some (Observations os))
    = Ok (tl, Some (Outcomes outs)) →
  ∀ out, out ∈ outs →
    ∃ m1 o1 m2 o2 o0,
      m1 ∈ ms ∧ o1 ∈ os ∧ m2 ∈ ms ∧ o2 ∈ os ∧ o0 ∈ os
      ∧ drug_of out m1 ∧ metric_of out o1 ∧ pre_of out m1 o1
      ∧ drug_of out m2 ∧ metric_of out o2 ∧ post_of out m2 o2
      ∧ metric_of out o0
      ∧ outcome.obs_description out = observation.description o0
      ∧ outcome.units out = observation.units o0.
Proof.
  intros Hrun out Hout.
  apply pipeline_Ok_inv in Hrun as (records & outs' & [= -> <-] & Houts & Hrec).
  destruct (outcome_records_groups (numeric_row <$> records))
    as (outs0 & Houts0 & Hsel & _).
  rewrite Houts in Houts0. injection Houts0 as <-.
  destruct (Hsel out Hout) as (first & pre & post & _ & Hhead & Hpre & Hpost & Hof).
  apply outcome_of_fields in Hof
    as (Hkey & Hdesc & Hunits & Hpv & Hpd & Hqv & Hqd & Hdays & _).
  assert (Hrow : ∀ r, r ∈ group_of (numeric_row <$> records) (outcome_key out) →
    ∃ m o, m ∈ ms ∧ o ∈ os ∧ drug_of out m ∧ metric_of out o
      ∧ r = record_of (normalized_row m, coerced_row o)).
  { intros r [Hk (r0 & -> & Hr0)%list_elem_of_fmap]%list_elem_of_filter.
    destruct (Hrec r0 Hr0) as (m & o & Hmin & Hoin & Hp & ->).
    rewrite numeric_row_record_of in Hk |- *.
    exists m, o. split; [done|]. split; [done|].
    unfold group_key, outcome_key, record_of in Hk. simpl in Hk.
    injection Hk as Hk1 Hk2 Hk3 Hk4.
    unfold drug_of, metric_of. split; [|split; [|done]]; repeat split; congruence. }
  destruct Hpre as (Hpre_in & d & Hd & Hle & _).
  destruct Hpost as (Hpost_in & d' & Hd' & Hgt & _).
  destruct (Hrow pre Hpre_in) as (m1 & o1 & ? & ? & ? & ? & ->).
  destruct (Hrow post Hpost_in) as (m2 & o2 & ? & ? & ? & ? & ->).
  destruct (Hrow first) as (m0 & o0 & ? & ? & ? & ? & ->).
  { by apply head_Some_elem_of. }
  exists m1, o1, m2, o2, o0. do 7 (split; [done|]).
  simpl in Hd, Hd'.
  apply day_difference_Some in Hd as (a & s1 & Ha & Hs1 & ->).
  apply day_difference_Some in Hd' as (b & s2 & Hb & Hs2 & ->).
  split; [|split; [done|split; [done|split; [|done]]]].
  - split; [done|]. split; [done|]. exists a, s1. split; [done|]. split; [done|].
    by apply floor_days_nonpos.
  - split; [done|]. split; [done|]. exists b, s2. split; [done|]. split; [done|].
    split.
    + pose proof (floor_days_nonpos b s2). lia.
    + rewrite Hdays. simpl. by rewrite Hb, Hs2.
Qed.

Lemma outcome_rows_of_run (h : heap) (meds obs : loc)
    (ms : list medication.t) (os : list observation.t)
    (tl : option frame) (outs : list outcome.t) :
  h !! meds = Some (Medications ms) →
  h !! obs = Some (Observations os) →
  outputs (main meds obs h) = Ok (tl, Some (Outcomes outs)) →
  ∀ out, out ∈ outs →
    ∃ m1 o1 m2 o2 o0,
      m1 ∈ ms ∧ o1 ∈ os ∧ m2 ∈ ms ∧ o2 ∈ os ∧ o0 ∈ os
      ∧ drug_of out m1 ∧ metric_of out o1 ∧ pre_of out m1 o1
      ∧ drug_of out m2 ∧ metric_of out o2 ∧ post_of out m2 o2
      ∧ metric_of out o0
      ∧ outcome.obs_description out = observation.description o0
      ∧ outcome.units out = observation.units o0.
Proof.
  intros Hm Ho Hrun.
  destruct (main_run meds obs h) as [Hpipe _]. rewrite Hpipe, Hm, Ho in Hrun.
  by apply (outcome_rows_of_pipeline ms os tl).
Qed.

(** X5. Every outcome record that the three stages produce is computed from
    rows of the two input tables: its "pre" value and date are those of an
    observation of the record's patient and metric, made earlier than 24
    hours after the start of a medication row of the record's patient,
    drug code and drug description; its "post" value and date are those of
    such an observation made 24 hours or more after the start of such a
    medication row, and [days_between] is the whole number of days between
    that start and that observation; description and unit are those of
    such an observation too. The two medication rows need not be the same
    one: the groups do not tell the periods of one drug apart. *)
Theorem outcome_rows_come_from_the_tables (h : heap) (meds obs : loc)
    (ms : list medication.t) (os : list observation.t)
    (tl : option frame) (outs : list outcome.t) :
  h !! meds = Some (Medications ms) →
  h !! obs = Some (Observations os) →
  outputs (main meds obs h) = Ok (tl, Some (Outcomes outs)) →
  ∀ out, out ∈ outs →
    ∃ m1 o1 m2 o2 o0,
      m1 ∈ ms ∧ o1 ∈ os ∧ m2 ∈ ms ∧ o2 ∈ os ∧ o0 ∈ os
      ∧ drug_of out m1 ∧ metric_of out o1 ∧ pre_of out m1 o1
      ∧ drug_of out m2 ∧ metric_of out o2 ∧ post_of out m2 o2
      ∧ metric_of out o0
      ∧ outcome.obs_description out = observation.description o0
      ∧ outcome.units out = observation.units o0.
Proof. apply outcome_rows_of_run. Qed.

(** X6. When no two medication rows have the same patient, drug code and
    drug description, every outcome record has a "pre" date that is
    strictly earlier than its "post" date. *)
Theorem pre_date_precedes_post_date (h : heap) (meds obs : loc)
    (ms : list medication.t) (os : list observation.t)
    (tl : option frame) (outs : list outcome.t) :
  h !! meds = Some (Medications ms) →
  h !! obs = Some (Observations os) →
  NoDup ((λ m, (medication.patient m, medication.code m,
                medication.description m)) <$> ms) →
  outputs (main meds obs h) = Ok (tl, Some (Outcomes outs)) →
  ∀ out, out ∈ outs →
    ∃ a b, outcome.pre_date out = DTime a ∧ outcome.post_date out = DTime b
      ∧ (a < b)%Z.
Proof.
  intros Hm Ho Hnd Hrun out Hout.
  destruct (outcome_rows_of_run h meds obs ms os tl outs Hm Ho Hrun out Hout)
    as (m1 & o1 & m2 & o2 & o0 & Hm1 & _ & Hm2 & _ & _ & Hd1 & _ & Hpre & Hd2 & _
        & Hpost & _).
  assert (m1 = m2) as <-.
  { apply list_elem_of_lookup in Hm1 as [i Hi], Hm2 as [j Hj].
    assert (i = j) as ->; [|congruence].
    eapply NoDup_lookup; [exact Hnd| |]; rewrite list_lookup_fmap.
    - rewrite Hi. reflexivity.
    - rewrite Hj. simpl. destruct Hd1 as (-> & -> & ->), Hd2 as (-> & -> & ->). done. }
  destruct Hpre as (_ & -> & a & s & -> & Hs & Ha).
  destruct Hpost as (_ & -> & b & s' & -> & Hs' & Hb & _).
  exists a, b. split; [done|]. split; [done|].
  rewrite Hs in Hs'. injection Hs' as <-. lia.
Qed.
End provenance.

(** The record of the scenario. *)
Lemma outcome_rows_come_from_the_tables_witness :
  Forall (λ out,
    ∃ m1 o1 m2 o2 o0,
      m1 ∈ scenario_medications ∧ o1 ∈ scenario_observations
      ∧ m2 ∈ scenario_medications ∧ o2 ∈ scenario_observations
      ∧ o0 ∈ scenario_observations
      ∧ drug_of out m1 ∧ metric_of out o1 ∧ pre_of out m1 o1
      ∧ drug_of out m2 ∧ metric_of out o2 ∧ post_of out m2 o2
      ∧ metric_of out o0
      ∧ outcome.obs_description out = observation.description o0
      ∧ outcome.units out = observation.units o0) scenario_outcomes.
Proof.
  apply Forall_forall.
  apply (outcome_rows_come_from_the_tables scenario 1%positive 2%positive
           scenario_medications scenario_observations scenario_timeline_frame).
  - reflexivity.
  - reflexivity.
  - vm_compute. reflexivity.
Defined.

(** The record of the scenario, whose drug is prescribed once. *)
Lemma pre_date_precedes_post_date_witness :
  Forall (λ out,
    ∃ a b, outcome.pre_date out = DTime a ∧ outcome.post_date out = DTime b
      ∧ (a < b)%Z) scenario_outcomes.
Proof.
  apply Forall_forall.
  apply (pre_date_precedes_post_date scenario 1%positive 2%positive
           scenario_medications scenario_observations scenario_timeline_frame).
  - reflexivity.
  - reflexivity.
  - repeat constructor. set_solver.
  - vm_compute. reflexivity.
Defined.

(** * The cohort *)

Lemma filter_or_and {A} (P Q : A → Prop) `{∀ x, Decision (P x)}
    `{∀ x, Decision (Q x)} (l : list A) :
  filter P l ++ filter Q l ≡ₚ filter (λ x, P x ∨ Q x) l ++ filter (λ x, P x ∧ Q x) l.
Proof.
  induction l as [|x l IH]; [done|].
  rewrite !filter_cons.
  destruct (decide (P x)), (decide (Q x)); simpl.
  - rewrite decide_True, decide_True by tauto. simpl.
    rewrite <- !Permutation_middle. by rewrite IH.
  - rewrite decide_True, decide_False by tauto. simpl. by rewrite IH.
  - rewrite decide_True, decide_False by tauto. simpl.
    rewrite <- !Permutation_middle. by rewrite IH.
  - rewrite decide_False, decide_False by tauto. done.
Qed.

Section cohort_theorems.
Context `{Regex}.

Lemma str_accessor_result (conditions_df : list condition.t) :
  (has_descriptions conditions_df
   ∧ str_accessor (condition.description <$> conditions_df)
     = Ok (condition.description <$> conditions_df))
  ∨ (¬ has_descriptions conditions_df
     ∧ str_accessor (condition.description <$> conditions_df) = Raise AttributeError).
Proof.
  unfold str_accessor, has_descriptions. case_decide as Hcol.
  - right. split; [|done]. destruct Hcol as [Hne Hall]. intros [->|Hex]; [done|].
    apply Exists_exists in Hex as (c & Hc & [d Hd]).
    rewrite Forall_fmap in Hall. eapply Forall_forall in Hall; [|done].
    simpl in Hall. congruence.
  - left. split; [|done].
    destruct (decide (conditions_df = [])) as [|Hne]; [by left|].
    destruct (decide (Exists (λ c, is_Some (condition.description c)) conditions_df))
      as [|Hex]; [by right|].
    apply not_Exists_Forall in Hex; [|apply _]. destruct Hcol. split.
    + by intros ?%fmap_nil_inv.
    + rewrite Forall_fmap. eapply Forall_impl; [exact Hex|].
      intros c Hc. simpl in *. destruct (condition.description c); [|done].
      destruct Hc. by eexists.
Qed.

Lemma identify_diabetic_patients_unfold (conditions_df : list condition.t)
    (diabetes_codes : list string) :
  (has_descriptions conditions_df
   ∧ identify_diabetic_patients conditions_df diabetes_codes
     = Ok (list_to_set (unique (condition.patient <$>
             filter (λ c, isin diabetes_codes (condition.code c)) conditions_df))
           ∪ list_to_set (unique (condition.patient <$>
               filter mentions_diabetes conditions_df))))
  ∨ (¬ has_descriptions conditions_df
     ∧ identify_diabetic_patients conditions_df diabetes_codes = Raise AttributeError).
Proof.
  unfold identify_diabetic_patients.
  destruct (str_accessor_result conditions_df) as [[Hd ->]|[Hd ->]]; [by left|by right].
Qed.

Lemma identify_diabetic_patients_Raise (conditions_df : list condition.t)
    (diabetes_codes : list string) e :
  identify_diabetic_patients conditions_df diabetes_codes = Raise e →
  e = AttributeError ∧ ¬ has_descriptions conditions_df.
Proof.
  destruct (identify_diabetic_patients_unfold conditions_df diabetes_codes)
    as [[_ ->]|[? ->]]; [done|]. by intros [= <-].
Qed.

Lemma identify_diabetic_patients_Ok (conditions_df : list condition.t)
    (diabetes_codes : list string) (patients : gset string) :
  identify_diabetic_patients conditions_df diabetes_codes = Ok patients →
  has_descriptions conditions_df
  ∧ ∀ p, p ∈ patients ↔
      ∃ c, c ∈ conditions_df ∧ condition.patient c = p
        ∧ ((∃ s, condition.code c = CodeStr s ∧ s ∈ diabetes_codes)
           ∨ (∃ d, condition.description c = Some d
                ∧ str_contains "diabetes|diabetic" d = true)).
Proof.
  destruct (identify_diabetic_patients_unfold conditions_df diabetes_codes)
    as [[Hd ->]|[_ ->]]; [|done].
  intros [= <-]. split; [done|]. intros p.
  rewrite elem_of_union, !elem_of_list_to_set, !elem_of_unique, !list_elem_of_fmap.
  split.
  - intros [(c & -> & [Hc Hin]%list_elem_of_filter)
           |(c & -> & [Hc Hin]%list_elem_of_filter)];
      exists c; (split; [done|]); (split; [done|]).
    + left. destruct (condition.code c) as [n|s]; [done|]. eauto.
    + right. unfold mentions_diabetes in Hc.
      destruct (condition.description c) as [d|]; [|done]. eauto.
  - intros (c & Hin & <- & [(s & Hs & Hcode)|(d & Hd' & Hm)]).
    + left. exists c. split; [done|]. apply list_elem_of_filter. split; [|done].
      by rewrite Hs.
    + right. exists c. split; [done|]. apply list_elem_of_filter. split; [|done].
      unfold mentions_diabetes. by rewrite Hd'.
Qed.

(** X7. [identify_diabetic_patients] returns on a conditions table that has
    no row or has a description that is text. A patient is then identified
    exactly when one of the patient's conditions has a code that is text
    and is in the list of diabetes codes, or has a description in which the
    library's search finds [diabetes|diabetic]; a code that was read as an
    integer matches no code of the list, so that on a table whose code
    column is an integer column, the list of codes has no effect. On a
    table with rows whose descriptions are all missing, the text match
    raises [AttributeError]. *)
Theorem diabetic_patients_by_code_or_text (conditions_df : list condition.t)
    (diabetes_codes : list string) :
  (has_descriptions conditions_df →
   ∃ patients,
     identify_diabetic_patients conditions_df diabetes_codes = Ok patients
     ∧ (∀ p, p ∈ patients ↔
          ∃ c, c ∈ conditions_df ∧ condition.patient c = p
            ∧ ((∃ s, condition.code c = CodeStr s ∧ s ∈ diabetes_codes)
               ∨ (∃ d, condition.description c = Some d
                    ∧ str_contains "diabetes|diabetic" d = true)))
     ∧ (Forall (λ c, ∃ n, condition.code c = CodeInt n) conditions_df →
        identify_diabetic_patients conditions_df [] = Ok patients))
  ∧ (¬ has_descriptions conditions_df →
     identify_diabetic_patients conditions_df diabetes_codes = Raise AttributeError).
Proof.
  split.
  - intros Hd.
    destruct (identify_diabetic_patients conditions_df diabetes_codes)
      as [patients|e] eqn:Hid.
    2: { by apply identify_diabetic_patients_Raise in Hid as [_ ?]. }
    exists patients. split; [done|].
    pose proof (identify_diabetic_patients_Ok _ _ _ Hid) as [_ Hchar].
    split; [done|]. intros Hint.
    destruct (identify_diabetic_patients conditions_df []) as [patients'|e] eqn:Hid'.
    2: { by apply identify_diabetic_patients_Raise in Hid' as [_ ?]. }
    pose proof (identify_diabetic_patients_Ok _ _ _ Hid') as [_ Hchar'].
    f_equal. apply set_eq. intros p. rewrite Hchar, Hchar'.
    split; intros (c & Hin & Hp & [(s & Hs & _)|Hdesc]); try (exists c; by eauto).
    + eapply Forall_forall in Hint as [n Hn]; [|done]. congruence.
    + eapply Forall_forall in Hint as [n Hn]; [|done]. congruence.
  - intros Hd.
    by destruct (identify_diabetic_patients_unfold conditions_df diabetes_codes)
      as [[? _]|[_ ->]].
Qed.
End cohort_theorems.

Lemma filter_relevant_observations_steps (h : heap) (df : loc) rows gc iv :
  h !! df = Some (Observations rows) →
  filter_relevant_observations df gc iv h
  = (<[fresh (dom h) := Observations (relevant_observations gc iv rows)]> h,
     Ok (fresh (dom h))).
Proof.
  intros Hdf. unfold filter_relevant_observations, relevant_observations.
  rewrite (bind_read_observations df rows) by done.
  destruct iv; [done|]. by rewrite app_nil_r.
Qed.

(** X8. The filter of the relevant observations returns a new frame and
    changes no other. Without the vital signs the frame holds the rows with a
    glucose code, in their order. With them, the rows with a vital-sign code
    are put after those, and nothing is merged: the frame holds, up to the
    order of the rows, the rows with a code of either list, and once more
    the rows with a code that is in both. *)
Theorem vitals_are_appended_not_merged (h : heap) (df : loc)
    (rows : list observation.t) (glucose_codes : list string) (include_vitals : bool) :
  h !! df = Some (Observations rows) →
  ∃ l kept,
    filter_relevant_observations df glucose_codes include_vitals h
      = (<[l := Observations kept]> h, Ok l)
    ∧ h !! l = None
    ∧ (include_vitals = false →
       kept = filter (λ o, observation.code o ∈ glucose_codes) rows)
    ∧ (include_vitals = true →
       kept ≡ₚ
         filter (λ o, observation.code o ∈ glucose_codes
                      ∨ observation.code o ∈ vital_codes) rows
         ++ filter (λ o, observation.code o ∈ glucose_codes
                         ∧ observation.code o ∈ vital_codes) rows).
Proof.
  intros Hdf. rewrite (filter_relevant_observations_steps h df rows) by done.
  eexists _, _. split; [done|]. split; [apply fresh_lookup|].
  unfold relevant_observations. split; intros ->.
  - by rewrite app_nil_r.
  - apply (filter_or_and (λ o, observation.code o ∈ glucose_codes)
             (λ o, observation.code o ∈ vital_codes)).
Qed.

(** The sample observations, with a code that is in both lists. *)
Lemma vitals_are_appended_not_merged_witness :
  ∃ l kept,
    filter_relevant_observations 2%positive ["4548-4"; "8480-6"] true sample_loaded
      = (<[l := Observations kept]> sample_loaded, Ok l)
    ∧ sample_loaded !! l = None
    ∧ (true = false →
       kept = filter (λ o, observation.code o ∈ ["4548-4"; "8480-6"])
                loaded_observations)
    ∧ (true = true →
       kept ≡ₚ
         filter (λ o, observation.code o ∈ ["4548-4"; "8480-6"]
                      ∨ observation.code o ∈ vital_codes) loaded_observations
         ++ filter (λ o, observation.code o ∈ ["4548-4"; "8480-6"]
                         ∧ observation.code o ∈ vital_codes) loaded_observations).
Proof.
  apply (vitals_are_appended_not_merged sample_loaded 2%positive loaded_observations).
  reflexivity.
Defined.

(** X15. The conditions that the cohort filter keeps are rows of the
    conditions table, in their order, of patients of the cohort; unless
    comorbidities are included, they are only the rows whose code is the
    text 44054006 or 46635009, whatever the list of diabetes codes that
    identified the patients holds, so that no row is kept of a table whose
    code column is an integer column. *)
Theorem cohort_conditions_have_two_fixed_codes (dataset : dataset.t)
    (diabetic_patients : gset string) (include_comorbidities : bool)
    (h h' : heap) (filtered : dataset.t) :
  filter_dataset_for_diabetic_patients dataset diabetic_patients
    include_comorbidities h = (h', Ok filtered) →
  dataset.conditions filtered `sublist_of` dataset.conditions dataset
  ∧ (∀ c, c ∈ dataset.conditions filtered ↔
       c ∈ dataset.conditions dataset
       ∧ condition.patient c ∈ diabetic_patients
       ∧ (include_comorbidities = false →
          condition.code c = CodeStr "44054006"
          ∨ condition.code c = CodeStr "46635009"))
  ∧ (include_comorbidities = false →
     Forall (λ c, ∃ n, condition.code c = CodeInt n) (dataset.conditions dataset) →
     dataset.conditions filtered = []).
Proof.
  unfold filter_dataset_for_diabetic_patients. intros Hrun.
  set (cs := if include_comorbidities then _ else _) in Hrun.
  assert (Hc : dataset.conditions filtered = cs).
  { revert Hrun. unfold mbind, M_bind, read_medications.
    destruct (h !! dataset.medications dataset) as [[ms|?|?|?]|]; try done.
    unfold new_frame, read_observations.
    destruct (_ !! dataset.observations dataset) as [[?|os|?|?]|]; try done.
    by intros [= _ <-]. }
  assert (Hisin : ∀ c, isin ["44054006"; "46635009"] (condition.code c) ↔
    condition.code c = CodeStr "44054006" ∨ condition.code c = CodeStr "46635009").
  { intros c. destruct (condition.code c) as [n|s]; simpl.
    - naive_solver.
    - rewrite !elem_of_cons, elem_of_nil. naive_solver. }
  rewrite Hc. unfold cs. clear Hrun Hc cs. split; [|split].
  - destruct include_comorbidities; apply sublist_filter.
  - intros c. destruct include_comorbidities; rewrite list_elem_of_filter.
    + naive_solver.
    + rewrite Hisin. naive_solver.
  - intros -> Hint. apply elem_of_nil_inv. intros c [[_ Hc] Hin]%list_elem_of_filter.
    eapply Forall_forall in Hint as [n Hn]; [|done]. by rewrite Hn in Hc.
Qed.

(** The conditions of the sample dataset: none is kept. *)
Lemma cohort_conditions_have_two_fixed_codes_witness :
  dataset.conditions sample_filtered `sublist_of` dataset.conditions sample_dataset
  ∧ (∀ c, c ∈ dataset.conditions sample_filtered ↔
       c ∈ dataset.conditions sample_dataset
       ∧ condition.patient c ∈ cohort sample_args sample_dataset
       ∧ (false = false →
          condition.code c = CodeStr "44054006"
          ∨ condition.code c = CodeStr "46635009"))
  ∧ (false = false →
     Forall (λ c, ∃ n, condition.code c = CodeInt n)
       (dataset.conditions sample_dataset) →
     dataset.conditions sample_filtered = []).
Proof.
  apply (cohort_conditions_have_two_fixed_codes sample_dataset
           (cohort sample_args sample_dataset) false sample_loaded
           (filter_dataset_for_diabetic_patients sample_dataset
              (cohort sample_args sample_dataset) false sample_loaded).1
           sample_filtered).
  vm_compute. reflexivity.
Defined.

(** * [main], from the loaded dataset to the saved tables *)

Section main_runs_more.
Context `{Parsers} `{Argsort}.

(** The three stages change no frame but the two they are given, and
    create the others. *)
Lemma main_frame (m o : loc) (h h' : heap) r :
  main m o h = (h', r) →
  ∀ l, l ≠ m → l ≠ o → is_Some (h !! l) → h' !! l = h !! l.
Proof.
  rewrite main_unfold. intros Hrun l Hm Ho Hl.
  destruct (create_medication_periods_run h m) as (h1 & Hrun1 & Hf1 & _).
  rewrite Hrun1 in Hrun.
  destruct (normalize (h !! m)) as [periods|e]; [|by injection Hrun as <- _; apply Hf1].
  destruct (create_observation_timeline_run h1 o m)
    as (h2 & tl & Hrun2 & Htl & Hf2 & _).
  rewrite Hrun2 in Hrun.
  assert (Hltl : l ≠ tl).
  { intros ->. rewrite <- Hf1 in Hl by done. rewrite Htl in Hl. by destruct Hl. }
  destruct (build (h1 !! o) (h1 !! m)) as [records|e];
    [|injection Hrun as <- _; rewrite Hf2 by done; by apply Hf1].
  destruct (create_patient_medication_outcomes_run h2 tl)
    as (h3 & out & Hrun3 & Hout & Hf3 & _).
  rewrite Hrun3 in Hrun.
  assert (Hlout : l ≠ out).
  { intros ->. rewrite <- Hf1, <- Hf2 in Hl by done. rewrite Hout in Hl. by destruct Hl. }
  assert (h' = h3) as ->.
  { by destruct (resolve (h2 !! tl)); injection Hrun as <- _. }
  rewrite Hf3, Hf2 by done. by apply Hf1.
Qed.
(** What the frames hold after a run of the three stages that returns. *)
Lemma main_contents (m o : loc) (h h' : heap) (tl out : loc)
    (ms : list medication.t) (os : list observation.t) :
  h !! m = Some (Medications ms) →
  h !! o = Some (Observations os) →
  main m o h = (h', Ok (tl, out)) →
  h' !! m = Some (Medications (normalized_row <$> ms))
  ∧ ((os = [] ∨ ms = []) ∧ h' !! o = Some (Observations os)
     ∨ os ≠ [] ∧ ms ≠ [] ∧ h' !! o = Some (Observations (coerced_row <$> os)))
  ∧ pipeline (Some (Medications ms)) (Some (Observations os))
    = Ok (h' !! tl, h' !! out).
Proof.
  intros Hm Ho Hrun.
  assert (Hne : m ≠ o) by (intros ->; congruence).
  destruct (main_run m o h) as [Hpipe _].
  rewrite Hrun, Hm, Ho in Hpipe. simpl in Hpipe.
  split; [|split; [|done]].
  - rewrite main_unfold in Hrun.
    destruct (create_medication_periods_run h m) as (h1 & Hrun1 & Hf1 & Hp1).
    rewrite Hrun1 in Hrun. rewrite Hm in *.
    destruct (normalize _) as [periods|e] eqn:Hn; [|done].
    apply normalize_Ok in Hn as [_ ->]. specialize (Hp1 _ eq_refl).
    destruct (create_observation_timeline_run h1 o m)
      as (h2 & tl' & Hrun2 & Htl & Hf2 & _).
    rewrite Hrun2 in Hrun.
    destruct (build (h1 !! o) (h1 !! m)) as [records|e]; [|done].
    destruct (create_patient_medication_outcomes_run h2 tl')
      as (h3 & out' & Hrun3 & Hout & Hf3 & _).
    rewrite Hrun3 in Hrun.
    destruct (resolve (h2 !! tl')) as [outs|e]; [|done].
    injection Hrun as <- <- <-.
    assert (m ≠ tl') by (intros ->; congruence).
    assert (m ≠ out').
    { intros ->. rewrite Hf2 in Hout by done. congruence. }
    by rewrite Hf3, Hf2.
  - rewrite main_unfold in Hrun.
    destruct (create_medication_periods_run h m) as (h1 & Hrun1 & Hf1 & Hp1).
    rewrite Hrun1 in Hrun. rewrite Hm in *.
    destruct (normalize _) as [periods|e] eqn:Hn; [|done].
    apply normalize_Ok in Hn as [_ ->]. specialize (Hp1 _ eq_refl).
    assert (Ho1 : h1 !! o = Some (Observations os)) by (by rewrite Hf1).
    rewrite (create_observation_timeline_steps h1 o m os (normalized_row <$> ms))
      in Hrun by done.
    assert (Hnil : normalized_row <$> ms = [] ↔ ms = []).
    { split; [apply fmap_nil_inv|by intros ->]. }
    destruct (decide (os = [] ∨ normalized_row <$> ms = [])) as [Hempty|Hempty].
    + destruct (create_patient_medication_outcomes_run
                  (<[fresh (dom h1) := Timeline []]> h1) (fresh (dom h1)))
        as (h3 & out' & Hrun3 & Hout & Hf3 & _).
      rewrite Hrun3 in Hrun.
      destruct (resolve _) as [outs|e]; [|done].
      injection Hrun as <- <- <-.
      left. split; [tauto|].
      assert (o ≠ fresh (dom h1)).
      { intros Heq. pose proof (fresh_lookup h1) as Hfr. rewrite <- Heq in Hfr. congruence. }
      assert (o ≠ out').
      { intros ->. rewrite lookup_insert_ne in Hout by done. congruence. }
      by rewrite Hf3, lookup_insert_ne.
    + destruct (coerce os) as [os'|e] eqn:Hc; [|done].
      apply coerce_Ok in Hc as [_ ->]. cbn zeta in Hrun.
      set (h2 := <[o := Observations (coerced_row <$> os)]> h1) in *.
      destruct (timeline_records _ _) as [records|e]; [|done].
      destruct (create_patient_medication_outcomes_run
                  (<[fresh (dom h2) := Timeline records]> h2) (fresh (dom h2)))
        as (h3 & out' & Hrun3 & Hout & Hf3 & _).
      rewrite Hrun3 in Hrun.
      destruct (resolve _) as [outs|e]; [|done].
      injection Hrun as <- <- <-.
      right. split; [tauto|]. split; [tauto|].
      assert (Ho2 : h2 !! o = Some (Observations (coerced_row <$> os)))
        by apply lookup_insert_eq.
      assert (o ≠ fresh (dom h2)).
      { intros Heq. pose proof (fresh_lookup h2) as Hfr. rewrite <- Heq in Hfr. congruence. }
      assert (o ≠ out').
      { intros ->. rewrite lookup_insert_ne in Hout by done. congruence. }
      by rewrite Hf3, lookup_insert_ne.
Qed.
End main_runs_more.

Lemma bind_filter_relevant_observations {B} (h : heap) (df : loc) rows gc iv
    (f : loc → M B) :
  h !! df = Some (Observations rows) →
  (filter_relevant_observations df gc iv ≫= f) h
  = f (fresh (dom h))
      (<[fresh (dom h) := Observations (relevant_observations gc iv rows)]> h).
Proof.
  intros Hdf. unfold mbind at 1, M_bind at 1.
  by rewrite (filter_relevant_observations_steps h df rows).
Qed.

Lemma save_processed_data_heap (d : dataset.t) (t o : loc) (h : heap) :
  (save_processed_data d t o h).1 = h.
Proof.
  unfold save_processed_data, mbind, M_bind, read_medications, read_observations,
    read_timeline, read_outcomes.
  repeat (case_match; simplify_eq/=; try done).
Qed.

Lemma save_processed_data_Ok (d : dataset.t) (t o : loc) (h : heap) ms os tl outs :
  h !! dataset.medications d = Some (Medications ms) →
  h !! dataset.observations d = Some (Observations os) →
  h !! t = Some (Timeline tl) →
  h !! o = Some (Outcomes outs) →
  save_processed_data d t o h
  = (h, Ok (processed.mk (dataset.patients d) (dataset.conditions d) ms os tl outs
              (summary_of (dataset.patients d) (dataset.conditions d) ms os outs))).
Proof.
  intros Hm Ho Ht Hout. unfold save_processed_data.
  rewrite (bind_read_medications _ ms), (bind_read_observations _ os),
    (bind_read_timeline _ tl), (bind_read_outcomes _ outs) by done.
  unfold summary_of. by destruct outs.
Qed.

Section full_main.
Context `{Parsers} `{Argsort} `{Regex}.

Lemma cohort_conditions_eq (args : args.t) (dataset : dataset.t) :
  (if args.include_comorbidities args then
     filter (λ c, condition.patient c ∈ cohort args dataset)
       (dataset.conditions dataset)
   else
     filter (λ c, condition.patient c ∈ cohort args dataset
                  ∧ isin ["44054006"; "46635009"] (condition.code c))
       (dataset.conditions dataset))
  = cohort_conditions args dataset.
Proof.
  unfold cohort_conditions.
  destruct (args.include_comorbidities args); apply list_filter_iff; intros c; naive_solver.
Qed.

Lemma cohort_Ok (args : args.t) (dataset : dataset.t) :
  has_descriptions (dataset.conditions dataset) →
  identify_diabetic_patients (dataset.conditions dataset) (args.diabetes_codes args)
  = Ok (cohort args dataset).
Proof.
  intros Hd. unfold cohort.
  destruct (identify_diabetic_patients _ _) as [patients|e] eqn:Hid; [done|].
  by apply identify_diabetic_patients_Raise in Hid as [_ ?].
Qed.

(** Without a description that is text, [main] raises before it has made
    any frame. *)
Lemma data_preparation_main_Raise (args : args.t) (dataset : dataset.t) (h : heap) :
  ¬ has_descriptions (dataset.conditions dataset) →
  data_preparation.main args dataset h = (h, Raise AttributeError).
Proof.
  intros Hd. unfold data_preparation.main.
  destruct (identify_diabetic_patients_unfold (dataset.conditions dataset)
              (args.diabetes_codes args)) as [[? _]|[_ ->]]; done.
Qed.

Lemma bind_stages {B} (m o : loc) (f : loc → loc → M B) (h : heap) :
  (medication_periods ← create_medication_periods m;
   timeline_df ← create_observation_timeline o medication_periods;
   outcomes_df ← create_patient_medication_outcomes timeline_df;
   f timeline_df outcomes_df) h
  = match main m o h with
    | (h', Ok (timeline_df, outcomes_df)) => f timeline_df outcomes_df h'
    | (h', Raise e) => (h', Raise e)
    end.
Proof.
  rewrite main_unfold. unfold mbind, M_bind.
  destruct (create_medication_periods m h) as [h1 [p|e]]; [|done].
  destruct (create_observation_timeline o p h1) as [h2 [tl|e]]; [|done].
  destruct (create_patient_medication_outcomes tl h2) as [h3 [out|e]]; done.
Qed.

Lemma data_preparation_main_steps (args : args.t) (dataset : dataset.t) (h : heap)
    (ms : list medication.t) (os : list observation.t) :
  has_descriptions (dataset.conditions dataset) →
  h !! dataset.medications dataset = Some (Medications ms) →
  h !! dataset.observations dataset = Some (Observations os) →
  ∃ l1 l3 h3,
    h !! l1 = None ∧ h !! l3 = None ∧ l1 ≠ l3
    ∧ h3 !! l1 = Some (Medications (cohort_medications args dataset ms))
    ∧ h3 !! l3 = Some (Observations (cohort_observations args dataset os))
    ∧ (∀ l, is_Some (h !! l) → h3 !! l = h !! l)
    ∧ data_preparation.main args dataset h =
        match main l1 l3 h3 with
        | (h4, Ok (timeline_df, outcomes_df)) =>
            save_processed_data
              (dataset.mk (cohort_patients args dataset)
                 (cohort_conditions args dataset) l1 l3)
              timeline_df outcomes_df h4
        | (h4, Raise e) => (h4, Raise e)
        end.
Proof.
  intros Hd Hm Ho.
  set (l1 := fresh (dom h)).
  set (h1 := <[l1 := Medications (cohort_medications args dataset ms)]> h).
  set (l2 := fresh (dom h1)).
  set (fo := filter (λ o, observation.patient o ∈ cohort args dataset) os).
  set (h2 := <[l2 := Observations fo]> h1).
  set (l3 := fresh (dom h2)).
  set (h3 := <[l3 := Observations (cohort_observations args dataset os)]> h2).
  assert (Hl1 : h !! l1 = None) by apply fresh_lookup.
  assert (Hl2 : h1 !! l2 = None) by apply fresh_lookup.
  assert (Hl3 : h2 !! l3 = None) by apply fresh_lookup.
  assert (H12 : l1 ≠ l2).
  { intros Heq. rewrite <- Heq in Hl2. unfold h1 in Hl2.
    by rewrite lookup_insert_eq in Hl2. }
  assert (H23 : l2 ≠ l3).
  { intros Heq. rewrite <- Heq in Hl3. unfold h2 in Hl3.
    by rewrite lookup_insert_eq in Hl3. }
  assert (H13 : l1 ≠ l3).
  { intros Heq. rewrite <- Heq in Hl3. unfold h2, h1 in Hl3.
    rewrite lookup_insert_ne, lookup_insert_eq in Hl3 by done. done. }
  exists l1, l3, h3. split; [done|]. split.
  { unfold h2, h1 in Hl3. by rewrite !lookup_insert_ne in Hl3. }
  split; [done|]. split.
  { unfold h3, h2, h1. rewrite !lookup_insert_ne by done. apply lookup_insert_eq. }
  split; [apply lookup_insert_eq|]. split.
  { intros l [fr Hl].
    assert (l1 ≠ l) by congruence.
    assert (Hl' : h1 !! l = Some fr) by (by unfold h1; rewrite lookup_insert_ne).
    assert (l2 ≠ l) by congruence.
    assert (Hl'' : h2 !! l = Some fr) by (by unfold h2; rewrite lookup_insert_ne).
    assert (l3 ≠ l) by congruence.
    unfold h3. rewrite lookup_insert_ne by done. congruence. }
  unfold data_preparation.main, filter_dataset_for_diabetic_patients.
  rewrite (cohort_Ok args dataset Hd), bind_lift_Ok.
  rewrite !bind_assoc_M, (bind_read_medications _ ms) by done.
  rewrite !bind_assoc_M, bind_new_frame.
  fold (cohort_medications args dataset ms). fold l1 h1.
  rewrite !bind_assoc_M, (bind_read_observations _ os)
    by (by unfold h1; rewrite lookup_insert_ne by congruence).
  rewrite !bind_assoc_M, bind_new_frame. fold fo l2 h2.
  rewrite bind_mret_M. cbn [dataset.observations dataset.medications].
  rewrite (bind_filter_relevant_observations h2 l2 fo) by apply lookup_insert_eq.
  fold l3. fold (cohort_observations args dataset os). fold h3.
  rewrite cohort_conditions_eq. fold (cohort_patients args dataset).
  unfold dataset.with_observations. cbn [dataset.observations dataset.medications
    dataset.patients dataset.conditions].
  apply bind_stages.
Qed.
(** What a run of [main] that returns has saved. *)
Lemma data_preparation_main_Ok (args : args.t) (dataset : dataset.t)
    (h h' : heap) (p : processed.t)
    (ms : list medication.t) (os : list observation.t) :
  h !! dataset.medications dataset = Some (Medications ms) →
  h !! dataset.observations dataset = Some (Observations os) →
  data_preparation.main args dataset h = (h', Ok p) →
  let cm := cohort_medications args dataset ms in
  let co := cohort_observations args dataset os in
  ∃ saved_observations,
    p = processed.mk (cohort_patients args dataset) (cohort_conditions args dataset)
          (normalized_row <$> cm) saved_observations
          (processed.observation_timeline p) (processed.medication_outcomes p)
          (summary_of (cohort_patients args dataset) (cohort_conditions args dataset)
             (normalized_row <$> cm) saved_observations
             (processed.medication_outcomes p))
    ∧ ((co = [] ∨ cm = []) ∧ saved_observations = co
       ∨ co ≠ [] ∧ cm ≠ [] ∧ saved_observations = coerced_row <$> co)
    ∧ pipeline (Some (Medications cm)) (Some (Observations co))
      = Ok (Some (Timeline (processed.observation_timeline p)),
            Some (Outcomes (processed.medication_outcomes p))).
Proof.
  intros Hm Ho Hrun cm co.
  destruct (str_accessor_result (dataset.conditions dataset)) as [[Hd _]|[Hd _]].
  2: { by rewrite data_preparation_main_Raise in Hrun. }
  destruct (data_preparation_main_steps args dataset h ms os Hd Hm Ho)
    as (l1 & l3 & h3 & Hl1 & Hl3 & Hne & Hm3 & Ho3 & Hframe & Hmain).
  rewrite Hmain in Hrun.
  destruct (main l1 l3 h3) as [h4 [[tl out]|e]] eqn:Hrun4; [|done].
  destruct (main_contents l1 l3 h3 h4 tl out _ _ Hm3 Ho3 Hrun4)
    as (Hm4 & Ho4 & Hpipe).
  fold cm co in Hm4, Ho4, Hpipe.
  destruct (pipeline_Ok_inv _ _ _ Hpipe) as (records & outs & Hx & _).
  injection Hx as Htl Hout.
  assert (Hobs : ∃ so, h4 !! l3 = Some (Observations so)
    ∧ ((co = [] ∨ cm = []) ∧ so = co ∨ co ≠ [] ∧ cm ≠ [] ∧ so = coerced_row <$> co)).
  { destruct Ho4 as [[? ?]|(? & ? & ?)]; eauto 10. }
  destruct Hobs as (so & Hso & Hcase).
  rewrite (save_processed_data_Ok _ tl out h4 (normalized_row <$> cm) so
             (numeric_row <$> records) outs) in Hrun by done.
  injection Hrun as <- <-. exists so. simpl. split; [done|]. split; [done|].
  by rewrite Hpipe, Htl, Hout.
Qed.
Lemma pipeline_Ok_converts (ms : list medication.t) fo x :
  pipeline (Some (Medications ms)) fo = Ok x →
  Forall (λ m, (∃ c, converts_to (medication.start m) c)
               ∧ (∃ c, converts_to (medication.stop m) c)) ms.
Proof.
  unfold pipeline. destruct (normalize _) as [periods|] eqn:Hn; [|done].
  by apply normalize_Ok in Hn as [? _].
Qed.

Lemma normalized_row_stop (m : medication.t) :
  (∃ c, converts_to (medication.stop m) c) →
  ∃ ns, medication.stop (normalized_row m) = DTime ns.
Proof.
  intros [c Hc]. unfold normalized_row, converted. simpl.
  unfold converts_to in Hc. rewrite Hc.
  destruct (medication.stop m) as [s| |ns|]; simpl in Hc.
  - destruct (parse_datetime s) as [[ns|]|]; simplify_eq; simpl; eauto.
  - simplify_eq. simpl. eauto.
  - simplify_eq. simpl. eauto.
  - simplify_eq. simpl. eauto.
Qed.

Lemma pipeline_no_medications (os : list observation.t) :
  pipeline (Some (Medications [])) (Some (Observations os))
  = Ok (Some (Timeline []), Some (Outcomes [])).
Proof.
  unfold pipeline. simpl. rewrite decide_True by (by right). done.
Qed.

(** X9. [main] changes none of the frames that exist when it is called, the
    loaded medications and observations among them: the stages update the
    filtered copies. This holds whether [main] returns or raises. *)
Theorem main_updates_copies_only (args : args.t) (dataset : dataset.t)
    (h h' : heap) (r : result processed.t) :
  data_preparation.main args dataset h = (h', r) →
  ∀ l, is_Some (h !! l) → h' !! l = h !! l.
Proof.
  intros Hrun l Hl.
  destruct (str_accessor_result (dataset.conditions dataset)) as [[Hd _]|[Hd _]].
  2: { rewrite data_preparation_main_Raise in Hrun by done. by injection Hrun as <- _. }
  assert (Hnom : (∀ ms, h !! dataset.medications dataset ≠ Some (Medications ms)) →
    h' = h).
  { intros Hno.
    unfold data_preparation.main, filter_dataset_for_diabetic_patients in Hrun.
    rewrite (cohort_Ok args dataset Hd), bind_lift_Ok in Hrun.
    rewrite !bind_assoc_M in Hrun.
    unfold mbind at 1, M_bind at 1, read_medications in Hrun.
    destruct (h !! dataset.medications dataset) as [[ms|?|?|?]|];
      try (by injection Hrun as <- _).
    by destruct (Hno ms). }
  destruct (h !! dataset.medications dataset) as [[ms|?|?|?]|] eqn:Hm;
    try (by rewrite Hnom).
  clear Hnom.
  assert (Hfresh : fresh (dom h) ≠ l).
  { intros Heq. pose proof (fresh_lookup h) as Hf. rewrite Heq in Hf.
    rewrite Hf in Hl. by destruct Hl. }
  assert (Hnoo : (∀ os, h !! dataset.observations dataset ≠ Some (Observations os)) →
    h' !! l = h !! l).
  { intros Hno.
    unfold data_preparation.main, filter_dataset_for_diabetic_patients in Hrun.
    rewrite (cohort_Ok args dataset Hd), bind_lift_Ok in Hrun.
    rewrite !bind_assoc_M, (bind_read_medications _ ms) in Hrun by done.
    rewrite !bind_assoc_M, bind_new_frame in Hrun.
    rewrite !bind_assoc_M in Hrun.
    unfold mbind at 1, M_bind at 1, read_observations in Hrun.
    destruct (decide (dataset.observations dataset = fresh (dom h))) as [Heq|Hne].
    - rewrite Heq, lookup_insert_eq in Hrun. injection Hrun as <- _.
      by rewrite lookup_insert_ne.
    - rewrite lookup_insert_ne in Hrun by done.
      destruct (h !! dataset.observations dataset) as [[?|os|?|?]|];
        try (injection Hrun as <- _; by rewrite lookup_insert_ne).
      by destruct (Hno os). }
  destruct (h !! dataset.observations dataset) as [[?|os|?|?]|] eqn:Ho;
    try (by apply Hnoo).
  clear Hnoo.
  destruct (data_preparation_main_steps args dataset h ms os Hd Hm Ho)
    as (l1 & l3 & h3 & Hl1 & Hl3 & Hne & _ & _ & Hframe & Hmain).
  rewrite Hmain in Hrun.
  destruct (main l1 l3 h3) as [h4 r4] eqn:Hrun4.
  assert (h4 !! l = h !! l) as <-.
  { rewrite <- Hframe by done. eapply main_frame; [done|..].
    - intros ->. rewrite Hl1 in Hl. by destruct Hl.
    - intros ->. rewrite Hl3 in Hl. by destruct Hl.
    - by rewrite Hframe. }
  destruct r4 as [[tl out]|e]; [|by injection Hrun as <- _].
  pose proof (save_processed_data_heap
    (dataset.mk (cohort_patients args dataset) (cohort_conditions args dataset) l1 l3)
    tl out h4) as Hsave.
  rewrite Hrun in Hsave. simpl in Hsave. by subst.
Qed.

(** X10. The tables that [main] saves are the filtered copies as the stages
    have left them. The saved medications are the normalized periods of the
    cohort's medications, one per row, and none has a missing stop date: a
    missing one has become the sentinel [pd.Timestamp.max]. The saved
    observations are the relevant observations of the cohort as they were
    read when one of the two tables is empty, and otherwise with their
    dates converted and their values coerced to numbers, NaN for a value
    that is not a number. *)
Theorem saved_tables_are_the_updated_ones (args : args.t) (dataset : dataset.t)
    (h h' : heap) (p : processed.t)
    (ms : list medication.t) (os : list observation.t) :
  h !! dataset.medications dataset = Some (Medications ms) →
  h !! dataset.observations dataset = Some (Observations os) →
  data_preparation.main args dataset h = (h', Ok p) →
  let cm := cohort_medications args dataset ms in
  let co := cohort_observations args dataset os in
  Forall2 period_of cm (processed.medications_diabetic p)
  ∧ Forall (λ m, ∃ ns, medication.stop m = DTime ns) (processed.medications_diabetic p)
  ∧ ((co = [] ∨ cm = []) ∧ processed.observations_diabetic p = co
     ∨ co ≠ [] ∧ cm ≠ [] ∧ processed.observations_diabetic p = coerced_row <$> co)
  ∧ processed.patients_diabetic p = cohort_patients args dataset
  ∧ processed.conditions_diabetic p = cohort_conditions args dataset.
Proof.
  intros Hm Ho Hrun cm co.
  destruct (data_preparation_main_Ok args dataset h h' p ms os Hm Ho Hrun)
    as (so & Hp & Hso & Hpipe).
  fold cm co in Hp, Hso, Hpipe.
  pose proof (pipeline_Ok_converts _ _ _ Hpipe) as Hconv.
  rewrite Hp. simpl. split; [|split; [|done]].
  - apply Forall2_fmap_r, Forall_Forall2_diag.
    eapply Forall_impl; [exact Hconv|]. intros m [? ?].
    by apply period_of_normalized_row.
  - rewrite Forall_fmap. eapply Forall_impl; [exact Hconv|]. intros m [_ ?].
    by apply normalized_row_stop.
Qed.

(** X11. Every outcome record that [main] saves belongs to a patient of the
    cohort, has the code of a glucose metric, or of a vital sign when those
    are included, has patient, code and description of a row of the loaded
    medications, and has patient, code, description and unit of a row of
    the loaded observations. *)
Theorem outcomes_stay_in_the_cohort (args : args.t) (dataset : dataset.t)
    (h h' : heap) (p : processed.t)
    (ms : list medication.t) (os : list observation.t) :
  h !! dataset.medications dataset = Some (Medications ms) →
  h !! dataset.observations dataset = Some (Observations os) →
  data_preparation.main args dataset h = (h', Ok p) →
  ∀ out, out ∈ processed.medication_outcomes p →
    outcome.patient out ∈ cohort args dataset
    ∧ (outcome.obs_code out ∈ args.glucose_codes args
       ∨ args.include_vitals args = true ∧ outcome.obs_code out ∈ vital_codes)
    ∧ (∃ m, m ∈ ms ∧ drug_of out m)
    ∧ (∃ o, o ∈ os ∧ metric_of out o
         ∧ outcome.obs_description out = observation.description o
         ∧ outcome.units out = observation.units o).
Proof.
  intros Hm Ho Hrun out Hout.
  destruct (data_preparation_main_Ok args dataset h h' p ms os Hm Ho Hrun)
    as (so & _ & _ & Hpipe).
  destruct (outcome_rows_of_pipeline _ _ _ _ Hpipe out Hout)
    as (m1 & o1 & m2 & o2 & o0 & Hm1 & _ & _ & _ & Ho0 & Hd1 & _ & _ & _ & _ & _
        & Hmet & Hdesc & Hunits).
  apply list_elem_of_filter in Hm1 as [Hc1 Hm1].
  unfold cohort_observations, relevant_observations in Ho0.
  assert (Ho0' : o0 ∈ os ∧ (observation.code o0 ∈ args.glucose_codes args
     ∨ args.include_vitals args = true ∧ observation.code o0 ∈ vital_codes)).
  { apply elem_of_app in Ho0 as [[? [_ ?]%list_elem_of_filter]%list_elem_of_filter|Ho0].
    - split; [done|]. by left.
    - destruct (args.include_vitals args); [|by apply elem_of_nil in Ho0].
      apply list_elem_of_filter in Ho0 as [? [_ ?]%list_elem_of_filter].
      split; [done|]. right. done. }
  destruct Ho0' as [Hin Hcode].
  pose proof Hd1 as (Hp1 & _). pose proof Hmet as [Hmp Hmc].
  split; [by rewrite <- Hp1|]. split; [by rewrite <- Hmc|].
  split; [exists m1; split; [done|]; done|].
  exists o0. done.
Qed.

(** X12. The summary that [main] saves agrees with the tables it saves with
    it: the five counts are the numbers of rows of the saved tables, the
    number of outcomes is at most half the number of timeline rows, and the
    two lists hold, once each, the metric descriptions and the medication
    descriptions of the outcome records, all of which are descriptions of
    saved observations and of saved medications. *)
Theorem summary_agrees_with_the_saved_tables (args : args.t) (dataset : dataset.t)
    (h h' : heap) (p : processed.t)
    (ms : list medication.t) (os : list observation.t) :
  h !! dataset.medications dataset = Some (Medications ms) →
  h !! dataset.observations dataset = Some (Observations os) →
  data_preparation.main args dataset h = (h', Ok p) →
  let s := processed.dataset_summary p in
  summary.num_diabetic_patients s = length (processed.patients_diabetic p)
  ∧ summary.num_diabetes_conditions s = length (processed.conditions_diabetic p)
  ∧ summary.num_medications s = length (processed.medications_diabetic p)
  ∧ summary.num_observations s = length (processed.observations_diabetic p)
  ∧ summary.num_medication_outcomes s = length (processed.medication_outcomes p)
  ∧ 2 * summary.num_medication_outcomes s ≤ length (processed.observation_timeline p)
  ∧ NoDup (summary.glucose_metrics_tracked s)
  ∧ NoDup (summary.medications_analyzed s)
  ∧ (∀ d, d ∈ summary.glucose_metrics_tracked s ↔
       d ∈ outcome.obs_description <$> processed.medication_outcomes p)
  ∧ (∀ d, d ∈ summary.medications_analyzed s ↔
       d ∈ outcome.med_description <$> processed.medication_outcomes p)
  ∧ summary.glucose_metrics_tracked s
      ⊆ observation.description <$> processed.observations_diabetic p
  ∧ summary.medications_analyzed s
      ⊆ medication.description <$> processed.medications_diabetic p.
Proof.
  intros Hm Ho Hrun s.
  destruct (data_preparation_main_Ok args dataset h h' p ms os Hm Ho Hrun)
    as (so & Hp & Hso & Hpipe).
  assert (Hs : s = summary_of (cohort_patients args dataset)
                 (cohort_conditions args dataset)
                 (normalized_row <$> cohort_medications args dataset ms) so
                 (processed.medication_outcomes p)).
  { unfold s. by rewrite Hp at 1. }
  assert (Hfields : processed.patients_diabetic p = cohort_patients args dataset
    ∧ processed.conditions_diabetic p = cohort_conditions args dataset
    ∧ processed.medications_diabetic p
      = normalized_row <$> cohort_medications args dataset ms
    ∧ processed.observations_diabetic p = so).
  { rewrite Hp. done. }
  destruct Hfields as (-> & -> & -> & ->). rewrite Hs. simpl.
  do 5 (split; [done|]).
  destruct (pipeline_Ok_inv _ _ _ Hpipe) as (records & outs & [= Htl Hout] & Houts & _).
  split.
  { rewrite Htl, Hout.
    by apply outcome_records_one_per_group in Houts as (_ & _ & ?). }
  split; [apply NoDup_unique|]. split; [apply NoDup_unique|].
  split; [intros d; apply elem_of_unique|]. split; [intros d; apply elem_of_unique|].
  split.
  - intros d (out & -> & Hin)%elem_of_unique%list_elem_of_fmap.
    destruct (outcome_rows_of_pipeline _ _ _ _ Hpipe out Hin)
      as (_ & _ & _ & _ & o0 & _ & _ & _ & _ & Ho0 & _ & _ & _ & _ & _ & _ & _ & -> & _).
    destruct Hso as [[_ ->]|(_ & _ & ->)].
    + by apply list_elem_of_fmap_2.
    + rewrite <- list_fmap_compose. by apply (list_elem_of_fmap_2 (observation.description ∘ coerced_row)).
  - intros d (out & -> & Hin)%elem_of_unique%list_elem_of_fmap.
    destruct (outcome_rows_of_pipeline _ _ _ _ Hpipe out Hin)
      as (m1 & _ & _ & _ & _ & Hm1 & _ & _ & _ & _ & (_ & _ & <-) & _).
    rewrite <- list_fmap_compose.
    by apply (list_elem_of_fmap_2 (medication.description ∘ normalized_row)).
Qed.
(** X13. When no loaded medication belongs to a patient of the cohort (as
    when no patient is identified), the dates and values of the tables do
    not matter. On a conditions table that has no row, or has a description
    that is text, [main] returns: the timeline and the outcomes are empty,
    the summary reports no outcome, no metric and no medication, and the
    relevant observations are saved as they were read. On a conditions
    table with rows whose descriptions are all missing, [main] raises
    [AttributeError] when it identifies the patients, before it has made
    any frame, and saves nothing. *)
Theorem main_without_cohort_medications (args : args.t) (dataset : dataset.t)
    (h : heap) (ms : list medication.t) (os : list observation.t) :
  h !! dataset.medications dataset = Some (Medications ms) →
  h !! dataset.observations dataset = Some (Observations os) →
  cohort_medications args dataset ms = [] →
  (has_descriptions (dataset.conditions dataset) →
   ∃ h' p,
     data_preparation.main args dataset h = (h', Ok p)
     ∧ processed.medications_diabetic p = []
     ∧ processed.observations_diabetic p = cohort_observations args dataset os
     ∧ processed.observation_timeline p = []
     ∧ processed.medication_outcomes p = []
     ∧ summary.num_medication_outcomes (processed.dataset_summary p) = 0
     ∧ summary.glucose_metrics_tracked (processed.dataset_summary p) = []
     ∧ summary.medications_analyzed (processed.dataset_summary p) = [])
  ∧ (¬ has_descriptions (dataset.conditions dataset) →
     data_preparation.main args dataset h = (h, Raise AttributeError)).
Proof.
  intros Hm Ho Hcm. split; [|apply data_preparation_main_Raise]. intros Hd.
  destruct (data_preparation_main_steps args dataset h ms os Hd Hm Ho)
    as (l1 & l3 & h3 & Hl1 & Hl3 & Hne & Hm3 & Ho3 & Hframe & Hmain).
  rewrite Hcm in Hm3.
  destruct (main_run l1 l3 h3) as [Hpipe _].
  rewrite Hm3, Ho3, pipeline_no_medications in Hpipe.
  destruct (main l1 l3 h3) as [h4 [[tl out]|e]] eqn:Hrun4; [|done].
  simpl in Hpipe. injection Hpipe as Htl Hout.
  destruct (main_contents l1 l3 h3 h4 tl out _ _ Hm3 Ho3 Hrun4) as (Hm4 & Ho4 & _).
  assert (Ho4' : h4 !! l3 = Some (Observations (cohort_observations args dataset os))).
  { destruct Ho4 as [[_ ?]|(_ & ? & _)]; done. }
  rewrite Hmain.
  rewrite (save_processed_data_Ok _ tl out h4 [] (cohort_observations args dataset os)
             [] []) by done.
  eexists _, _. split; [done|]. done.
Qed.
End full_main.

(** [main] on the sample dataset. *)
Lemma main_updates_copies_only_witness :
  (data_preparation.main sample_args sample_dataset sample_loaded).1 !! 1%positive
  = Some (Medications loaded_medications)
  ∧ (data_preparation.main sample_args sample_dataset sample_loaded).1 !! 2%positive
    = Some (Observations loaded_observations).
Proof.
  pose proof (main_updates_copies_only sample_args sample_dataset sample_loaded
           (data_preparation.main sample_args sample_dataset sample_loaded).1
           (data_preparation.main sample_args sample_dataset sample_loaded).2) as H.
  split.
  - rewrite (H ltac:(by destruct (data_preparation.main _ _ _)) 1%positive).
    + reflexivity.
    + eexists. reflexivity.
  - rewrite (H ltac:(by destruct (data_preparation.main _ _ _)) 2%positive).
    + reflexivity.
    + eexists. reflexivity.
Defined.

(** The saved tables of the sample dataset. *)
Lemma saved_tables_are_the_updated_ones_witness :
  let cm := cohort_medications sample_args sample_dataset loaded_medications in
  let co := cohort_observations sample_args sample_dataset loaded_observations in
  Forall2 period_of cm (processed.medications_diabetic sample_processed)
  ∧ Forall (λ m, ∃ ns, medication.stop m = DTime ns)
      (processed.medications_diabetic sample_processed)
  ∧ ((co = [] ∨ cm = []) ∧ processed.observations_diabetic sample_processed = co
     ∨ co ≠ [] ∧ cm ≠ []
       ∧ processed.observations_diabetic sample_processed = coerced_row <$> co)
  ∧ processed.patients_diabetic sample_processed
    = cohort_patients sample_args sample_dataset
  ∧ processed.conditions_diabetic sample_processed
    = cohort_conditions sample_args sample_dataset.
Proof.
  apply (saved_tables_are_the_updated_ones sample_args sample_dataset sample_loaded
           (data_preparation.main sample_args sample_dataset sample_loaded).1).
  - reflexivity.
  - reflexivity.
  - vm_compute. reflexivity.
Defined.

(** The outcome record of the sample dataset. *)
Lemma outcomes_stay_in_the_cohort_witness :
  Forall (λ out,
    outcome.patient out ∈ cohort sample_args sample_dataset
    ∧ (outcome.obs_code out ∈ args.glucose_codes sample_args
       ∨ args.include_vitals sample_args = true ∧ outcome.obs_code out ∈ vital_codes)
    ∧ (∃ m, m ∈ loaded_medications ∧ drug_of out m)
    ∧ (∃ o, o ∈ loaded_observations ∧ metric_of out o
         ∧ outcome.obs_description out = observation.description o
         ∧ outcome.units out = observation.units o))
    (processed.medication_outcomes sample_processed).
Proof.
  apply Forall_forall.
  apply (outcomes_stay_in_the_cohort sample_args sample_dataset sample_loaded
           (data_preparation.main sample_args sample_dataset sample_loaded).1).
  - reflexivity.
  - reflexivity.
  - vm_compute. reflexivity.
Defined.

(** The summary of the sample dataset. *)
Lemma summary_agrees_with_the_saved_tables_witness :
  2 * summary.num_medication_outcomes (processed.dataset_summary sample_processed)
    ≤ length (processed.observation_timeline sample_processed)
  ∧ summary.medications_analyzed (processed.dataset_summary sample_processed)
      ⊆ medication.description <$> processed.medications_diabetic sample_processed.
Proof.
  destruct (summary_agrees_with_the_saved_tables sample_args sample_dataset
              sample_loaded (data_preparation.main sample_args sample_dataset sample_loaded).1 sample_processed
              loaded_medications loaded_observations)
    as (_ & _ & _ & _ & _ & Hbound & _ & _ & _ & _ & _ & Hmeds).
  - reflexivity.
  - reflexivity.
  - vm_compute. reflexivity.
  - split; [exact Hbound|exact Hmeds].
Defined.

(** [main] on a dataset without conditions. *)
Lemma main_without_cohort_medications_witness :
  ∃ h' p,
    data_preparation.main sample_args nobody sample_loaded = (h', Ok p)
    ∧ processed.medications_diabetic p = []
    ∧ processed.observations_diabetic p
      = cohort_observations sample_args nobody loaded_observations
    ∧ processed.observation_timeline p = []
    ∧ processed.medication_outcomes p = []
    ∧ summary.num_medication_outcomes (processed.dataset_summary p) = 0
    ∧ summary.glucose_metrics_tracked (processed.dataset_summary p) = []
    ∧ summary.medications_analyzed (processed.dataset_summary p) = [].
Proof.
  apply (main_without_cohort_medications sample_args nobody sample_loaded
           loaded_medications loaded_observations).
  - reflexivity.
  - reflexivity.
  - vm_compute. reflexivity.
  - by left.
Defined.

(** * The patients chosen for the examples *)

Lemma StronglySorted_reverse {A} (R : relation A) (l : list A) :
  StronglySorted R l → StronglySorted (flip R) (reverse l).
Proof.
  induction 1 as [|x l _ IH Hx]; [constructor|].
  rewrite reverse_cons. apply StronglySorted_app_2; [|exact IH|repeat constructor].
  intros a b Ha ->%list_elem_of_singleton. rewrite elem_of_reverse in Ha.
  unfold flip. rewrite Forall_forall in Hx. by apply Hx.
Qed.

Section descending.
Context `{Argsort} {A : Type} (by_ : A → Z).

Lemma argsort_rows_Permutation (l : list A) :
  omap (λ i, l !! i) (argsort (by_ <$> l)) ≡ₚ l.
Proof.
  rewrite argsort_perm, length_fmap. by rewrite omap_lookup_seq.
Qed.

Lemma argsort_rows_sorted (l : list A) :
  StronglySorted (λ a b, (by_ a ≤ by_ b)%Z) (omap (λ i, l !! i) (argsort (by_ <$> l))).
Proof.
  apply StronglySorted_fmap_inv.
  assert (Heq : by_ <$> omap (λ i, l !! i) (argsort (by_ <$> l))
                = omap (λ i, (by_ <$> l) !! i) (argsort (by_ <$> l))).
  { generalize (argsort (by_ <$> l)). intros idx.
    induction idx as [|i idx IH]; [done|]. simpl.
    rewrite list_lookup_fmap. destruct (l !! i); simpl; [f_equal|]; exact IH. }
  rewrite Heq. apply argsort_sorted.
Qed.

Lemma sort_values_descending_Permutation (df : list A) :
  sort_values_descending by_ df ≡ₚ df.
Proof.
  unfold sort_values_descending.
  by rewrite reverse_Permutation, argsort_rows_Permutation, reverse_Permutation.
Qed.

Lemma sort_values_descending_sorted (df : list A) :
  StronglySorted (λ a b, (by_ b ≤ by_ a)%Z) (sort_values_descending by_ df).
Proof.
  unfold sort_values_descending.
  apply (StronglySorted_reverse (λ a b, (by_ a ≤ by_ b)%Z)), argsort_rows_sorted.
Qed.
End descending.

Lemma head_rows_prefix {A} (n : Z) (df : list A) :
  ∃ k, head_rows n df = take k df ∧ (0 ≤ n → k = Z.to_nat n)%Z.
Proof.
  unfold head_rows. case_bool_decide; eexists; (split; [done|]); [done|lia].
Qed.

Lemma groupby_size_keys {A} (by_ : A → string) (df : list A) :
  NoDup (groupby_size by_ df).*1
  ∧ ∀ p c, (p, c) ∈ groupby_size by_ df ↔
      p ∈ by_ <$> df ∧ c = Z.of_nat (length (filter (λ r, by_ r = p) df)).
Proof.
  unfold groupby_size. split.
  - rewrite <- list_fmap_compose.
    rewrite (list_fmap_ext _ fst) by done.
    eapply StronglySorted_NoDup; [|apply (groupby_keys_sorted str_le)].
    by intros a [_ ?].
  - intros p c. rewrite list_elem_of_fmap. split.
    + intros ([k g] & [= -> ->] & [Hk ->]%elem_of_groupby). done.
    + intros [Hp ->]. exists (p, filter (λ r, by_ r = p) df). split; [done|].
      by apply elem_of_groupby.
Qed.

Section chosen_patients.
Context `{Argsort}.

(** X14. The patients that [format_data_for_llm] selects for its examples
    are distinct patients of the outcome table, as many as [max_patients]
    allows, and those with the most outcome records: no patient that is
    left out has more outcome records than one that is selected. *)
Theorem selected_patients_have_the_most_outcomes (outcomes_df : list outcome.t)
    (max_patients : Z) :
  let count := λ p, length (filter (λ o, outcome.patient o = p) outcomes_df) in
  let selected := selected_patients outcomes_df max_patients in
  NoDup selected
  ∧ selected ⊆ outcome.patient <$> outcomes_df
  ∧ ((0 ≤ max_patients)%Z →
     length selected
     = Z.to_nat max_patients `min` length (unique (outcome.patient <$> outcomes_df)))
  ∧ ∀ p q, p ∈ selected → q ∈ outcome.patient <$> outcomes_df → q ∉ selected →
      count q ≤ count p.
Proof.
  intros count selected. unfold selected, selected_patients.
  set (gs := groupby_size outcome.patient outcomes_df).
  set (sorted := sort_values_descending snd gs).
  destruct (groupby_size_keys outcome.patient outcomes_df) as [Hnd Hgs]. fold gs in Hnd, Hgs.
  assert (Hperm : sorted ≡ₚ gs) by apply sort_values_descending_Permutation.
  assert (Hsorted : StronglySorted (λ a b : string * Z, (b.2 ≤ a.2)%Z) sorted)
    by apply (sort_values_descending_sorted snd).
  destruct (head_rows_prefix max_patients sorted) as (k & -> & Hk).
  assert (Hnd' : NoDup sorted.*1) by (by rewrite Hperm).
  clearbody sorted.
  rewrite <- (take_drop k sorted) in Hnd', Hsorted, Hperm.
  rewrite fmap_app in Hnd'. apply NoDup_app in Hnd' as (Hnd1 & Hdisj & _).
  split; [done|]. split; [|split].
  - intros p ([p' c] & -> & Hin)%list_elem_of_fmap.
    assert (Hin' : (p', c) ∈ gs).
    { rewrite <- Hperm. apply elem_of_app. by left. }
    by apply Hgs in Hin' as [? _].
  - intros Hn. rewrite length_fmap, length_take. rewrite (Hk Hn).
    f_equal. rewrite take_drop in Hperm. rewrite Hperm.
    unfold gs, groupby_size, groupby. rewrite !length_fmap.
    by rewrite merge_sort_Permutation.
  - intros p q ([p' cp] & -> & Hp)%list_elem_of_fmap Hq Hnq. simpl.
    assert (Hq' : (q, Z.of_nat (count q)) ∈ gs) by (by apply Hgs).
    rewrite <- Hperm in Hq'. apply elem_of_app in Hq' as [Hq'|Hq'].
    { destruct Hnq. by apply (list_elem_of_fmap_2 fst) in Hq'. }
    apply StronglySorted_app in Hsorted as (Hle & _).
    specialize (Hle _ _ Hp Hq'). simpl in Hle.
    assert (Hp' : (p', cp) ∈ gs).
    { rewrite <- Hperm. apply elem_of_app. by left. }
    apply Hgs in Hp' as [_ ->]. fold (count p') in Hle. lia.
Qed.
End chosen_patients.

(** * The model at work *)

(** For two calendar dates (midnights) the day difference is the
    difference of the day numbers. *)
Lemma day_difference_dates (a b : Z) :
  day_difference (DTime (a * ns_per_day)) (DTime (b * ns_per_day)) = Some (a - b)%Z.
Proof.
  simpl. f_equal. rewrite <- Z.mul_sub_distr_r. by apply Z.div_mul.
Qed.

(** The scenario of the specification: offsets -31 and 182, change -2.0,
    percent change -22.2 (the binary64 nearest to -200/9). *)
Example scenario_timeline :
  ∃ records outs,
    outputs (main 1%positive 2%positive scenario)
      = Ok (Some (Timeline records), Some (Outcomes outs))
    ∧ timeline.days_relative <$> records = [Some (-31)%Z; Some 182%Z]
    ∧ outs =
        [outcome.mk "P" (CodeStr "M") "Metformin" "X" "HbA1c" (VNum 9) (VNum 7)
           (-2)%float (-0x1.638e38e38e38ep+4)%float
           (DTime 1575158400000000000) (DTime 1593561600000000000)
           (Some 182%Z) "%"].
Proof. eexists _, _. split; [vm_compute; reflexivity|]. by split. Qed.

(** A missing stop date becomes 2262-04-11 23:47:16.854775807. *)
Example stop_filled_with_sentinel :
  (create_medication_periods 1%positive scenario).1 !! 1%positive
  = Some (Medications
            [medication.mk "P" (CodeStr "M") "Metformin" (DTime 1577836800000000000)
               (DTime 9223372036854775807) None]).
Proof. vm_compute. reflexivity. Qed.

(** Post candidates at 10, 175, 185 and 400: the one at 175 is taken
    (percent change -16.7). *)
Example closest_to_180_is_175 :
  fmap (M := list) reported <$> outcome_records (offsets_timeline
      [(400, VNum 6); (-20, VNum 9); (185, VNum 7); (10, VNum 8.5);
       (175, VNum 7.5)]%Z)
  = Ok [(VNum 9, VNum 7.5, (-1.5)%float, (-0x1.0aaaaaaaaaaaap+4)%float, Some 175%Z)].
Proof. vm_compute. reflexivity. Qed.

(** The most recent record before the start has a value that does not
    parse: it is the "pre" record all the same, and change and percent
    change are NaN. *)
Example unparsed_value_is_selected :
  fmap (M := list) reported <$> outcome_records (numeric (offsets_timeline
      [(-40, VStr "9.1"); (-3, VStr "pending"); (170, VStr "7.4")]%Z))
  = Ok [(VNum nan, VNum 0x1.d99999999999ap+2, nan, nan, Some 170%Z)].
Proof. vm_compute. reflexivity. Qed.

(** A pre value of 0: the change is defined, the percent change is NaN. *)
Example percent_change_of_zero :
  fmap (M := list) reported <$> outcome_records (offsets_timeline
      [(-1, VNum 0); (170, VNum 7.5)]%Z)
  = Ok [(VNum 0, VNum 7.5, 7.5%float, nan, Some 170%Z)].
Proof. vm_compute. reflexivity. Qed.

(** Groups with one record, without a record after the start, and without
    a record before it. *)
Example single_record_is_skipped :
  outcome_records (offsets_timeline [(-1, VNum 7)]%Z) = Ok []
  ∧ outcome_records (offsets_timeline [(-9, VNum 7); (-1, VNum 7)]%Z) = Ok []
  ∧ outcome_records (offsets_timeline [(3, VNum 7); (200, VNum 7)]%Z) = Ok [].
Proof. by vm_compute. Qed.

(** What [main] saves for the sample dataset: a patient identified by the
    description of a condition whose code was read as an integer, no
    condition row, a stop date filled with the sentinel, and a value that
    is not a number saved as NaN. *)
Example sample_dataset_is_processed :
  (data_preparation.main sample_args sample_dataset sample_loaded).2
  = Ok sample_processed.
Proof. vm_compute. reflexivity. Qed.

(** One drug prescribed twice and one observation between the two starts:
    the observation is 152 days after the first start and 214 days before
    the second, and is taken both as "pre" and as "post". *)
Example one_observation_as_pre_and_post :
  ∃ tl out,
    outputs (main 1%positive 2%positive refilled) = Ok (tl, Some (Outcomes [out]))
    ∧ outcome.pre_date out = outcome.post_date out
    ∧ outcome.change out = 0%float
    ∧ outcome.days_between out = Some 152%Z.
Proof. eexists _, _. split; [vm_compute; reflexivity|]. by split. Qed.

(** The one patient with outcome records of the sample dataset is
    selected. *)
Example sample_selected_patients :
  selected_patients (processed.medication_outcomes sample_processed) 50 = ["P1"].
Proof. vm_compute. reflexivity. Qed.

(** Two RxNorm codes of an integer column: 860975 comes before 1049221. *)
Example codes_in_numeric_order :
  fmap (M := list) outcome.med_code <$> outcome_records two_drugs
  = Ok [CodeInt 860975; CodeInt 1049221].
Proof. vm_compute. reflexivity. Qed.

(** A medication without a start, in a table that has not been through the
    normalizer: the missing start is a float, which cannot be subtracted
    from a timestamp. *)
Example missing_start_is_no_timestamp :
  (create_observation_timeline 2%positive 1%positive unstarted).2 = Raise TypeError.
Proof. vm_compute. reflexivity. Qed.

(** Conditions without any description: [main] raises and makes no
    frame. *)
Example main_without_descriptions :
  data_preparation.main sample_args undescribed sample_loaded
  = (sample_loaded, Raise AttributeError).
Proof. vm_compute. reflexivity. Qed.

(** The cohort of the sample dataset: P1 by the description of a condition
    whose code was read as an integer, P3 by a code that is text. *)
Example sample_cohort :
  identify_diabetic_patients sample_conditions (args.diabetes_codes sample_args)
  = Ok {[ "P1"; "P3" ]}.
Proof. vm_compute. reflexivity. Qed.
